(** * Funding-rate arbitrage engine: a shallow embedding of
      [funding_arbitrage_bot/core/arbitrage_engine.py]

    The engine is a Python class.  Its methods are embedded as Rocq
    functions that keep the source names.  Conventions:

    - Python floats are rationals ([Q]); arithmetic is exact, and a
      division by zero raises [ZeroDivisionError] as in Python.
    - Values of unknown shape (orderbooks, levels) are [pyval]s.
    - Python dicts are insertion-ordered association lists ([pydict]),
      because the iteration order is observable ([json.dump], the first
      matching position in [.values()]).
    - [try ... except Exception] blocks are written with [exc] results
      and explicit handlers.
    - Logging, the display manager and the webhook notifier do not
      influence any decision and are left out; the display manager is
      assumed started (method [start] creates it before the loop). *)

From Stdlib Require Import QArith Qabs Qround ZArith String Ascii List Bool Lia Lqa.
From Stdlib Require Import DecimalString DecimalPos DecimalZ.
Import ListNotations.

#[local] Set Warnings "-register-all".

Local Open Scope string_scope.
Local Open Scope Q_scope.

(** ** Exceptions and the error monad *)

Inductive py_exn : Type :=
| TypeError
| ValueError
| KeyError (key : string)
| IndexError
| ZeroDivisionError
| NameError (name : string)
| VenueError (msg : string).

Inductive exc (A : Type) : Type :=
| Ok (a : A)
| Raise (e : py_exn).

Arguments Ok {A} a.
Arguments Raise {A} e.

Definition exc_bind {A B : Type} (c : exc A) (k : A -> exc B) : exc B :=
  match c with
  | Ok a => k a
  | Raise e => Raise e
  end.

Declare Scope exc_scope.
Delimit Scope exc_scope with exc.
Notation "x <- c ;; k" := (exc_bind c (fun x => k))
  (at level 61, c at next level, right associativity) : exc_scope.
Notation "' pat <- c ;; k" := (exc_bind c (fun x => match x with pat => k end))
  (at level 61, pat pattern, c at next level, right associativity) : exc_scope.
Local Open Scope exc_scope.

(** ** Rational comparisons and the Python builtins used by the engine *)

Definition Qlt_bool (a b : Q) : bool := negb (Qle_bool b a).

(** [min(a, b)] returns its first argument unless the second is smaller;
    [max(a, b)] returns its first argument unless the second is larger. *)
Definition py_min (a b : Q) : Q := if Qlt_bool b a then b else a.
Definition py_max (a b : Q) : Q := if Qlt_bool a b then b else a.

(** [a / b] on floats. *)
Definition py_div (a b : Q) : exc Q :=
  if Qeq_bool b 0 then Raise ZeroDivisionError else Ok (a / b).

(** [1 if x > 0 else -1] *)
Definition sign_of (x : Q) : Z := if Qlt_bool 0 x then 1%Z else (-1)%Z.

(** ** Python values *)

Inductive pyval : Type :=
| PNone
| PBool (b : bool)
| PNum (q : Q)
| PStr (s : string)
| PList (l : list pyval)
| PDict (d : list (string * pyval)).

Definition pydict (V : Type) : Type := list (string * V).

Fixpoint dict_get {V : Type} (d : pydict V) (k : string) : option V :=
  match d with
  | [] => None
  | (k', v) :: d' => if String.eqb k' k then Some v else dict_get d' k
  end.

Definition dict_mem {V : Type} (d : pydict V) (k : string) : bool :=
  match dict_get d k with Some _ => true | None => false end.

(** [d[k] = v]: an existing key keeps its place, a new one goes last. *)
Fixpoint dict_set {V : Type} (d : pydict V) (k : string) (v : V) : pydict V :=
  match d with
  | [] => [(k, v)]
  | (k', v') :: d' =>
      if String.eqb k' k then (k', v) :: d' else (k', v') :: dict_set d' k v
  end.

(** [del d[k]] (the callers test [k in d] first). *)
Fixpoint dict_del {V : Type} (d : pydict V) (k : string) : pydict V :=
  match d with
  | [] => []
  | (k', v') :: d' =>
      if String.eqb k' k then d' else (k', v') :: dict_del d' k
  end.

Definition dict_keys {V : Type} (d : pydict V) : list string := map fst d.
Definition dict_values {V : Type} (d : pydict V) : list V := map snd d.

(** Truth value of a Python object, as [not x] and [if x] use it. *)
Definition py_truthy (v : pyval) : bool :=
  match v with
  | PNone => false
  | PBool b => b
  | PNum q => negb (Qeq_bool q 0)
  | PStr s => negb (String.eqb s EmptyString)
  | PList l => match l with [] => false | _ => true end
  | PDict d => match d with [] => false | _ => true end
  end.

Section Slippage.

(** [float(s)] on a string is the library's numeral parser; the engine
    only needs that it either yields a number or raises [ValueError]. *)
Variable float_of_str : string -> option Q.

Definition py_float (v : pyval) : exc Q :=
  match v with
  | PNum q => Ok q
  | PBool b => Ok (if b then 1 else 0)
  | PStr s => match float_of_str s with
              | Some q => Ok q
              | None => Raise ValueError
              end
  | PNone | PList _ | PDict _ => Raise TypeError
  end.

(** One pass of the loop at lines 384-395: a level of a recognised shape
    is converted to [[price, size]]; any other level is only logged
    ([None] here) and the loop goes on. *)
Definition convert_level (level : pyval) : exc (option (Q * Q)) :=
  match level with
  | PDict d =>
      match dict_get d "px", dict_get d "sz" with
      | Some px, Some sz =>
          p <- py_float px ;; s <- py_float sz ;; Ok (Some (p, s))
      | _, _ =>
          match dict_get d "price", dict_get d "size" with
          | Some px, Some sz =>
              p <- py_float px ;; s <- py_float sz ;; Ok (Some (p, s))
          | _, _ => Ok None
          end
      end
  | PList (l0 :: l1 :: _) =>
      p <- py_float l0 ;; s <- py_float l1 ;; Ok (Some (p, s))
  | _ => Ok None
  end.

Fixpoint convert_levels (levels : list pyval) : exc (list (Q * Q)) :=
  match levels with
  | [] => Ok []
  | level :: rest =>
      r <- convert_level level ;;
      book_side <- convert_levels rest ;;
      Ok (match r with
          | Some pl => pl :: book_side
          | None => book_side
          end)
  end.

(** [sorted(book_side, key=price)] and [sorted(..., reverse=True)]:
    both are stable, equal prices keep their original order. *)
Fixpoint insert_level (reverse : bool) (x : Q * Q) (l : list (Q * Q))
  : list (Q * Q) :=
  match l with
  | [] => [x]
  | y :: l' =>
      if (if reverse then Qle_bool (fst y) (fst x)
          else Qle_bool (fst x) (fst y))
      then x :: y :: l'
      else y :: insert_level reverse x l'
  end.

Definition sorted_by_price (reverse : bool) (l : list (Q * Q))
  : list (Q * Q) :=
  fold_right (insert_level reverse) [] l.

(** Result of the loop at lines 418-450: [amount_filled],
    [weighted_price] and the variable [level_price] as the last
    iteration left it. *)
Record walk_state : Type := mkWalk {
  amount_filled : Q;
  weighted_price : Q;
  last_level_price : Q
}.

Fixpoint walk_levels (book_side : list (Q * Q)) (amount_usd : Q)
    (filled weighted : Q) (levels_checked : nat) (last_price : Q)
  : exc walk_state :=
  match book_side with
  | [] => Ok (mkWalk filled weighted last_price)
  | (level_price, level_size) :: rest =>
      let level_value := level_price * level_size in
      if Qle_bool amount_usd (filled + level_value) then
        let remaining := amount_usd - filled in
        size_needed <- py_div remaining level_price ;;
        Ok (mkWalk amount_usd (weighted + level_price * size_needed)
              level_price)
      else
        let weighted' := weighted + level_price * level_size in
        let filled' := filled + level_value in
        let levels_checked' := S levels_checked in
        if (10 <=? levels_checked')%nat
        then Ok (mkWalk filled' weighted' level_price)
        else walk_levels rest amount_usd filled' weighted'
               levels_checked' level_price
  end.

(** Lines 467-494: average price against the last consumed level,
    slippage in percent, clamp. *)
Definition slippage_of_fill (side : string) (price : Q) (w : walk_state)
  : exc Q :=
  if Qlt_bool 0 (amount_filled w) then
    units <- py_div (amount_filled w) (last_level_price w) ;;
    average_price <- py_div (weighted_price w) units ;;
    ratio <- (if String.eqb side "bids"
              then py_div (price - average_price) price
              else py_div (average_price - price) price) ;;
    let slippage := Qabs (ratio * 100) in
    Ok (py_max 0.01 (py_min 0.5 slippage))
  else Ok 0.1.

(** Lines 452-465: the book ran out before the order was filled. *)
Definition after_walk (side : string) (amount_usd price : Q)
    (w : walk_state) : exc Q :=
  if Qlt_bool (amount_filled w) amount_usd then
    ratio <- py_div (amount_filled w) amount_usd ;;
    let fill_percentage := ratio * 100 in
    if Qle_bool 80 fill_percentage then slippage_of_fill side price w
    else
      let slippage := (100 - fill_percentage) / 100 in
      Ok (py_min 0.2 slippage)
  else slippage_of_fill side price w.

(** Lines 378-500 once [orderbook[side]] is known to be a non-empty
    list. *)
Definition analyze_levels (levels : list pyval) (side : string)
    (amount_usd price : Q) : exc Q :=
  book_side <- convert_levels levels ;;
  match book_side with
  | [] => Ok 0.1
  | _ :: _ =>
      let book_side := sorted_by_price (String.eqb side "bids") book_side in
      w <- walk_levels book_side amount_usd 0 0 0 0 ;;
      after_walk side amount_usd price w
  end.

(** [side not in orderbook] followed by [orderbook[side]] (lines
    366-376).  On a dict these are a key test and a lookup.  A list
    supports [in] but not an index that is a string; a string supports
    [in] (substring) but not a string index; other objects support
    neither. *)
Definition orderbook_side (orderbook : pyval) (side : string)
  : exc (option pyval) :=
  match orderbook with
  | PDict d => Ok (dict_get d side)
  | PList l =>
      if existsb (fun v => match v with
                           | PStr s => String.eqb s side
                           | _ => false
                           end) l
      then Raise TypeError else Ok None
  | PStr s =>
      match index 0 side s with
      | Some _ => Raise TypeError
      | None => Ok None
      end
  | _ => Raise TypeError
  end.

Definition analyze_body (orderbook : pyval) (side : string)
    (amount_usd price : Q) : exc Q :=
  if negb (py_truthy orderbook) then Ok 0.1
  else
    entry <- orderbook_side orderbook side ;;
    match entry with
    | None => Ok 0.1
    | Some v =>
        if negb (py_truthy v) then Ok 0.1
        else
          match v with
          | PList levels => analyze_levels levels side amount_usd price
          | PStr _ =>
              (* iterating a string yields one-character strings, all
                 of unrecognised shape: the converted book is empty *)
              Ok 0.1
          | PDict _ => Raise (KeyError "0")     (* orderbook[side][0] *)
          | _ => Raise TypeError
          end
    end.

(** The whole method: any exception is answered with the default. *)
Definition _analyze_orderbook (orderbook : pyval) (side : string)
    (amount_usd price : Q) : Q :=
  match analyze_body orderbook side amount_usd price with
  | Ok slippage => slippage
  | Raise _ => 0.1
  end.

End Slippage.

(** ** The sign file: JSON text and file operations *)

Module Json.

Local Open Scope char_scope.

Definition quote : ascii := ascii_of_nat 34.
Definition backslash : ascii := ascii_of_nat 92.

(** [json.dumps] of a key.  Symbols are printable ASCII identifiers;
    the quote and the backslash are the only characters escaped here. *)
Fixpoint escape (s : string) : string :=
  match s with
  | EmptyString => EmptyString
  | String c s' =>
      if Ascii.eqb c quote then String backslash (String quote (escape s'))
      else if Ascii.eqb c backslash
      then String backslash (String backslash (escape s'))
      else String c (escape s')
  end.

Definition dumps_key (k : string) : string :=
  String quote (escape k ++ String quote EmptyString).

Definition dumps_int (z : Z) : string := NilZero.string_of_int (Z.to_int z).

(** The chunks [json.dump] hands to [fp.write], in order. *)
Fixpoint member_chunks (first : bool) (d : pydict Z) : list string :=
  match d with
  | [] => []
  | (k, v) :: d' =>
      (if first then [] else [", "%string])
        ++ [dumps_key k; ": "%string; dumps_int v]
        ++ member_chunks false d'
  end.

Definition dump_chunks (d : pydict Z) : list string :=
  match d with
  | [] => ["{}"%string]
  | _ => ["{"%string] ++ member_chunks true d ++ ["}"%string]
  end.

Definition dumps (d : pydict Z) : string :=
  fold_right String.append EmptyString (dump_chunks d).

(** [json.load] followed by [{symbol: int(sign) ...}], for the documents
    the engine writes: one object whose values are integers.  [None]
    stands for the exception raised on any other text. *)
Definition is_ws (c : ascii) : bool :=
  Ascii.eqb c " " || Ascii.eqb c "009" || Ascii.eqb c "010" || Ascii.eqb c "013".

Fixpoint skip_ws (cs : list ascii) : list ascii :=
  match cs with
  | c :: cs' => if is_ws c then skip_ws cs' else cs
  | [] => []
  end.

Fixpoint parse_string_body (cs : list ascii) (acc : string)
  : option (string * list ascii) :=
  match cs with
  | [] => None
  | c :: cs' =>
      if Ascii.eqb c quote then Some (acc, cs')
      else if Ascii.eqb c backslash then
        match cs' with
        | e :: cs'' =>
            if Ascii.eqb e quote || Ascii.eqb e backslash
            then parse_string_body cs'' (acc ++ String e EmptyString)
            else None
        | [] => None
        end
      else parse_string_body cs' (acc ++ String c EmptyString)
  end.

Definition parse_string (cs : list ascii) : option (string * list ascii) :=
  match cs with
  | c :: cs' => if Ascii.eqb c quote then parse_string_body cs' EmptyString
                else None
  | [] => None
  end.

Definition is_digit (c : ascii) : bool :=
  (48 <=? nat_of_ascii c)%nat && (nat_of_ascii c <=? 57)%nat.

Fixpoint take_digits (cs : list ascii) : string * list ascii :=
  match cs with
  | c :: cs' =>
      if is_digit c
      then let '(ds, rest) := take_digits cs' in (String c ds, rest)
      else (EmptyString, cs)
  | [] => (EmptyString, [])
  end.

Definition parse_int (cs : list ascii) : option (Z * list ascii) :=
  let '(neg, cs1) :=
    match cs with
    | c :: cs' => if Ascii.eqb c "-" then (true, cs') else (false, cs)
    | [] => (false, cs)
    end in
  let '(ds, rest) := take_digits cs1 in
  match NilZero.int_of_string ds with
  | Some i => Some (if neg then (- Z.of_int i)%Z else Z.of_int i, rest)
  | None => None
  end.

Fixpoint parse_members (fuel : nat) (cs : list ascii) (acc : pydict Z)
  : option (pydict Z) :=
  match fuel with
  | O => None
  | S fuel' =>
      match parse_string (skip_ws cs) with
      | None => None
      | Some (k, cs1) =>
          match skip_ws cs1 with
          | c :: cs2 =>
              if Ascii.eqb c ":" then
                match parse_int (skip_ws cs2) with
                | None => None
                | Some (v, cs3) =>
                    let acc' := dict_set acc k v in
                    match skip_ws cs3 with
                    | d :: cs4 =>
                        if Ascii.eqb d "," then parse_members fuel' cs4 acc'
                        else if Ascii.eqb d "}" then
                          match skip_ws cs4 with
                          | [] => Some acc'
                          | _ => None
                          end
                        else None
                    | [] => None
                    end
                end
              else None
          | [] => None
          end
      end
  end.

Definition loads (s : string) : option (pydict Z) :=
  match skip_ws (list_ascii_of_string s) with
  | c :: cs =>
      if Ascii.eqb c "{" then
        match skip_ws cs with
        | d :: cs' =>
            if Ascii.eqb d "}" then
              match skip_ws cs' with [] => Some [] | _ => None end
            else parse_members (String.length s) (d :: cs') []
        | [] => None
        end
      else None
  | [] => None
  end.

End Json.

(** A file system holding text files by path. *)
Definition filesystem : Type := pydict string.

Inductive fs_op : Type :=
| FsOpenTrunc (path : string)            (* open(path, 'w') *)
| FsWrite (path : string) (chunk : string)
| FsClose (path : string)
| FsRename (src dst : string).           (* os.replace / os.rename *)

Definition fs_apply (fs : filesystem) (op : fs_op) : filesystem :=
  match op with
  | FsOpenTrunc p => dict_set fs p EmptyString
  | FsWrite p chunk =>
      match dict_get fs p with
      | Some old => dict_set fs p (old ++ chunk)
      | None => fs
      end
  | FsClose _ => fs
  | FsRename src dst =>
      match dict_get fs src with
      | Some content => dict_set (dict_del fs src) dst content
      | None => fs
      end
  end.

Definition fs_run (fs : filesystem) (ops : list fs_op) : filesystem :=
  fold_left fs_apply ops fs.

(** [<repo_root>/data/funding_diff_signs.json] *)
Definition funding_signs_file : string := "data/funding_diff_signs.json".

(** The file operations of [_save_funding_diff_signs] (lines 217-219):
    the target itself is opened for writing and the dump is written into
    it. *)
Definition save_ops (signs : pydict Z) : list fs_op :=
  [FsOpenTrunc funding_signs_file]
    ++ map (FsWrite funding_signs_file) (Json.dump_chunks signs)
    ++ [FsClose funding_signs_file].

(** [_load_funding_diff_signs] (lines 201-211). *)
Definition _load_funding_diff_signs (fs : filesystem) : pydict Z :=
  match dict_get fs funding_signs_file with
  | Some text =>
      match Json.loads text with
      | Some signs => signs
      | None => []                      (* except Exception: return {} *)
      end
  | None => []
  end.

(** ** Configuration

    The configuration is a nested dict; a missing key is [None] and the
    defaults are those the source passes to [.get]. *)

Record trading_pair : Type := mkTradingPair {
  tp_symbol : string;
  tp_max_position_size : option Q;
  tp_min_volume : option Q;
  tp_price_precision : option Z;
  tp_tick_size : option Q
}.

Record open_conditions : Type := mkOpenConditions {
  open_condition_type : option string;
  open_min_funding_diff : option Q;
  open_min_price_diff_percent : option Q;
  open_max_price_diff_percent : option Q;
  open_max_slippage_percent : option Q;
  open_ignore_high_slippage : option bool;
  open_check_direction_consistency : option bool
}.

Record close_conditions : Type := mkCloseConditions {
  close_condition_type : option string;
  close_funding_diff_sign_change : option bool;
  close_price_diff_sign_change : option bool;
  close_min_funding_diff : option Q;
  close_min_profit_percent : option Q;
  close_max_close_slippage_percent : option Q;
  close_ignore_close_slippage : option bool;
  close_check_direction_consistency : option bool
}.

(** [config["strategy"]] *)
Record strategy : Type := mkStrategy {
  st_open_conditions : option open_conditions;
  st_close_conditions : option close_conditions;
  st_max_positions_count : option Z;
  st_trading_pairs : option (list trading_pair);
  st_position_sizes : option (pydict Q);
  st_trade_size_usd : option (pydict Q)
}.

(** The whole configuration dict: the [strategy] section and the keys the
    engine reads next to it. *)
Record config : Type := mkConfig {
  cfg_strategy : option strategy;
  cfg_trading_pairs : option (list trading_pair)
}.

Definition get_or {A : Type} (o : option A) (default : A) : A :=
  match o with Some a => a | None => default end.

Definition empty_open_conditions : open_conditions :=
  mkOpenConditions None None None None None None None.
Definition empty_close_conditions : close_conditions :=
  mkCloseConditions None None None None None None None None.
Definition empty_strategy : strategy :=
  mkStrategy None None None None None None.

(** [self.config.get("strategy", {}).get("open_conditions", {})] *)
Definition config_open_conditions (cfg : config) : open_conditions :=
  get_or (st_open_conditions (get_or (cfg_strategy cfg) empty_strategy))
    empty_open_conditions.
Definition config_close_conditions (cfg : config) : close_conditions :=
  get_or (st_close_conditions (get_or (cfg_strategy cfg) empty_strategy))
    empty_close_conditions.

(** The loop [for pair in self.config.get("trading_pairs", [])] of lines
    751-754 and 1060-1063: the first entry whose symbol matches. *)
Definition find_trading_pair (cfg : config) (symbol : string)
  : option trading_pair :=
  find (fun pair => String.eqb (tp_symbol pair) symbol)
       (get_or (cfg_trading_pairs cfg) []).

(** [__init__], line 109: [strategy_config.get("trading_pairs", [])] *)
Definition init_trading_pairs (cfg : config) : exc (list trading_pair) :=
  match cfg_strategy cfg with
  | Some st => Ok (get_or (st_trading_pairs st) [])
  | None => Raise (KeyError "strategy")
  end.

(** ** Market data, positions, candidates *)

Record snapshot : Type := mkSnapshot {
  sn_valid : bool;
  sn_bp_price : option Q;
  sn_bp_funding : option Q;
  sn_hl_price : option Q;
  sn_hl_funding : option Q;
  sn_total_slippage : option Q;
  sn_long_slippage : option Q;
  sn_short_slippage : option Q;
  sn_long_exchange : option string;
  sn_short_exchange : option string
}.

Record position : Type := mkPosition {
  pos_symbol : option string;
  pos_side : option string;
  pos_size : option Q;
  pos_quantity : option Q
}.

(** The [position] dict built at lines 1024-1031. *)
Record pair_position : Type := mkPairPosition {
  pp_bp_symbol : string;
  pp_hl_symbol : string;
  pp_bp_side : string;
  pp_hl_side : string;
  pp_bp_size : Q;
  pp_hl_size : Q
}.

Inductive open_reason : Type :=
| OpenHasPosition
| OpenSlippageTooHigh (total_slippage : Q)
| OpenGlobalLimit (max_positions_count : Z)
| OpenNoTradingPair
| OpenSymbolLimit (current_size max_position_size : Q)
| OpenAny
| OpenAll
| OpenFundingOnly
| OpenPriceOnly
| OpenNoReason.

Inductive close_reason : Type :=
| CloseSlippageTooHigh (total_slippage : Q)
| CloseFundingReversed
| ClosePriceReversed
| ClosePriceConverged
| CloseAll
| CloseNoReason.

Record open_candidate : Type := mkOpenCandidate {
  cand_symbol : string;
  cand_funding_diff : Q;
  cand_bp_funding : Q;
  cand_hl_funding : Q;
  cand_available_size : option Q;
  cand_reason : open_reason
}.

Record close_candidate : Type := mkCloseCandidate {
  ccand_symbol : string;
  ccand_position : option pair_position;
  ccand_reason : close_reason
}.

(** ** Engine state *)

Record engine : Type := mkEngine {
  funding_diff_signs : pydict Z;          (* self.funding_diff_signs *)
  price_diff_signs : option (pydict Z);   (* created on first use *)
  market_data : pydict snapshot;          (* the data manager's dict *)
  files : filesystem
}.

Definition set_funding_diff_signs (e : engine) (signs : pydict Z) : engine :=
  mkEngine signs (price_diff_signs e) (market_data e) (files e).
Definition set_price_diff_signs (e : engine) (signs : option (pydict Z))
  : engine :=
  mkEngine (funding_diff_signs e) signs (market_data e) (files e).
Definition set_market_data (e : engine) (md : pydict snapshot) : engine :=
  mkEngine (funding_diff_signs e) (price_diff_signs e) md (files e).
Definition set_files (e : engine) (fs : filesystem) : engine :=
  mkEngine (funding_diff_signs e) (price_diff_signs e) (market_data e) fs.

(** Modelled from the spec: the data manager ([core.data_manager] is not
    part of this file).  [get_all_data] hands out the manager's own dict,
    so what the collector writes into a symbol's entry is what the
    evaluator reads back; [get_data] is the symbol's entry and
    [is_data_valid] the entry's flag. *)
Definition get_all_data (e : engine) : pydict snapshot := market_data e.

Definition get_data (e : engine) (symbol : string) : option snapshot :=
  dict_get (get_all_data e) symbol.

Definition is_data_valid (e : engine) (symbol : string) : bool :=
  match get_data e symbol with
  | Some data => sn_valid data
  | None => false
  end.

(** [_save_funding_diff_signs]: the write is taken to succeed (the
    constructor creates the [data] directory). *)
Definition _save_funding_diff_signs (e : engine) : engine :=
  set_files e (fs_run (files e) (save_ops (funding_diff_signs e))).

(** ** Orders and the venue interface *)

Record order : Type := mkOrder {
  o_symbol : string;
  o_side : string;
  o_size : Q;
  o_price : option Q;
  o_type : string
}.

Inductive venue : Type := Backpack | Hyperliquid.

Inductive request : Type :=
| ReqPositions
| ReqPrice (symbol : string)
| ReqOrderbook (symbol : string)
| ReqPlaceOrder (o : order)
| ReqClosePosition (symbol : string).

(** A request that can change a position on the venue. *)
Definition is_order_request (c : venue * request) : bool :=
  match snd c with
  | ReqPlaceOrder _ | ReqClosePosition _ => true
  | _ => false
  end.

(** One venue client over an outside world [W]: every call may return or
    raise, and may change the world. *)
Record venue_api (W : Type) : Type := mkVenueApi {
  get_positions : W -> exc (pydict position) * W;
  get_price : string -> W -> exc (option Q) * W;
  get_orderbook : string -> W -> exc pyval * W;
  place_order : order -> W -> exc pyval * W;
  close_position : string -> W -> exc pyval * W
}.

Arguments get_positions {W} _ _.
Arguments get_price {W} _ _ _.
Arguments get_orderbook {W} _ _ _.
Arguments place_order {W} _ _ _.
Arguments close_position {W} _ _ _.

(** [round(x)]: nearest integer, ties to the even one. *)
Definition py_round (x : Q) : Z :=
  let f := Qfloor x in
  let r := x - inject_Z f in
  if Qlt_bool r (1 # 2) then f
  else if Qlt_bool (1 # 2) r then (f + 1)%Z
  else if Z.even f then f else (f + 1)%Z.

(** [round(x, ndigits)] *)
Definition py_round_digits (x : Q) (ndigits : Z) : Q :=
  inject_Z (py_round (x * Qpower 10 ndigits)) / Qpower 10 ndigits.

(** [pos_symbol.split('_')[0]] *)
Fixpoint split_underscore_head (s : string) : string :=
  match s with
  | EmptyString => EmptyString
  | String c s' =>
      if Ascii.eqb c "_"%char then EmptyString
      else String c (split_underscore_head s')
  end.

(** The loops over [positions.values()] (lines 1130-1139 and the like):
    the first position whose ["symbol"] is the wanted one. *)
Definition find_position (positions : pydict position) (sym : string)
  : option position :=
  find (fun pos => match pos_symbol pos with
                   | Some s => String.eqb s sym
                   | None => false
                   end) (dict_values positions).

(** ** The engine *)

Section Engine.

(** [utils.helpers] is imported by the engine and not part of this
    file; its three functions are parameters of the embedding. *)
Variable get_backpack_symbol : string -> string.
Variable get_hyperliquid_symbol : string -> string.
Variable calculate_funding_diff : Q -> Q -> Q * Z.
Variable float_of_str : string -> option Q.

Variable cfg : config.                    (* self.config *)

(** *** Opportunity evaluation *)

Definition has_position (symbol : string)
    (bp_positions hl_positions : pydict position) : bool :=
  dict_mem bp_positions (get_backpack_symbol symbol)
  || dict_mem hl_positions symbol.

(** [market_data.get(symbol, {}).get("total_slippage", 0.5)] *)
Definition stored_total_slippage (e : engine) (symbol : string) : Q :=
  match dict_get (get_all_data e) symbol with
  | Some sn => get_or (sn_total_slippage sn) 0.5
  | None => 0.5
  end.

(** [len(position_symbols)] of lines 726-737. *)
Definition current_positions_count
    (bp_positions hl_positions : pydict position) : Z :=
  Z.of_nat (length (nodup string_dec
    (map split_underscore_head (dict_keys bp_positions)
       ++ dict_keys hl_positions))).

(** Lines 792-808 (and 964-979 with the close conditions): the signs
    are compared only when the check is enabled and both the price and
    the funding condition hold. *)
Definition direction_check (check_direction_consistency
    price_condition_met funding_condition_met : bool)
    (price_diff_percent funding_diff : Q) : bool :=
  if check_direction_consistency && price_condition_met
     && funding_condition_met
  then Z.eqb (sign_of price_diff_percent) (sign_of funding_diff)
  else true.

Definition _check_open_conditions_without_execution (e : engine)
    (symbol : string) (bp_price hl_price bp_funding adjusted_hl_funding
     price_diff_percent funding_diff : Q)
    (bp_positions hl_positions : pydict position)
  : bool * open_reason * option Q :=
  if has_position symbol bp_positions hl_positions
  then (false, OpenHasPosition, Some 0)
  else
    let open_conditions := config_open_conditions cfg in
    let max_slippage :=
      get_or (open_max_slippage_percent open_conditions) 0.15 in
    let ignore_slippage :=
      get_or (open_ignore_high_slippage open_conditions) false in
    let total_slippage := stored_total_slippage e symbol in
    let slippage_condition_met :=
      ignore_slippage || Qle_bool total_slippage max_slippage in
    if negb slippage_condition_met
    then (false, OpenSlippageTooHigh total_slippage, Some 0)
    else
      let max_positions_count :=
        get_or (st_max_positions_count
                  (get_or (cfg_strategy cfg) empty_strategy)) 5%Z in
      if (max_positions_count
            <=? current_positions_count bp_positions hl_positions)%Z
      then (false, OpenGlobalLimit max_positions_count, None)
      else
        let current_size := 0 in
        match find_trading_pair cfg symbol with
        | None => (false, OpenNoTradingPair, None)
        | Some trading_pair_config =>
            let max_position_size :=
              get_or (tp_max_position_size trading_pair_config) 0 in
            if Qle_bool max_position_size current_size
            then (false, OpenSymbolLimit current_size max_position_size,
                  None)
            else
              let available_size := max_position_size - current_size in
              let condition_type :=
                get_or (open_condition_type open_conditions)
                  "funding_only" in
              let min_price_diff :=
                get_or (open_min_price_diff_percent open_conditions) 0.2 in
              let max_price_diff :=
                get_or (open_max_price_diff_percent open_conditions) 1 in
              let price_condition_met :=
                Qle_bool min_price_diff (Qabs price_diff_percent)
                && Qle_bool (Qabs price_diff_percent) max_price_diff in
              let min_funding_diff :=
                get_or (open_min_funding_diff open_conditions) 0.00001 in
              let funding_condition_met :=
                Qle_bool min_funding_diff (Qabs funding_diff) in
              let check_direction_consistency :=
                get_or (open_check_direction_consistency open_conditions)
                  false in
              let direction_consistent :=
                direction_check check_direction_consistency
                  price_condition_met funding_condition_met
                  price_diff_percent funding_diff in
              let '(should_open, reason) :=
                if String.eqb condition_type "any" then
                  ((price_condition_met || funding_condition_met)
                     && direction_consistent, OpenAny)
                else if String.eqb condition_type "all" then
                  (price_condition_met && funding_condition_met
                     && direction_consistent, OpenAll)
                else if String.eqb condition_type "funding_only" then
                  (funding_condition_met && direction_consistent,
                   OpenFundingOnly)
                else if String.eqb condition_type "price_only" then
                  (price_condition_met && direction_consistent,
                   OpenPriceOnly)
                else (false, OpenNoReason) in
              (should_open, reason, Some available_size)
        end.

(** [position["side"]], [position["size"]] *)
Definition need {A : Type} (key : string) (o : option A) : exc A :=
  match o with
  | Some a => Ok a
  | None => Raise (KeyError key)
  end.

(** The engine is part of the result: lines 900-910 create
    [self.price_diff_signs] and record the current price sign of a
    position whose entry sign is unknown. *)
Definition _check_close_conditions_without_execution (e : engine)
    (symbol : string) (bp_position hl_position : position)
    (bp_price hl_price bp_funding adjusted_hl_funding
     price_diff_percent funding_diff : Q) (funding_diff_sign : Z)
  : exc (bool * close_reason * option pair_position) * engine :=
  let close_conditions := config_close_conditions cfg in
  let condition_type :=
    get_or (close_condition_type close_conditions) "any" in
  let funding_sign_change :=
    get_or (close_funding_diff_sign_change close_conditions) true in
  let price_sign_change :=
    get_or (close_price_diff_sign_change close_conditions) false in
  let price_diff_sign := sign_of price_diff_percent in
  let entry_funding_diff_sign := dict_get (funding_diff_signs e) symbol in
  let funding_sign_changed :=
    match entry_funding_diff_sign with
    | Some s => negb (Z.eqb s funding_diff_sign)
    | None => false
    end in
  let signs := get_or (price_diff_signs e) [] in
  let entry_price_diff_sign := dict_get signs symbol in
  let '(signs, entry_price_diff_sign) :=
    match entry_price_diff_sign with
    | None =>
        if dict_mem (funding_diff_signs e) symbol
        then (dict_set signs symbol price_diff_sign, Some price_diff_sign)
        else (signs, None)
    | Some s => (signs, Some s)
    end in
  let e := set_price_diff_signs e (Some signs) in
  let price_sign_changed :=
    match entry_price_diff_sign with
    | Some s => negb (Z.eqb s price_diff_sign)
    | None => false
    end in
  let min_funding_diff :=
    get_or (close_min_funding_diff close_conditions) 0.000005 in
  let min_profit_percent :=
    get_or (close_min_profit_percent close_conditions) 0.1 in
  let max_close_slippage :=
    get_or (close_max_close_slippage_percent close_conditions) 0.25 in
  let ignore_close_slippage :=
    get_or (close_ignore_close_slippage close_conditions) false in
  let total_slippage := stored_total_slippage e symbol in
  let slippage_condition_met :=
    ignore_close_slippage || Qle_bool total_slippage max_close_slippage in
  if negb slippage_condition_met
  then (Ok (false, CloseSlippageTooHigh total_slippage, None), e)
  else
    let funding_sign_condition_met :=
      funding_sign_changed && funding_sign_change in
    let funding_value_condition_met :=
      Qle_bool min_funding_diff (Qabs funding_diff) in
    let funding_condition_met :=
      funding_sign_condition_met && funding_value_condition_met in
    let price_condition_met :=
      if price_sign_change
      then price_sign_changed
           && Qle_bool min_profit_percent (Qabs price_diff_percent)
      else Qlt_bool (Qabs price_diff_percent) min_profit_percent in
    let check_direction_consistency :=
      get_or (close_check_direction_consistency close_conditions) false in
    let direction_consistent :=
      direction_check check_direction_consistency price_condition_met
        funding_condition_met price_diff_percent funding_diff in
    let price_reason :=
      if price_sign_change then ClosePriceReversed
      else ClosePriceConverged in
    let '(should_close, reason) :=
      if String.eqb condition_type "any" then
        if funding_condition_met && direction_consistent
        then (true, CloseFundingReversed)
        else if price_condition_met && direction_consistent
        then (true, price_reason)
        else (false, CloseNoReason)
      else if String.eqb condition_type "all" then
        (funding_condition_met && price_condition_met
           && direction_consistent, CloseAll)
      else if String.eqb condition_type "funding_only" then
        (funding_condition_met && direction_consistent,
         CloseFundingReversed)
      else if String.eqb condition_type "price_only" then
        (price_condition_met && direction_consistent, price_reason)
      else (false, CloseNoReason) in
    (bp_side <- need "side" (pos_side bp_position) ;;
     hl_side <- need "side" (pos_side hl_position) ;;
     bp_size <- need "size" (pos_size bp_position) ;;
     hl_size <- need "size" (pos_size hl_position) ;;
     Ok (should_close, reason,
         Some (mkPairPosition (get_backpack_symbol symbol) symbol
                 bp_side hl_side bp_size hl_size)),
     e).

(** *** The engine among the venues

    A run threads the engine state, the outside world and the list of
    venue calls made so far; every step returns or raises. *)

Variable W : Type.
Variable backpack_api hyperliquid_api : venue_api W.

Record machine : Type := mkMachine {
  eng : engine;
  world : W;
  calls : list (venue * request)
}.

Definition M (A : Type) : Type := machine -> exc A * machine.

Definition ret {A : Type} (a : A) : M A := fun m => (Ok a, m).

Definition bind {A B : Type} (c : M A) (k : A -> M B) : M B :=
  fun m =>
    match c m with
    | (Ok a, m') => k a m'
    | (Raise e, m') => (Raise e, m')
    end.

Notation "x <~ c ;; k" := (bind c (fun x => k))
  (at level 61, c at next level, right associativity).
Notation "c ;;; k" := (bind c (fun _ => k))
  (at level 61, right associativity).

(** [try: c  except Exception as e: h e] *)
Definition try_except {A : Type} (c : M A) (h : py_exn -> M A) : M A :=
  fun m =>
    match c m with
    | (Ok a, m') => (Ok a, m')
    | (Raise e, m') => h e m'
    end.

(** One task of [asyncio.gather(..., return_exceptions=True)]. *)
Definition attempt {A : Type} (c : M A) : M (exc A) :=
  fun m => let '(r, m') := c m in (Ok r, m').

Definition lift_exc {A : Type} (r : exc A) : M A := fun m => (r, m).

Definition get_engine : M engine := fun m => (Ok (eng m), m).

Definition modify_engine (f : engine -> engine) : M unit :=
  fun m => (Ok tt, mkMachine (f (eng m)) (world m) (calls m)).

(** A venue call: recorded, then answered by the venue. *)
Definition call {A : Type} (v : venue) (req : request)
    (handler : W -> exc A * W) : M A :=
  fun m =>
    let '(r, w') := handler (world m) in
    (r, mkMachine (eng m) w' (calls m ++ [(v, req)])%list).

Definition api (v : venue) : venue_api W :=
  match v with
  | Backpack => backpack_api
  | Hyperliquid => hyperliquid_api
  end.

Definition call_positions (v : venue) : M (pydict position) :=
  call v ReqPositions (get_positions (api v)).
Definition call_orderbook (v : venue) (symbol : string) : M pyval :=
  call v (ReqOrderbook symbol) (get_orderbook (api v) symbol).
Definition call_place_order (v : venue) (o : order) : M pyval :=
  call v (ReqPlaceOrder o) (place_order (api v) o).

(** Arithmetic on a price or rate that is [None] raises. *)
Definition number (o : option Q) : exc Q :=
  match o with
  | Some q => Ok q
  | None => Raise TypeError
  end.

(** Lines 557-600: the slippage of both legs, written into the data
    manager's entry of the symbol.  Errors are logged only. *)
Definition update_slippage (symbol : string) (funding_diff_sign : Z)
    (bp_price hl_price : Q) : M unit :=
  let long_exchange :=
    if (funding_diff_sign <? 0)%Z then "hyperliquid" else "backpack" in
  let short_exchange :=
    if (funding_diff_sign <? 0)%Z then "backpack" else "hyperliquid" in
  try_except
    (st <~ lift_exc (need "strategy" (cfg_strategy cfg)) ;;
     let trade_size_usd :=
       get_or (dict_get (get_or (st_trade_size_usd st) []) symbol) 100 in
     hl_orderbook <~ call_orderbook Hyperliquid symbol ;;
     bp_orderbook <~ call_orderbook Backpack symbol ;;
     let long_slippage :=
       if String.eqb long_exchange "hyperliquid"
       then _analyze_orderbook float_of_str hl_orderbook "bids"
              trade_size_usd hl_price
       else _analyze_orderbook float_of_str bp_orderbook "bids"
              trade_size_usd bp_price in
     let short_slippage :=
       if String.eqb short_exchange "hyperliquid"
       then _analyze_orderbook float_of_str hl_orderbook "asks"
              trade_size_usd hl_price
       else _analyze_orderbook float_of_str bp_orderbook "asks"
              trade_size_usd bp_price in
     let total_slippage := long_slippage + short_slippage in
     modify_engine (fun e =>
       match dict_get (get_all_data e) symbol with
       | Some sn =>
           set_market_data e
             (dict_set (get_all_data e) symbol
                (mkSnapshot (sn_valid sn) (sn_bp_price sn)
                   (sn_bp_funding sn) (sn_hl_price sn) (sn_hl_funding sn)
                   (Some total_slippage) (Some long_slippage)
                   (Some short_slippage) (Some long_exchange)
                   (Some short_exchange)))
       | None => e
       end))
    (fun _ => ret tt).

(** The candidate lists are Python lists the caller owns; the embedding
    returns them extended. *)
Definition _collect_arbitrage_opportunity (symbol : string)
    (open_candidates : list open_candidate)
    (close_candidates : list close_candidate)
    (bp_positions hl_positions : pydict position)
  : M (list open_candidate * list close_candidate) :=
  try_except
    (e <~ get_engine ;;
     let data := get_data e symbol in
     if negb (is_data_valid e symbol)
     then ret (open_candidates, close_candidates)
     else
     match data with
     | None => lift_exc (Raise TypeError)     (* data["backpack"] *)
     | Some data =>
         bp_price <~ lift_exc (number (sn_bp_price data)) ;;
         bp_funding <~ lift_exc (number (sn_bp_funding data)) ;;
         hl_price <~ lift_exc (number (sn_hl_price data)) ;;
         hl_funding <~ lift_exc (number (sn_hl_funding data)) ;;
         let adjusted_hl_funding := hl_funding * 8 in
         ratio <~ lift_exc (py_div (bp_price - hl_price) hl_price) ;;
         let price_diff_percent := ratio * 100 in
         let '(funding_diff, funding_diff_sign) :=
           calculate_funding_diff bp_funding hl_funding in
         let bp_symbol := get_backpack_symbol symbol in
         let has_pos := has_position symbol bp_positions hl_positions in
         update_slippage symbol funding_diff_sign bp_price hl_price ;;;
         e <~ get_engine ;;
         if negb has_pos then
           let '(should_open, reason, available_size) :=
             _check_open_conditions_without_execution e symbol bp_price
               hl_price bp_funding adjusted_hl_funding
               price_diff_percent funding_diff bp_positions
               hl_positions in
           if should_open
           then ret ((open_candidates
                        ++ [mkOpenCandidate symbol funding_diff
                              bp_funding adjusted_hl_funding
                              available_size reason])%list,
                     close_candidates)
           else ret (open_candidates, close_candidates)
         else
           match dict_get bp_positions bp_symbol,
                 dict_get hl_positions symbol with
           | Some bp_position, Some hl_position =>
               r <~ (fun m =>
                 let '(r, e') :=
                   _check_close_conditions_without_execution (eng m)
                     symbol bp_position hl_position bp_price hl_price
                     bp_funding adjusted_hl_funding price_diff_percent
                     funding_diff funding_diff_sign in
                 (r, mkMachine e' (world m) (calls m))) ;;
               let '(should_close, reason, position) := r in
               if should_close
               then ret (open_candidates,
                         (close_candidates
                            ++ [mkCloseCandidate symbol position
                                  reason])%list)
               else ret (open_candidates, close_candidates)
           | _, _ => ret (open_candidates, close_candidates)
           end
     end)
    (fun _ => ret (open_candidates, close_candidates)).

(** *** Paired execution *)

(** Lines 1268-1292: a leg counts as opened when a position appeared,
    or when an existing one moved by at least 80% of the order size.
    [qty] reads ["quantity"] on Backpack and ["size"] on Hyperliquid;
    a missing value is 0. *)
Definition open_leg_changed (qty : position -> option Q)
    (pre post : option position) (size : Q) : bool :=
  match pre, post with
  | None, Some _ => true
  | Some pre_position, Some post_position =>
      let pre_size := get_or (qty pre_position) 0 in
      let post_size := get_or (qty post_position) 0 in
      Qle_bool (0.8 * size) (Qabs (post_size - pre_size))
  | _, None => false
  end.

(** Lines 1537-1561: a leg counts as closed when the position is gone,
    or when at least 90% of it is. *)
Definition close_leg_closed (qty : position -> option Q)
    (pre post : option position) : bool :=
  match pre, post with
  | Some _, None => true
  | Some pre_position, Some post_position =>
      let pre_size := get_or (qty pre_position) 0 in
      let post_size := get_or (qty post_position) 0 in
      Qlt_bool 0 pre_size
      && Qle_bool 0.9 ((pre_size - post_size) / pre_size)
  | None, _ => false
  end.

(** ["SELL" if funding > 0 else "BUY"] (lines 1117-1118) *)
Definition open_side (funding : Q) : string :=
  if Qlt_bool 0 funding then "SELL" else "BUY".

(** ["SELL" if side == "BUY" else "BUY"] (lines 1382-1383), and
    ["BUY" if side == "SELL" else "SELL"] (line 1334) *)
Definition close_side_of (side : string) : string :=
  if String.eqb side "BUY" then "SELL" else "BUY".
Definition unwind_side_of (side : string) : string :=
  if String.eqb side "SELL" then "BUY" else "SELL".

(** The limit price of lines 1151-1156 and 1430-1437. *)
Definition limit_price (price : Q) (side : string) (tick_size : Q)
    (price_precision : Z) : exc Q :=
  let price_adjuster := if String.eqb side "BUY" then 1.005 else 0.995 in
  let limit := price * price_adjuster in
  ticks <- py_div limit tick_size ;;
  let limit := inject_Z (py_round ticks) * tick_size in
  Ok (py_round_digits limit price_precision).

(** Lines 1077-1087: the order size is raised to the minimum volume
    and then cut to the per-symbol cap. *)
Definition clamp_size (size min_volume : Q) (max_position_size : option Q)
  : Q :=
  let size := if Qlt_bool size min_volume then min_volume else size in
  match max_position_size with
  | Some cap => if Qlt_bool cap size then cap else size
  | None => size
  end.

(** Lines 1092-1096: the sign is put into the store and the store is
    written to its file. *)
Definition record_funding_sign (symbol : string) (funding_diff_sign : Z)
    (e : engine) : engine :=
  _save_funding_diff_signs
    (set_funding_diff_signs e
       (dict_set (funding_diff_signs e) symbol funding_diff_sign)).

Definition record_price_sign (symbol : string) (price_diff_sign : Z)
    (e : engine) : engine :=
  set_price_diff_signs e
    (Some (dict_set (get_or (price_diff_signs e) []) symbol
             price_diff_sign)).

(** The result is [None] for a bare [return], else [True] or
    [False]. *)
Definition _open_position (symbol : string)
    (funding_diff bp_funding hl_funding : Q) (available_size : option Q)
  : M (option bool) :=
  try_except
    (e <~ get_engine ;;
     data <~ lift_exc (match get_data e symbol with
                       | Some data => Ok data
                       | None => Raise TypeError   (* data["backpack"] *)
                       end) ;;
     match sn_bp_price data, sn_hl_price data with
     | Some bp_price, Some hl_price =>
         match find_trading_pair cfg symbol with
         | None => ret None
         | Some trading_pair_config =>
             let max_position_size :=
               tp_max_position_size trading_pair_config in
             bp_size <~ lift_exc
               (match available_size with
                | Some size => Ok size
                | None =>
                    need symbol
                      (dict_get
                         (get_or (st_position_sizes
                                    (get_or (cfg_strategy cfg)
                                       empty_strategy)) [])
                         symbol)
                end) ;;
             (* [bp_size < min_volume] with [min_volume = None] raises *)
             min_volume <~ lift_exc
               (number (tp_min_volume trading_pair_config)) ;;
             let bp_size := clamp_size bp_size min_volume max_position_size in
             let hl_size := bp_size in
             let '(_, funding_diff_sign) :=
               calculate_funding_diff bp_funding hl_funding in
             modify_engine (record_funding_sign symbol funding_diff_sign) ;;;
             ratio <~ lift_exc (py_div (bp_price - hl_price) hl_price) ;;
             let price_diff_sign := sign_of (ratio * 100) in
             modify_engine (record_price_sign symbol price_diff_sign) ;;;
             let bp_symbol := get_backpack_symbol symbol in
             let hl_symbol := get_hyperliquid_symbol symbol in
             let bp_side := open_side bp_funding in
             let hl_side := open_side hl_funding in
             pre_bp_positions <~ call_positions Backpack ;;
             pre_hl_positions <~ call_positions Hyperliquid ;;
             let pre_bp_position :=
               find_position pre_bp_positions bp_symbol in
             let pre_hl_position :=
               find_position pre_hl_positions hl_symbol in
             let price_precision :=
               get_or (tp_price_precision trading_pair_config) 3%Z in
             let tick_size :=
               get_or (tp_tick_size trading_pair_config) 0.001 in
             hl_limit_price <~ lift_exc
               (limit_price hl_price hl_side tick_size price_precision) ;;
             (* both orders are sent, each result is kept whether it
                returned or raised; the results are only logged *)
             bp_result <~ attempt
               (call_place_order Backpack
                  (mkOrder bp_symbol bp_side bp_size None "MARKET")) ;;
             hl_result <~ attempt
               (call_place_order Hyperliquid
                  (mkOrder hl_symbol hl_side hl_size (Some hl_limit_price)
                     "LIMIT")) ;;
             post_bp_positions <~ call_positions Backpack ;;
             post_hl_positions <~ call_positions Hyperliquid ;;
             let post_bp_position :=
               find_position post_bp_positions bp_symbol in
             let post_hl_position :=
               find_position post_hl_positions hl_symbol in
             let bp_position_changed :=
               open_leg_changed pos_quantity pre_bp_position
                 post_bp_position bp_size in
             let hl_position_changed :=
               open_leg_changed pos_size pre_hl_position
                 post_hl_position hl_size in
             if bp_position_changed && hl_position_changed then
               ret (Some true)
             else if bp_position_changed && negb hl_position_changed then
               try_except
                 (call Backpack (ReqClosePosition bp_symbol)
                    (close_position backpack_api bp_symbol) ;;; ret tt)
                 (fun _ => ret tt) ;;;
               ret (Some false)
             else if negb bp_position_changed && hl_position_changed then
               try_except
                 (call_place_order Hyperliquid
                    (mkOrder hl_symbol (unwind_side_of hl_side) hl_size
                       None "MARKET") ;;; ret tt)
                 (fun _ => ret tt) ;;;
               ret (Some false)
             else ret (Some false)
         end
     | _, _ => ret None
     end)
    (fun _ => ret (Some false)).

(** Names bound at the top level of the module (its imports and the
    class).  A name a method reads without ever assigning it is looked
    up here. *)
Definition module_globals : list string :=
  [ "asyncio"; "logging"; "time"; "os"; "json"; "sys"; "Dict"; "List";
    "Optional"; "Any"; "datetime"; "BackpackAPI"; "HyperliquidAPI";
    "DataManager"; "DisplayManager"; "WebhookAlerter";
    "calculate_funding_diff"; "get_backpack_symbol";
    "get_hyperliquid_symbol"; "ArbitrageEngine" ].

(** Reading a global as a number: none of the module's globals is one
    (arithmetic on a module, class or function raises [TypeError]), and
    an unbound name raises [NameError]. *)
Definition global_number (name : string) : exc Q :=
  if existsb (String.eqb name) module_globals
  then Raise TypeError
  else Raise (NameError name).

Definition global_int (name : string) : exc Z :=
  if existsb (String.eqb name) module_globals
  then Raise TypeError
  else Raise (NameError name).

Definition _close_position (symbol : string) (position : pair_position)
  : M bool :=
  try_except
    (let bp_symbol := pp_bp_symbol position in
     let hl_symbol := pp_hl_symbol position in
     let bp_side := pp_bp_side position in
     let hl_side := pp_hl_side position in
     let bp_size := pp_bp_size position in
     let hl_size := pp_hl_size position in
     let bp_close_side := close_side_of bp_side in
     let hl_close_side := close_side_of hl_side in
     bp_price <~ call Backpack (ReqPrice bp_symbol)
                   (get_price backpack_api bp_symbol) ;;
     match bp_price with
     | None => ret false
     | Some bp_price =>
         if Qeq_bool bp_price 0 then ret false       (* [not bp_price] *)
         else
           pre_bp_positions <~ call_positions Backpack ;;
           pre_hl_positions <~ call_positions Hyperliquid ;;
           let pre_bp_position :=
             find_position pre_bp_positions bp_symbol in
           let pre_hl_position :=
             find_position pre_hl_positions hl_symbol in
           match pre_bp_position, pre_hl_position with
           | None, _ => ret false
           | Some _, None => ret false
           | Some _, Some _ =>
               (* lines 1434 and 1437 read [tick_size] and
                  [price_precision]; the method assigns neither *)
               tick_size <~ lift_exc (global_number "tick_size") ;;
               price_precision <~ lift_exc
                 (global_int "price_precision") ;;
               bp_limit_price <~ lift_exc
                 (limit_price bp_price bp_close_side tick_size
                    price_precision) ;;
               bp_result <~ attempt
                 (call_place_order Backpack
                    (mkOrder bp_symbol bp_close_side bp_size None
                       "MARKET")) ;;
               hl_result <~ attempt
                 (call_place_order Hyperliquid
                    (mkOrder hl_symbol hl_close_side hl_size None
                       "MARKET")) ;;
               post_bp_positions <~ call_positions Backpack ;;
               post_hl_positions <~ call_positions Hyperliquid ;;
               let post_bp_position :=
                 find_position post_bp_positions bp_symbol in
               let post_hl_position :=
                 find_position post_hl_positions hl_symbol in
               let bp_position_closed :=
                 close_leg_closed pos_quantity pre_bp_position
                   post_bp_position in
               let hl_position_closed :=
                 close_leg_closed pos_size pre_hl_position
                   post_hl_position in
               if bp_position_closed && hl_position_closed then
                 modify_engine (fun e =>
                   if dict_mem (funding_diff_signs e) symbol
                   then _save_funding_diff_signs
                          (set_funding_diff_signs e
                             (dict_del (funding_diff_signs e) symbol))
                   else e) ;;;
                 ret true
               else ret false
           end
     end)
    (fun _ => ret false).

End Engine.

Arguments eng {W} _.
Arguments world {W} _.
Arguments calls {W} _.
Arguments mkMachine {W} _ _ _.

(** One pass of the open loop of [start] (lines 302-310): the fields of
    the candidate are the arguments of [_open_position]. *)
Definition open_candidate_position
    (get_backpack_symbol get_hyperliquid_symbol : string -> string)
    (calculate_funding_diff : Q -> Q -> Q * Z) (cfg : config) (W : Type)
    (backpack_api hyperliquid_api : venue_api W)
    (candidate : open_candidate) : machine W -> exc (option bool) * machine W :=
  _open_position get_backpack_symbol get_hyperliquid_symbol
    calculate_funding_diff cfg W backpack_api hyperliquid_api
    (cand_symbol candidate) (cand_funding_diff candidate)
    (cand_bp_funding candidate) (cand_hl_funding candidate)
    (cand_available_size candidate).

(** ** The helpers of [utils.helpers] *)

Module Helpers.

(** Modelled from the spec: [get_backpack_symbol], the pure transform
    [to_venue_a(sym)]; the source comments give its form,
    ["BTC_USDC_PERP"] for ["BTC"]. *)
Definition get_backpack_symbol (symbol : string) : string :=
  symbol ++ "_USDC_PERP".

(** Modelled from the spec: [get_hyperliquid_symbol], the pure transform
    [to_venue_b(sym)]; Hyperliquid positions are keyed by the base
    symbol. *)
Definition get_hyperliquid_symbol (symbol : string) : string := symbol.

(** Modelled from the spec: [calculate_funding_diff], which is given
    Backpack's rate and Hyperliquid's hourly rate and returns
    [(funding_a - funding_b_norm, sign(funding_a - funding_b_norm))],
    the Hyperliquid rate normalised by the factor 8; the sign is never
    0. *)
Definition calculate_funding_diff (bp_funding hl_funding : Q) : Q * Z :=
  let diff := bp_funding - hl_funding * 8 in
  (diff, sign_of diff).

(** The other reading of the helper: the plain difference of its two
    arguments, nothing normalised inside. *)
Definition plain_funding_diff (bp_funding hl_funding : Q) : Q * Z :=
  let diff := bp_funding - hl_funding in
  (diff, sign_of diff).

(** [float] on plain decimal numerals ([-12.5]); exponents and the
    special values are left out. *)
Definition float_of_str (s : string) : option Q :=
  let cs := list_ascii_of_string s in
  let '(neg, cs) :=
    match cs with
    | c :: cs' => if Ascii.eqb c "-"%char then (true, cs') else (false, cs)
    | [] => (false, cs)
    end in
  let '(int_part, rest) := Json.take_digits cs in
  let '(frac_part, rest) :=
    match rest with
    | c :: rest' =>
        if Ascii.eqb c "."%char then Json.take_digits rest'
        else (EmptyString, rest)
    | [] => (EmptyString, [])
    end in
  match rest, NilZero.int_of_string (int_part ++ frac_part) with
  | [], Some digits =>
      let q := inject_Z (Z.of_int digits)
               / inject_Z (10 ^ Z.of_nat (String.length frac_part)) in
      Some (if neg then - q else q)
  | _, _ => None
  end.

End Helpers.

(** ** Two simulated venues

    A small outside world to run the engine on concrete scenarios: each
    venue keeps a book of positions and either fills every order or
    rejects it. *)

Module Sim.

Record world : Type := mkWorld {
  bp_book : pydict position;
  hl_book : pydict position;
  bp_fills : bool;
  hl_fills : bool;
  bp_last_price : option Q;
  book_depth : pyval
}.

Definition fill (book : pydict position) (o : order) : pydict position :=
  if dict_mem book (o_symbol o) then dict_del book (o_symbol o)
  else dict_set book (o_symbol o)
         (mkPosition (Some (o_symbol o)) (Some (o_side o))
            (Some (o_size o)) (Some (o_size o))).

Definition accepted : pyval := PDict [("success", PBool true)].

Definition backpack_api : venue_api world :=
  mkVenueApi world
    (fun w => (Ok (bp_book w), w))
    (fun _ w => (Ok (bp_last_price w), w))
    (fun _ w => (Ok (book_depth w), w))
    (fun o w =>
       if bp_fills w
       then (Ok accepted,
             mkWorld (fill (bp_book w) o) (hl_book w) (bp_fills w)
               (hl_fills w) (bp_last_price w) (book_depth w))
       else (Raise (VenueError "rejected"), w))
    (fun symbol w =>
       (Ok accepted,
        mkWorld (dict_del (bp_book w) symbol) (hl_book w) (bp_fills w)
          (hl_fills w) (bp_last_price w) (book_depth w))).

Definition hyperliquid_api : venue_api world :=
  mkVenueApi world
    (fun w => (Ok (hl_book w), w))
    (fun _ w => (Ok None, w))
    (fun _ w => (Ok (book_depth w), w))
    (fun o w =>
       if hl_fills w
       then (Ok accepted,
             mkWorld (bp_book w) (fill (hl_book w) o) (bp_fills w)
               (hl_fills w) (bp_last_price w) (book_depth w))
       else (Raise (VenueError "rejected"), w))
    (fun symbol w =>
       (Ok accepted,
        mkWorld (bp_book w) (dict_del (hl_book w) symbol) (bp_fills w)
          (hl_fills w) (bp_last_price w) (book_depth w))).

Definition deep_book : pyval :=
  PDict [ ("bids", PList [PList [PNum 100; PNum 1000]]);
          ("asks", PList [PList [PNum 100; PNum 1000]]) ].

Definition btc_pair : trading_pair :=
  mkTradingPair "BTC" (Some 0.01) (Some 0.001) (Some 1%Z) (Some 0.1).

Definition funding_only_conditions : open_conditions :=
  mkOpenConditions (Some "funding_only") (Some 0.00001) None None
    (Some 0.5) None None.

Definition direction_conditions : open_conditions :=
  mkOpenConditions (Some "funding_only") (Some 0.00001) None None
    (Some 0.5) None (Some true).

(** The same with [check_direction_consistency] enabled. *)
Definition config_direction : config :=
  mkConfig
    (Some (mkStrategy (Some direction_conditions) None (Some 5%Z) None
             None None))
    (Some [btc_pair]).

(** [trading_pairs] next to [strategy], where lines 751 and 1060 look. *)
Definition config_top : config :=
  mkConfig
    (Some (mkStrategy (Some funding_only_conditions) None (Some 5%Z) None
             None None))
    (Some [btc_pair]).

(** [trading_pairs] under [strategy], where line 109 looks. *)
Definition config_strategy : config :=
  mkConfig
    (Some (mkStrategy (Some funding_only_conditions) None (Some 5%Z)
             (Some [btc_pair]) None None))
    None.

Definition btc_snapshot (bp_funding hl_funding : Q) : snapshot :=
  mkSnapshot true (Some 100) (Some bp_funding) (Some 100)
    (Some hl_funding) None None None None None.

Definition fresh_engine (bp_funding hl_funding : Q) : engine :=
  mkEngine [] None [("BTC", btc_snapshot bp_funding hl_funding)] [].

Definition flat (bp_ok hl_ok : bool) : world :=
  mkWorld [] [] bp_ok hl_ok (Some 100) deep_book.

Definition start (e : engine) (w : world) : machine world :=
  mkMachine e w [].

Definition held (symbol side : string) (size : Q) : position :=
  mkPosition (Some symbol) (Some side) (Some size) (Some size).

(** Both legs of a BTC pair are on the books and the sign is stored. *)
Definition paired_world : world :=
  mkWorld [("BTC_USDC_PERP", held "BTC_USDC_PERP" "SELL" 0.01)]
          [("BTC", held "BTC" "BUY" 0.01)]
          true true (Some 100) deep_book.

Definition paired_engine : engine :=
  mkEngine [("BTC", 1%Z)] (Some [("BTC", 1%Z)])
    [("BTC", btc_snapshot 0.0001 0.00001)]
    [(funding_signs_file, Json.dumps [("BTC", 1%Z)])].

Definition btc_pair_position : pair_position :=
  mkPairPosition "BTC_USDC_PERP" "BTC" "SELL" "BUY" 0.01 0.01.

(** The first scenario: Backpack's rate 0.0002, Hyperliquid's hourly
    rate 0.00000625 (0.00005 over 8 hours), flat venues that fill. *)
Definition scenario_machine : machine world :=
  start (fresh_engine 0.0002 0.00000625) (flat true true).

(** The same after the collector has fetched both orderbooks and stored
    the slippage of the two legs. *)
Definition scanned_machine : machine world :=
  mkMachine
    (mkEngine [] None
       [("BTC",
         mkSnapshot true (Some 100) (Some 0.0002) (Some 100)
           (Some 0.00000625) (Some (0.01 + 0.01)) (Some 0.01) (Some 0.01)
           (Some "backpack") (Some "hyperliquid"))]
       [])
    (flat true true)
    [(Hyperliquid, ReqOrderbook "BTC"); (Backpack, ReqOrderbook "BTC")].

Definition scenario_candidate (funding_diff : Q) : open_candidate :=
  mkOpenCandidate "BTC" funding_diff 0.0002 (0.00000625 * 8)
    (Some (0.01 - 0)) OpenFundingOnly.

(** Only the Backpack leg is on the books. *)
Definition one_leg_world : world :=
  mkWorld [("BTC_USDC_PERP", held "BTC_USDC_PERP" "SELL" 0.01)] []
          true true (Some 100) deep_book.

End Sim.

(** ** Vocabulary of the properties *)

Definition in_slippage_range (q : Q) : Prop := 0.01 <= q /\ q <= 0.5.

(** The shapes lines 386-393 accept, before any conversion. *)
Definition level_recognised (level : pyval) : bool :=
  match level with
  | PDict d =>
      (dict_mem d "px" && dict_mem d "sz")
      || (dict_mem d "price" && dict_mem d "size")
  | PList (_ :: _ :: _) => true
  | _ => false
  end.

(** A structural defect of the analyzer's input: no orderbook or an empty
    one, the requested side missing or empty, or a side none of whose
    levels has a recognised shape. *)
Definition structural_defect (orderbook : pyval) (side : string) : bool :=
  match orderbook with
  | PNone => true
  | PDict d =>
      match dict_get d side with
      | None => true
      | Some (PList levels) =>
          forallb (fun level => negb (level_recognised level)) levels
      | Some v => negb (py_truthy v)
      end
  | _ => false
  end.

(** The price-band and funding conditions of the open decision, in the
    words of the configuration. *)
Definition open_price_condition (cfg : config) (price_diff_percent : Q)
  : bool :=
  let oc := config_open_conditions cfg in
  Qle_bool (get_or (open_min_price_diff_percent oc) 0.2)
           (Qabs price_diff_percent)
  && Qle_bool (Qabs price_diff_percent)
              (get_or (open_max_price_diff_percent oc) 1).

Definition open_funding_condition (cfg : config) (funding_diff : Q) : bool :=
  Qle_bool (get_or (open_min_funding_diff (config_open_conditions cfg))
              0.00001)
           (Qabs funding_diff).

(** The gates an open evaluation passes before the conditions are
    combined: no position, slippage within bounds, global cap not reached,
    a per-symbol entry with a positive cap. *)
Definition open_gates_pass (get_backpack_symbol : string -> string)
    (cfg : config) (e : engine) (symbol : string)
    (bp_positions hl_positions : pydict position) : bool :=
  let oc := config_open_conditions cfg in
  negb (has_position get_backpack_symbol symbol bp_positions hl_positions)
  && (get_or (open_ignore_high_slippage oc) false
      || Qle_bool (stored_total_slippage e symbol)
                  (get_or (open_max_slippage_percent oc) 0.15))
  && negb (get_or (st_max_positions_count
                     (get_or (cfg_strategy cfg) empty_strategy)) 5
             <=? current_positions_count bp_positions hl_positions)%Z
  && match find_trading_pair cfg symbol with
     | Some tp => negb (Qle_bool (get_or (tp_max_position_size tp) 0) 0)
     | None => false
     end.

(** The orders of an open: lines 1161-1179 and the unwind of lines
    1334-1341. *)
Definition bp_open_order (bp_symbol : string) (bp_funding size : Q) : order :=
  mkOrder bp_symbol (open_side bp_funding) size None "MARKET".

Definition hl_open_order (hl_symbol : string) (hl_funding size limit : Q)
  : order :=
  mkOrder hl_symbol (open_side hl_funding) size (Some limit) "LIMIT".

Definition hl_unwind_order (hl_symbol : string) (hl_funding size : Q)
  : order :=
  mkOrder hl_symbol (unwind_side_of (open_side hl_funding)) size None
    "MARKET".

(** The venue calls of an open up to the second position query. *)
Definition open_dispatch_calls (bp_order hl_order : order)
  : list (venue * request) :=
  [ (Backpack, ReqPositions); (Hyperliquid, ReqPositions);
    (Backpack, ReqPlaceOrder bp_order); (Hyperliquid, ReqPlaceOrder hl_order);
    (Backpack, ReqPositions); (Hyperliquid, ReqPositions) ].

(** The engine state an open leaves behind once it has recorded the two
    signs (lines 1089-1108). *)
Definition open_run_engine (calculate_funding_diff : Q -> Q -> Q * Z)
    (symbol : string) (bp_funding hl_funding bp_price hl_price : Q)
    (e : engine) : engine :=
  record_price_sign symbol
    (sign_of ((bp_price - hl_price) / hl_price * 100))
    (record_funding_sign symbol
       (snd (calculate_funding_diff bp_funding hl_funding)) e).

(** Venue and side of every order placed in a list of calls. *)
Definition order_sides (cs : list (venue * request))
  : list (venue * string) :=
  flat_map (fun c => match snd c with
                     | ReqPlaceOrder o => [(fst c, o_side o)]
                     | _ => []
                     end) cs.

(** The venue calls of a close up to the first position query. *)
Definition close_query_calls (bp_symbol : string) : list (venue * request) :=
  [ (Backpack, ReqPrice bp_symbol); (Backpack, ReqPositions);
    (Hyperliquid, ReqPositions) ].

Definition is_rename (op : fs_op) : bool :=
  match op with FsRename _ _ => true | _ => false end.

Definition op_path (op : fs_op) : string :=
  match op with
  | FsOpenTrunc p | FsWrite p _ | FsClose p => p
  | FsRename _ dst => dst
  end.

(** What the file at [path] holds after the first [n] operations of a
    persist, that is, when the process is stopped there. *)
Definition interrupted_after (n : nat) (fs : filesystem) (ops : list fs_op)
  : filesystem :=
  fs_run fs (firstn n ops).

(** ** Vocabulary of the further properties *)

(** A level in the list form [[price, size]] with numbers in it, and an
    orderbook side made of such levels. *)
Definition numeric_level (pl : Q * Q) : pyval :=
  PList [PNum (fst pl); PNum (snd pl)].


(** The order [sorted] puts two levels in: ascending price, or descending
    with [reverse=True]. *)
Definition level_before (reverse : bool) (x y : Q * Q) : bool :=
  if reverse then Qle_bool (fst y) (fst x) else Qle_bool (fst x) (fst y).

Fixpoint price_sorted (reverse : bool) (l : list (Q * Q)) : bool :=
  match l with
  | x :: ((y :: _) as l') =>
      level_before reverse x y && price_sorted reverse l'
  | _ => true
  end.

(** The text [json.dump] writes between the braces. *)
Definition members_text (first : bool) (d : pydict Z) : string :=
  fold_right String.append EmptyString (Json.member_chunks first d).

(** [__init__], line 145: a new engine loads the sign store from its
    file; it has no [price_diff_signs] attribute yet. *)
Definition restart (md : pydict snapshot) (fs : filesystem) : engine :=
  mkEngine (_load_funding_diff_signs fs) None md fs.

(** The sign file holds the JSON text of the sign store. *)
Definition store_synced (e : engine) : Prop :=
  dict_get (files e) funding_signs_file
  = Some (Json.dumps (funding_diff_signs e)).

(** The venue calls an open of a symbol may make: position queries, a
    market order on Backpack and an order on Hyperliquid for the symbol's
    venue names, and Backpack's [close_position] for the symbol. *)
Definition open_request_allowed (bp_symbol hl_symbol : string)
    (c : venue * request) : bool :=
  match c with
  | (_, ReqPositions) => true
  | (Backpack, ReqPlaceOrder o) =>
      String.eqb (o_symbol o) bp_symbol && String.eqb (o_type o) "MARKET"
  | (Hyperliquid, ReqPlaceOrder o) => String.eqb (o_symbol o) hl_symbol
  | (Backpack, ReqClosePosition s) => String.eqb s bp_symbol
  | _ => false
  end.

(** ** One pass of the main loop *)

Section Scheduler.

Variable get_backpack_symbol get_hyperliquid_symbol : string -> string.
Variable calculate_funding_diff : Q -> Q -> Q * Z.
Variable float_of_str : string -> option Q.
(** [self.display_manager.update_market_data], of a module that is not
    part of the sources: it is given the market data and may raise. *)
Variable update_market_data : pydict snapshot -> exc unit.
Variable cfg : config.
Variable W : Type.
Variable backpack_api hyperliquid_api : venue_api W.

(** Lines 293-300: the collector runs on every configured symbol, against
    the positions fetched at the start of the pass. *)
Fixpoint collect_symbols (symbols : list string)
    (open_candidates : list open_candidate)
    (close_candidates : list close_candidate)
    (bp_positions hl_positions : pydict position)
  : M W (list open_candidate * list close_candidate) :=
  match symbols with
  | [] => ret W (open_candidates, close_candidates)
  | symbol :: rest =>
      bind W
        (_collect_arbitrage_opportunity get_backpack_symbol
           calculate_funding_diff float_of_str cfg W backpack_api
           hyperliquid_api symbol open_candidates close_candidates
           bp_positions hl_positions)
        (fun lists =>
           collect_symbols rest (fst lists) (snd lists) bp_positions
             hl_positions)
  end.

(** Lines 303-314: every open candidate is executed in turn; an exception
    of one is logged and the next one is tried. *)
Fixpoint open_batch (candidates : list open_candidate) : M W unit :=
  match candidates with
  | [] => ret W tt
  | candidate :: rest =>
      bind W
        (try_except W
           (bind W
              (_open_position get_backpack_symbol get_hyperliquid_symbol
                 calculate_funding_diff cfg W backpack_api hyperliquid_api
                 (cand_symbol candidate) (cand_funding_diff candidate)
                 (cand_bp_funding candidate) (cand_hl_funding candidate)
                 (cand_available_size candidate))
              (fun _ => ret W tt))
           (fun _ => ret W tt))
        (fun _ => open_batch rest)
  end.

(** Lines 317-328: the same for the close candidates.  A candidate whose
    position is [None] fails inside [_close_position] at
    [position["bp_symbol"]], which that function answers with [False]. *)
Fixpoint close_batch (candidates : list close_candidate) : M W unit :=
  match candidates with
  | [] => ret W tt
  | candidate :: rest =>
      bind W
        (try_except W
           (bind W
              (match ccand_position candidate with
               | Some position =>
                   _close_position W backpack_api hyperliquid_api
                     (ccand_symbol candidate) position
               | None => ret W false
               end)
              (fun _ => ret W tt))
           (fun _ => ret W tt))
        (fun _ => close_batch rest)
  end.

(** Lines 260-336, one pass of the loop body without the sleeps and the
    prints: the positions of both venues are fetched, the display is
    updated, the candidates are collected and the two batches are
    executed; any exception ends the pass.  [symbols] is
    [self.config["strategy"]["symbols"]].  The [position] flag of lines
    270-273 is written for the display only and is left out. *)
Definition scan_pass (symbols : option (list string)) : M W unit :=
  try_except W
    (bind W (get_engine W) (fun e =>
     let market_data := get_all_data e in
     bind W (call_positions W backpack_api hyperliquid_api Backpack)
       (fun bp_positions =>
     bind W (call_positions W backpack_api hyperliquid_api Hyperliquid)
       (fun hl_positions =>
     bind W (lift_exc W (update_market_data market_data)) (fun _ =>
     bind W (lift_exc W (need "symbols" symbols)) (fun symbols =>
     bind W (collect_symbols symbols [] [] bp_positions hl_positions)
       (fun lists =>
     bind W (open_batch (fst lists)) (fun _ =>
     close_batch (snd lists)))))))))
    (fun _ => ret W tt).

End Scheduler.

(** An order request of a pass is in order when it is one an open of some
    symbol of [symbols] may make, and that symbol was held on neither
    venue when the pass began. *)
Definition order_for_flat_symbol (get_backpack_symbol
    get_hyperliquid_symbol : string -> string) (symbols : list string)
    (bp_positions hl_positions : pydict position) (c : venue * request)
  : Prop :=
  exists symbol,
    In symbol symbols
    /\ has_position get_backpack_symbol symbol bp_positions hl_positions
       = false
    /\ open_request_allowed (get_backpack_symbol symbol)
         (get_hyperliquid_symbol symbol) c = true.

(** The outcome of a close evaluation that leads to no close candidate:
    the answer is negative, or the evaluation raised (which the collector
    logs). *)
Definition does_not_close
    (r : exc (bool * close_reason * option pair_position)) : Prop :=
  match r with
  | Ok (should_close, _, _) => should_close = false
  | Raise _ => True
  end.

(** ** Further scenarios *)

Module Cases.

(** A BTC entry whose tick size is 0. *)
Definition zero_tick_pair : trading_pair :=
  mkTradingPair "BTC" (Some 0.01) (Some 0.001) (Some 1%Z) (Some 0).

Definition config_zero_tick : config :=
  mkConfig
    (Some (mkStrategy (Some Sim.funding_only_conditions) None (Some 5%Z)
             None None None))
    (Some [zero_tick_pair]).

(** Close on a reversal of the price sign only. *)
Definition price_reversal_conditions : close_conditions :=
  mkCloseConditions (Some "price_only") None (Some true) None None None
    None None.

(** Close on a reversal of the funding sign only. *)
Definition funding_reversal_conditions : close_conditions :=
  mkCloseConditions (Some "funding_only") (Some true) None None None None
    None None.

Definition config_closing (cc : close_conditions) : config :=
  mkConfig
    (Some (mkStrategy (Some Sim.funding_only_conditions) (Some cc)
             (Some 5%Z) None None None))
    (Some [Sim.btc_pair]).

(** The engine of [Sim.paired_engine] after a restart: the funding signs
    come back from the file, the price signs do not. *)
Definition restarted_engine : engine :=
  restart (market_data Sim.paired_engine) (files Sim.paired_engine).

(** Open conditions that leave the slippage limit at its default. *)
Definition config_default_slippage : config :=
  mkConfig
    (Some (mkStrategy
             (Some (mkOpenConditions (Some "funding_only") (Some 0.00001)
                      None None None None None))
             None (Some 5%Z) None None None))
    (Some [Sim.btc_pair]).

(** BTC is quoted and flat; the signs of an ETH pair are on record. *)
Definition eth_signs_engine : engine :=
  mkEngine [("ETH", 1%Z)] (Some [("ETH", 1%Z)])
    [("BTC", Sim.btc_snapshot 0.0002 0.00000625)] [].

(** A display that accepts every update. *)
Definition quiet_display (_ : pydict snapshot) : exc unit := Ok tt.

End Cases.

(** * Properties *)

(** ** Comparisons *)

Lemma Qlt_bool_true (a b : Q) : Qlt_bool a b = true <-> a < b.
Proof.
  unfold Qlt_bool. rewrite negb_true_iff. split; intro H.
  - apply Qnot_le_lt. intro Hle. apply Qle_bool_iff in Hle. congruence.
  - destruct (Qle_bool b a) eqn:E; [|reflexivity].
    apply Qle_bool_iff in E. exfalso. apply (Qlt_not_le _ _ H E).
Qed.

Lemma Qlt_bool_false (a b : Q) : Qlt_bool a b = false <-> b <= a.
Proof.
  unfold Qlt_bool. rewrite negb_false_iff. apply Qle_bool_iff.
Qed.

Lemma Qle_bool_false (a b : Q) : Qle_bool a b = false <-> b < a.
Proof.
  split; intro H.
  - apply Qnot_le_lt. intro Hle. apply Qle_bool_iff in Hle. congruence.
  - destruct (Qle_bool a b) eqn:E; [|reflexivity].
    apply Qle_bool_iff in E. exfalso. apply (Qlt_not_le _ _ H E).
Qed.

(** ** The slippage analyzer *)

Section SlippageFacts.

Variable float_of_str : string -> option Q.

Lemma default_in_range : in_slippage_range 0.1.
Proof. unfold in_slippage_range. split; lra. Qed.

Lemma clamp_in_range (s : Q) :
  in_slippage_range (py_max 0.01 (py_min 0.5 s)).
Proof.
  unfold in_slippage_range, py_max, py_min.
  destruct (Qlt_bool s 0.5) eqn:E1.
  - apply Qlt_bool_true in E1.
    destruct (Qlt_bool 0.01 s) eqn:E2.
    + apply Qlt_bool_true in E2. split; lra.
    + split; lra.
  - destruct (Qlt_bool 0.01 0.5) eqn:E2; split; lra.
Qed.

Lemma penalty_in_range (fill_percentage : Q) :
  Qle_bool 80 fill_percentage = false ->
  in_slippage_range (py_min 0.2 ((100 - fill_percentage) / 100)).
Proof.
  intro H. apply Qle_bool_false in H.
  unfold in_slippage_range, py_min.
  destruct (Qlt_bool _ 0.2) eqn:E.
  - apply Qlt_bool_true in E. exfalso. revert E.
    unfold Qdiv. change (/ 100) with (1 # 100). lra.
  - split; lra.
Qed.

Lemma slippage_of_fill_in_range side price w q :
  slippage_of_fill side price w = Ok q -> in_slippage_range q.
Proof.
  unfold slippage_of_fill.
  destruct (Qlt_bool 0 (amount_filled w)).
  - destruct (py_div (amount_filled w) (last_level_price w)) as [units|];
      simpl; [|discriminate].
    destruct (py_div (weighted_price w) units) as [average_price|];
      simpl; [|discriminate].
    destruct (if String.eqb side "bids"
              then py_div (price - average_price) price
              else py_div (average_price - price) price) as [ratio|];
      simpl; [|discriminate].
    intro H. injection H as <-. apply clamp_in_range.
  - intro H. injection H as <-. apply default_in_range.
Qed.

Lemma after_walk_in_range side amount_usd price w q :
  after_walk side amount_usd price w = Ok q -> in_slippage_range q.
Proof.
  unfold after_walk.
  destruct (Qlt_bool (amount_filled w) amount_usd).
  - destruct (py_div (amount_filled w) amount_usd) as [ratio|];
      simpl; [|discriminate].
    destruct (Qle_bool 80 (ratio * 100)) eqn:E.
    + apply slippage_of_fill_in_range.
    + intro H. injection H as <-. apply penalty_in_range, E.
  - apply slippage_of_fill_in_range.
Qed.

Lemma analyze_levels_in_range levels side amount_usd price q :
  analyze_levels float_of_str levels side amount_usd price = Ok q ->
  in_slippage_range q.
Proof.
  unfold analyze_levels.
  destruct (convert_levels float_of_str levels) as [book_side|];
    simpl; [|discriminate].
  destruct book_side as [|l book_side].
  - intro H. injection H as <-. apply default_in_range.
  - destruct (walk_levels _ amount_usd 0 0 0 0) as [w|];
      simpl; [|discriminate].
    apply after_walk_in_range.
Qed.

Lemma analyze_body_in_range orderbook side amount_usd price q :
  analyze_body float_of_str orderbook side amount_usd price = Ok q ->
  in_slippage_range q.
Proof.
  unfold analyze_body.
  destruct (negb (py_truthy orderbook)).
  { intro H. injection H as <-. apply default_in_range. }
  destruct (orderbook_side orderbook side) as [entry|];
    simpl; [|discriminate].
  destruct entry as [v|].
  2:{ intro H. injection H as <-. apply default_in_range. }
  destruct (negb (py_truthy v)).
  { intro H. injection H as <-. apply default_in_range. }
  destruct v; try discriminate.
  - intro H. injection H as <-. apply default_in_range.
  - apply analyze_levels_in_range.
Qed.

(** C5.  Whatever the orderbook value, the side name, the notional
    amount and the mid price are, the slippage analyzer returns a value
    in the closed interval [0.01, 0.5]: the default 0.1, the penalty of
    the under-80%-fill branch, the answer to an exception and the
    clamped normal result all lie in it. *)
Theorem analyze_orderbook_in_range (orderbook : pyval) (side : string)
    (amount_usd price : Q) :
  0.01 <= _analyze_orderbook float_of_str orderbook side amount_usd price
  /\ _analyze_orderbook float_of_str orderbook side amount_usd price <= 0.5.
Proof.
  unfold _analyze_orderbook.
  destruct (analyze_body float_of_str orderbook side amount_usd price)
    as [q|e] eqn:E.
  - exact (analyze_body_in_range _ _ _ _ _ E).
  - exact default_in_range.
Qed.

End SlippageFacts.

Section SlippageDefects.

Variable float_of_str : string -> option Q.

Lemma convert_level_unrecognised (level : pyval) :
  level_recognised level = false ->
  convert_level float_of_str level = Ok None.
Proof.
  destruct level as [| | | |l|d]; simpl; try reflexivity.
  - destruct l as [|l0 [|l1 l]]; simpl; [reflexivity..|discriminate].
  - unfold dict_mem.
    destruct (dict_get d "px"), (dict_get d "sz"),
      (dict_get d "price"), (dict_get d "size");
      simpl; (discriminate || reflexivity).
Qed.

Lemma convert_levels_filter (levels : list pyval) :
  convert_levels float_of_str (filter level_recognised levels)
  = convert_levels float_of_str levels.
Proof.
  induction levels as [|level rest IH]; simpl; [reflexivity|].
  destruct (level_recognised level) eqn:E; simpl.
  - rewrite IH. reflexivity.
  - rewrite (convert_level_unrecognised _ E). simpl. rewrite IH.
    destruct (convert_levels float_of_str rest); reflexivity.
Qed.

Lemma convert_levels_unrecognised (levels : list pyval) :
  forallb (fun level => negb (level_recognised level)) levels = true ->
  convert_levels float_of_str levels = Ok [].
Proof.
  induction levels as [|level rest IH]; simpl; [reflexivity|].
  intro H. apply andb_true_iff in H as [H1 H2].
  apply negb_true_iff in H1.
  rewrite (convert_level_unrecognised _ H1), (IH H2). reflexivity.
Qed.

Lemma analyze_levels_filter levels side amount_usd price :
  analyze_levels float_of_str (filter level_recognised levels) side
    amount_usd price
  = analyze_levels float_of_str levels side amount_usd price.
Proof.
  unfold analyze_levels. rewrite convert_levels_filter. reflexivity.
Qed.

Lemma analyze_levels_unrecognised levels side amount_usd price :
  forallb (fun level => negb (level_recognised level)) levels = true ->
  analyze_levels float_of_str levels side amount_usd price = Ok 0.1.
Proof.
  intro H. unfold analyze_levels.
  rewrite (convert_levels_unrecognised _ H). reflexivity.
Qed.

(** C9, as the code has it.  The analyzer returns the default 0.1 when
    there is no orderbook or an empty one, when the requested side is
    missing or empty, or when none of the side's levels has a recognised
    shape.  A level of unrecognised shape next to recognised ones is
    skipped: the result is the one computed from the remaining
    levels. *)
Theorem analyze_orderbook_defect_default (orderbook : pyval)
    (side : string) (amount_usd price : Q) :
  (structural_defect orderbook side = true ->
   _analyze_orderbook float_of_str orderbook side amount_usd price = 0.1)
  /\ (forall levels : list pyval,
        _analyze_orderbook float_of_str (PDict [(side, PList levels)])
          side amount_usd price
        = _analyze_orderbook float_of_str
            (PDict [(side, PList (filter level_recognised levels))])
            side amount_usd price).
Proof.
  split.
  - unfold structural_defect, _analyze_orderbook, analyze_body.
    destruct orderbook as [| | | | |d]; try discriminate; [reflexivity|].
    destruct (py_truthy (PDict d)); simpl; [|reflexivity].
    destruct (dict_get d side) as [v|]; [|reflexivity].
    destruct v as [| | | |levels|d']; intro H; rewrite ?H;
      try reflexivity.
    destruct (py_truthy (PList levels)); simpl; [|reflexivity].
    rewrite (analyze_levels_unrecognised _ _ _ _ H). reflexivity.
  - intro levels.
    unfold _analyze_orderbook, analyze_body. simpl.
    rewrite String.eqb_refl. simpl.
    rewrite <- (analyze_levels_filter levels).
    destruct levels as [|l0 levels]; [reflexivity|].
    destruct (filter level_recognised (l0 :: levels)) eqn:E;
      reflexivity.
Qed.

End SlippageDefects.

(** The theorem at an orderbook whose only ask has an unknown shape. *)
Lemma analyze_orderbook_defect_default_witness :
  structural_defect (PDict [("asks", PList [PStr "100@1"])]) "asks" = true
  /\ _analyze_orderbook Helpers.float_of_str
       (PDict [("asks", PList [PStr "100@1"])]) "asks" 50 99.9 = 0.1.
Proof.
  split; [reflexivity|].
  apply (proj1 (analyze_orderbook_defect_default Helpers.float_of_str
                  (PDict [("asks", PList [PStr "100@1"])]) "asks" 50 99.9)).
  reflexivity.
Defined.

(** C9 as stated fails: an orderbook with one level of unknown shape and
    one recognised level is not answered with the default; the slippage
    is computed from the recognised level. *)
Lemma analyze_orderbook_unknown_level_counterexample :
  level_recognised (PStr "100@1") = false
  /\ structural_defect
       (PDict [("asks", PList [PStr "100@1"; PList [PNum 100; PNum 1]])])
       "asks" = false
  /\ _analyze_orderbook Helpers.float_of_str
       (PDict [("asks", PList [PStr "100@1"; PList [PNum 100; PNum 1]])])
       "asks" 50 99.9
     == 100 # 999
  /\ ~ (_analyze_orderbook Helpers.float_of_str
          (PDict [("asks", PList [PStr "100@1"; PList [PNum 100; PNum 1]])])
          "asks" 50 99.9
        == 0.1).
Proof.
  repeat split; try reflexivity.
  vm_compute. discriminate.
Qed.

(** ** The open decision *)

Section OpenDecision.

Variable get_backpack_symbol : string -> string.
Variable cfg : config.

Lemma direction_check_enabled (pc fc : bool) (pdp fd : Q) :
  direction_check true pc fc pdp fd
  = negb (pc && fc) || Z.eqb (sign_of pdp) (sign_of fd).
Proof. unfold direction_check. destruct pc, fc; reflexivity. Qed.

(** C6, as the code has it.  With [check_direction_consistency] enabled
    the two signs are compared only when both the price-band and the
    funding condition hold.  So an open is never emitted with the check
    enabled, both conditions true and the signs unequal; and under
    [funding_only] the decision of an evaluation that passed the gates
    is the funding condition together with: price-band condition false,
    or signs equal. *)
Theorem open_direction_gate (e : engine) (symbol : string)
    (bp_price hl_price bp_funding adjusted_hl_funding
     price_diff_percent funding_diff : Q)
    (bp_positions hl_positions : pydict position) :
  open_check_direction_consistency (config_open_conditions cfg)
    = Some true ->
  let should_open :=
    fst (fst (_check_open_conditions_without_execution
                get_backpack_symbol cfg e symbol bp_price hl_price
                bp_funding adjusted_hl_funding price_diff_percent
                funding_diff bp_positions hl_positions)) in
  (should_open = true ->
   open_price_condition cfg price_diff_percent = true ->
   open_funding_condition cfg funding_diff = true ->
   sign_of price_diff_percent = sign_of funding_diff)
  /\ (open_condition_type (config_open_conditions cfg)
        = Some "funding_only" ->
      open_gates_pass get_backpack_symbol cfg e symbol bp_positions
        hl_positions = true ->
      should_open
      = open_funding_condition cfg funding_diff
        && (negb (open_price_condition cfg price_diff_percent)
            || Z.eqb (sign_of price_diff_percent)
                     (sign_of funding_diff))).
Proof.
  intros Hcheck should_open. subst should_open.
  unfold _check_open_conditions_without_execution, open_gates_pass,
    open_price_condition, open_funding_condition.
  rewrite Hcheck. cbn [get_or].
  rewrite direction_check_enabled.
  set (pc := Qle_bool _ (Qabs price_diff_percent) && _).
  set (fc := Qle_bool _ (Qabs funding_diff)).
  set (same := Z.eqb _ _).
  split.
  - destruct (has_position _ _ _ _); [discriminate|].
    destruct (negb _); [discriminate|].
    destruct (_ <=? _)%Z; [discriminate|].
    destruct (find_trading_pair cfg symbol) as [tp|]; [|discriminate].
    destruct (Qle_bool _ 0); [discriminate|].
    intros H Hpc Hfc. rewrite Hpc, Hfc in H.
    apply Z.eqb_eq. fold same.
    destruct same; [reflexivity|].
    repeat match type of H with
           | context [if ?b then _ else _] => destruct b
           end; discriminate.
  - intros Htype Hgates. rewrite Htype. cbn [get_or].
    destruct (has_position _ _ _ _); [discriminate|].
    destruct (_ || _); [|discriminate].
    destruct (_ <=? _)%Z; [discriminate|].
    destruct (find_trading_pair cfg symbol) as [tp|]; [|discriminate].
    destruct (Qle_bool _ 0); [discriminate|].
    simpl. destruct pc, fc, same; reflexivity.
Qed.

End OpenDecision.

(** The theorem at an evaluation with the check enabled, the price-band
    and the funding condition true and both differences positive. *)
Lemma open_direction_gate_witness :
  open_check_direction_consistency
    (config_open_conditions Sim.config_direction) = Some true
  /\ fst (fst (_check_open_conditions_without_execution
                 Helpers.get_backpack_symbol Sim.config_direction
                 (Sim.fresh_engine 0.0002 0.00000625) "BTC" 100.5 100
                 0.0002 0.00005 0.5 0.00015 [] []))
     = open_funding_condition Sim.config_direction 0.00015
       && (negb (open_price_condition Sim.config_direction 0.5)
           || Z.eqb (sign_of 0.5) (sign_of 0.00015)).
Proof.
  split; [reflexivity|].
  apply (proj2 (open_direction_gate Helpers.get_backpack_symbol
                  Sim.config_direction (Sim.fresh_engine 0.0002 0.00000625)
                  "BTC" 100.5 100 0.0002 0.00005 0.5 0.00015 [] []
                  eq_refl));
    reflexivity.
Defined.

(** C6 as stated fails: with the direction check enabled and
    [funding_only], an evaluation whose price difference is negative and
    outside the band while the funding difference is positive is emitted
    as an open candidate. *)
Lemma open_direction_counterexample :
  open_check_direction_consistency
    (config_open_conditions Sim.config_direction) = Some true
  /\ open_condition_type (config_open_conditions Sim.config_direction)
     = Some "funding_only"
  /\ sign_of (-0.05) <> sign_of 0.00015
  /\ open_funding_condition Sim.config_direction 0.00015
     && Z.eqb (sign_of (-0.05)) (sign_of 0.00015) = false
  /\ fst (fst (_check_open_conditions_without_execution
                 Helpers.get_backpack_symbol Sim.config_direction
                 (Sim.fresh_engine 0.0002 0.00000625) "BTC" 99.95 100
                 0.0002 0.00005 (-0.05) 0.00015 [] []))
     = true.
Proof.
  repeat split; try reflexivity. vm_compute. discriminate.
Qed.

Section OpenCap.

Variable get_backpack_symbol : string -> string.
Variable cfg : config.

(** Whenever an open candidate is emitted, its size is the cap of the
    entry found in the [trading_pairs] list next to [strategy], minus
    the held size 0. *)
Lemma open_check_available_size (e : engine) (symbol : string)
    (bp_price hl_price bp_funding adjusted_hl_funding
     price_diff_percent funding_diff : Q)
    (bp_positions hl_positions : pydict position) :
  fst (fst (_check_open_conditions_without_execution
              get_backpack_symbol cfg e symbol bp_price hl_price
              bp_funding adjusted_hl_funding price_diff_percent
              funding_diff bp_positions hl_positions)) = true ->
  exists tp,
    find_trading_pair cfg symbol = Some tp
    /\ 0 < get_or (tp_max_position_size tp) 0
    /\ snd (_check_open_conditions_without_execution
              get_backpack_symbol cfg e symbol bp_price hl_price
              bp_funding adjusted_hl_funding price_diff_percent
              funding_diff bp_positions hl_positions)
       = Some (get_or (tp_max_position_size tp) 0 - 0).
Proof.
  unfold _check_open_conditions_without_execution.
  destruct (has_position _ _ _ _); [discriminate|].
  destruct (negb _); [discriminate|].
  destruct (_ <=? _)%Z; [discriminate|].
  destruct (find_trading_pair cfg symbol) as [tp|]; [|discriminate].
  destruct (Qle_bool _ 0) eqn:Hcap; [discriminate|].
  intros _. exists tp. split; [reflexivity|]. split.
  - apply Qle_bool_false, Hcap.
  - match goal with
    | |- context [let '(so, r) := ?c in _] => destruct c
    end. reflexivity.
Qed.

End OpenCap.

(** C7 at a configuration that keeps [trading_pairs] under [strategy], as
    the schema and the constructor (line 109) have it, with a BTC entry
    of cap 0.01.  The open evaluation looks for the entry next to
    [strategy] (line 751), finds none and rejects the symbol, although
    the funding condition holds.  With the same entry next to [strategy]
    the candidate is emitted with size 0.01 - 0. *)
Theorem open_check_trading_pairs_location :
  init_trading_pairs Sim.config_strategy = Ok [Sim.btc_pair]
  /\ find_trading_pair Sim.config_strategy "BTC" = None
  /\ _check_open_conditions_without_execution
       Helpers.get_backpack_symbol Sim.config_strategy
       (Sim.fresh_engine 0.0002 0.00000625) "BTC" 100 100
       0.0002 0.00005 0 0.00015 [] []
     = (false, OpenNoTradingPair, None)
  /\ _check_open_conditions_without_execution
       Helpers.get_backpack_symbol Sim.config_top
       (Sim.fresh_engine 0.0002 0.00000625) "BTC" 100 100
       0.0002 0.00005 0 0.00015 [] []
     = (true, OpenFundingOnly, Some (0.01 - 0)).
Proof.
  repeat split; reflexivity.
Qed.

(** ** The sign file *)

Lemma dict_get_set_same {V : Type} (d : pydict V) (k : string) (v : V) :
  dict_get (dict_set d k v) k = Some v.
Proof.
  induction d as [|[k' v'] d IH]; simpl.
  - rewrite String.eqb_refl. reflexivity.
  - destruct (String.eqb k' k) eqn:E; simpl; rewrite E; [reflexivity|exact IH].
Qed.

Lemma fs_run_app (fs : filesystem) (ops1 ops2 : list fs_op) :
  fs_run fs (ops1 ++ ops2) = fs_run (fs_run fs ops1) ops2.
Proof. apply fold_left_app. Qed.

Lemma string_append_empty (s : string) : (s ++ EmptyString)%string = s.
Proof. induction s as [|c s IH]; simpl; [reflexivity|]. f_equal. exact IH. Qed.

Lemma string_append_assoc (s t u : string) :
  ((s ++ t) ++ u)%string = (s ++ (t ++ u))%string.
Proof. induction s as [|c s IH]; simpl; [reflexivity|]. f_equal. exact IH. Qed.

Lemma fs_run_writes (path : string) (chunks : list string) :
  forall (fs : filesystem) (old : string),
    dict_get fs path = Some old ->
    dict_get (fs_run fs (map (FsWrite path) chunks)) path
    = Some (old ++ fold_right String.append EmptyString chunks)%string.
Proof.
  induction chunks as [|chunk chunks IH]; intros fs old Hold; simpl.
  - rewrite Hold, string_append_empty. reflexivity.
  - rewrite Hold.
    rewrite (IH (dict_set fs path (old ++ chunk)%string)
                (old ++ chunk)%string (dict_get_set_same _ _ _)).
    rewrite string_append_assoc. reflexivity.
Qed.

Lemma save_ops_in_place (signs : pydict Z) :
  forallb (fun op => negb (is_rename op)
                     && String.eqb (op_path op) funding_signs_file)
          (save_ops signs) = true.
Proof.
  unfold save_ops. simpl.
  rewrite forallb_app. apply andb_true_iff. split; [|reflexivity].
  induction (Json.dump_chunks signs) as [|chunk chunks IH]; simpl;
    [reflexivity|exact IH].
Qed.

Lemma save_ops_result (signs : pydict Z) (fs : filesystem) :
  dict_get (fs_run fs (save_ops signs)) funding_signs_file
  = Some (Json.dumps signs).
Proof.
  unfold save_ops.
  change ([FsOpenTrunc funding_signs_file]
            ++ map (FsWrite funding_signs_file) (Json.dump_chunks signs)
            ++ [FsClose funding_signs_file])%list
    with ([FsOpenTrunc funding_signs_file]
            ++ (map (FsWrite funding_signs_file) (Json.dump_chunks signs)
                  ++ [FsClose funding_signs_file]))%list.
  rewrite fs_run_app, fs_run_app.
  change (fs_run ?x [FsClose funding_signs_file]) with x.
  rewrite (fs_run_writes funding_signs_file (Json.dump_chunks signs) _
             EmptyString).
  - reflexivity.
  - apply dict_get_set_same.
Qed.

(** C8, as the code has it.  Every persist opens the fixed sign file
    itself for writing, which empties it, and writes the JSON text of the
    map into it; no operation is a rename and none touches another path.
    A completed persist leaves the JSON text of the map in the file.  A
    persist stopped right after the open leaves the file empty, and the
    next load answers the empty file with an empty map. *)
Theorem save_funding_diff_signs_in_place (signs : pydict Z)
    (fs : filesystem) :
  forallb (fun op => negb (is_rename op)
                     && String.eqb (op_path op) funding_signs_file)
          (save_ops signs) = true
  /\ dict_get (fs_run fs (save_ops signs)) funding_signs_file
     = Some (Json.dumps signs)
  /\ dict_get (interrupted_after 1 fs (save_ops signs)) funding_signs_file
     = Some EmptyString
  /\ _load_funding_diff_signs (interrupted_after 1 fs (save_ops signs)) = [].
Proof.
  split; [apply save_ops_in_place|].
  assert (Hopen : dict_get (interrupted_after 1 fs (save_ops signs))
                    funding_signs_file = Some EmptyString).
  { unfold interrupted_after, save_ops. simpl firstn.
    apply dict_get_set_same. }
  split; [apply save_ops_result|split; [exact Hopen|]].
  unfold _load_funding_diff_signs. rewrite Hopen. reflexivity.
Qed.

(** C8 as stated fails: the persist of a two-entry map over a parseable
    sign file contains no rename, and stopping it after the open, or
    after the first entry has been written, leaves text in the sign file
    that does not parse. *)
Lemma save_funding_diff_signs_counterexample :
  let fs := [(funding_signs_file, Json.dumps [("BTC", 1%Z)])] in
  let ops := save_ops [("BTC", 1%Z); ("ETH", (-1)%Z)] in
  option_map Json.loads (dict_get fs funding_signs_file)
  = Some (Some [("BTC", 1%Z)])
  /\ existsb is_rename ops = false
  /\ dict_get (interrupted_after 1 fs ops) funding_signs_file
     = Some EmptyString
  /\ option_map Json.loads
       (dict_get (interrupted_after 1 fs ops) funding_signs_file)
     = Some None
  /\ dict_get (interrupted_after 5 fs ops) funding_signs_file
     = Some ("{" ++ Json.dumps_key "BTC" ++ ": 1")%string
  /\ option_map Json.loads
       (dict_get (interrupted_after 5 fs ops) funding_signs_file)
     = Some None
  /\ option_map Json.loads
       (dict_get (fs_run fs ops) funding_signs_file)
     = Some (Some [("BTC", 1%Z); ("ETH", (-1)%Z)]).
Proof.
  repeat split; reflexivity.
Qed.

(** ** Paired execution: close *)

Section CloseRun.

Variable W : Type.
Variable backpack_api hyperliquid_api : venue_api W.

(** Whatever the venues answer, [_close_position] returns [False],
    places no order and leaves the engine state as it was. *)
Lemma close_position_never_orders (symbol : string)
    (position : pair_position) (m : machine W) :
  let r := _close_position W backpack_api hyperliquid_api symbol position
             m in
  fst r = Ok false
  /\ eng (snd r) = eng m
  /\ exists new,
       calls (snd r) = (calls m ++ new)%list
       /\ existsb is_order_request new = false.
Proof.
  unfold _close_position, try_except, bind, call_positions, call, api,
    lift_exc, ret.
  cbn [eng world calls].
  destruct (get_price backpack_api (pp_bp_symbol position) (world m))
    as [[[p|]|ex] w1]; cbn [eng world calls fst snd].
  2,3: repeat split; eexists; split; [reflexivity|reflexivity].
  destruct (Qeq_bool p 0).
  { repeat split; eexists; split; [reflexivity|reflexivity]. }
  cbn [eng world calls fst snd].
  destruct (get_positions backpack_api w1) as [[pre_bp|ex] w2];
    cbn [eng world calls fst snd].
  2:{ repeat split. eexists. split; [rewrite <- app_assoc|]; reflexivity. }
  destruct (get_positions hyperliquid_api w2) as [[pre_hl|ex] w3];
    cbn [eng world calls fst snd].
  2:{ repeat split. eexists.
      split; [rewrite <- !app_assoc|]; reflexivity. }
  destruct (find_position pre_bp (pp_bp_symbol position)),
    (find_position pre_hl (pp_hl_symbol position));
    cbn [eng world calls fst snd global_number];
    repeat split; eexists;
    (split; [rewrite <- !app_assoc|]; reflexivity).
Qed.

End CloseRun.

Section CloseWithoutPosition.

Variable W : Type.
Variable backpack_api hyperliquid_api : venue_api W.

(** C10.  When the position query made before the trade finds no
    position for the symbol on at least one venue, [_close_position]
    returns [False] having made only its three queries: no order is
    placed on either venue, so the venues' positions are what they
    were, and the engine state, the sign store and its file included,
    is unchanged. *)
Theorem close_without_position_fails (symbol : string)
    (pp : pair_position) (m : machine W) (bp_price : Q)
    (pre_bp_positions pre_hl_positions : pydict position) (w1 w2 w3 : W) :
  get_price backpack_api (pp_bp_symbol pp) (world m)
    = (Ok (Some bp_price), w1) ->
  Qeq_bool bp_price 0 = false ->
  get_positions backpack_api w1 = (Ok pre_bp_positions, w2) ->
  get_positions hyperliquid_api w2 = (Ok pre_hl_positions, w3) ->
  find_position pre_bp_positions (pp_bp_symbol pp) = None
  \/ find_position pre_hl_positions (pp_hl_symbol pp) = None ->
  _close_position W backpack_api hyperliquid_api symbol pp m
    = (Ok false,
       mkMachine (eng m) w3
         (calls m ++ close_query_calls (pp_bp_symbol pp)))
  /\ existsb is_order_request (close_query_calls (pp_bp_symbol pp))
     = false.
Proof.
  intros Hprice Hnonzero Hbp Hhl Hnone.
  split; [|reflexivity].
  unfold _close_position, try_except, bind, call_positions, call, api,
    lift_exc, ret, close_query_calls.
  cbn [eng world calls].
  rewrite Hprice. cbn [eng world calls]. rewrite Hnonzero.
  cbn beta iota. cbn [eng world calls]. rewrite Hbp.
  cbn [eng world calls]. rewrite Hhl. cbn [eng world calls].
  rewrite <- !app_assoc. cbn [app].
  destruct Hnone as [Hnone|Hnone]; rewrite Hnone.
  - reflexivity.
  - destruct (find_position pre_bp_positions (pp_bp_symbol pp));
      reflexivity.
Qed.

End CloseWithoutPosition.

(** The theorem at a close of the BTC pair when only the Backpack leg is
    on the books. *)
Lemma close_without_position_fails_witness :
  _close_position Sim.world Sim.backpack_api Sim.hyperliquid_api "BTC"
    Sim.btc_pair_position (Sim.start Sim.paired_engine Sim.one_leg_world)
  = (Ok false,
     mkMachine Sim.paired_engine Sim.one_leg_world
       (close_query_calls "BTC_USDC_PERP"))
  /\ existsb is_order_request (close_query_calls "BTC_USDC_PERP") = false.
Proof.
  apply (close_without_position_fails Sim.world Sim.backpack_api
           Sim.hyperliquid_api "BTC" Sim.btc_pair_position
           (Sim.start Sim.paired_engine Sim.one_leg_world) 100
           (Sim.bp_book Sim.one_leg_world) (Sim.hl_book Sim.one_leg_world)
           Sim.one_leg_world Sim.one_leg_world Sim.one_leg_world).
  - reflexivity.
  - reflexivity.
  - reflexivity.
  - reflexivity.
  - right. reflexivity.
Defined.

(** C2 at a close of the BTC pair with both legs on the books, the sign
    stored and venues that fill every order.  The run stops at line 1434,
    where [tick_size] is read: the method never assigns it and the module
    does not define it.  The result is [False], no closing order has been
    placed, both positions are still on the books and the sign entry is
    still in the store and in its file.  Had the two closing orders been
    placed, both books would be empty. *)
Theorem close_position_unbound_tick_size :
  find_position (Sim.bp_book Sim.paired_world) "BTC_USDC_PERP"
    = Some (Sim.held "BTC_USDC_PERP" "SELL" 0.01)
  /\ find_position (Sim.hl_book Sim.paired_world) "BTC"
     = Some (Sim.held "BTC" "BUY" 0.01)
  /\ global_number "tick_size" = Raise (NameError "tick_size")
  /\ _close_position Sim.world Sim.backpack_api Sim.hyperliquid_api "BTC"
       Sim.btc_pair_position (Sim.start Sim.paired_engine Sim.paired_world)
     = (Ok false,
        mkMachine Sim.paired_engine Sim.paired_world
          (close_query_calls "BTC_USDC_PERP"))
  /\ existsb is_order_request (close_query_calls "BTC_USDC_PERP") = false
  /\ dict_get (funding_diff_signs Sim.paired_engine) "BTC" = Some 1%Z
  /\ Sim.bp_book
       (snd (place_order Sim.backpack_api
               (mkOrder "BTC_USDC_PERP" "BUY" 0.01 None "MARKET")
               Sim.paired_world)) = []
  /\ Sim.hl_book
       (snd (place_order Sim.hyperliquid_api
               (mkOrder "BTC" "SELL" 0.01 None "MARKET")
               Sim.paired_world)) = [].
Proof.
  repeat split; reflexivity.
Qed.

(** ** Paired execution: open *)

Lemma open_side_sell (funding : Q) : open_side funding = "SELL" <-> 0 < funding.
Proof.
  unfold open_side. destruct (Qlt_bool 0 funding) eqn:E.
  - apply Qlt_bool_true in E. split; [intros _; exact E|reflexivity].
  - apply Qlt_bool_false in E. split; [discriminate|].
    intro H. exfalso. apply (Qlt_not_le _ _ H E).
Qed.

Lemma open_side_buy (funding : Q) : open_side funding = "BUY" <-> funding <= 0.
Proof.
  unfold open_side. destruct (Qlt_bool 0 funding) eqn:E.
  - apply Qlt_bool_true in E. split; [discriminate|].
    intro H. exfalso. apply (Qlt_not_le _ _ E H).
  - apply Qlt_bool_false in E. split; [intros _; exact E|reflexivity].
Qed.

Section OpenRun.

Variable get_backpack_symbol get_hyperliquid_symbol : string -> string.
Variable calculate_funding_diff : Q -> Q -> Q * Z.
Variable cfg : config.
Variable W : Type.
Variable backpack_api hyperliquid_api : venue_api W.

Variable symbol : string.
Variable funding_diff bp_funding hl_funding size : Q.
Variable m : machine W.

(** What the run meets on its way to the verification. *)
Variable data : snapshot.
Variable bp_price hl_price min_volume limit : Q.
Variable tp : trading_pair.
Variable pre_bp pre_hl post_bp post_hl : pydict position.
Variable bp_result hl_result : exc pyval.
Variable w1 w2 w3 w4 w5 w6 : W.

Local Abbreviation bp_symbol := (get_backpack_symbol symbol).
Local Abbreviation hl_symbol := (get_hyperliquid_symbol symbol).
Local Abbreviation order_size :=
  (clamp_size size min_volume (tp_max_position_size tp)).
Local Abbreviation bp_order := (bp_open_order bp_symbol bp_funding order_size).
Local Abbreviation hl_order :=
  (hl_open_order hl_symbol hl_funding order_size limit).
Local Abbreviation hl_unwind :=
  (hl_unwind_order hl_symbol hl_funding order_size).
Local Abbreviation bp_changed :=
  (open_leg_changed pos_quantity (find_position pre_bp bp_symbol)
     (find_position post_bp bp_symbol) order_size).
Local Abbreviation hl_changed :=
  (open_leg_changed pos_size (find_position pre_hl hl_symbol)
     (find_position post_hl hl_symbol) order_size).
Local Abbreviation recorded :=
  (open_run_engine calculate_funding_diff symbol bp_funding hl_funding
     bp_price hl_price (eng m)).
Local Abbreviation dispatch := (open_dispatch_calls bp_order hl_order).
Local Abbreviation the_run :=
  (_open_position get_backpack_symbol get_hyperliquid_symbol
     calculate_funding_diff cfg W backpack_api hyperliquid_api symbol
     funding_diff bp_funding hl_funding (Some size) m).

Hypothesis H_data : get_data (eng m) symbol = Some data.
Hypothesis H_bp_price : sn_bp_price data = Some bp_price.
Hypothesis H_hl_price : sn_hl_price data = Some hl_price.
Hypothesis H_pair : find_trading_pair cfg symbol = Some tp.
Hypothesis H_min_volume : tp_min_volume tp = Some min_volume.
Hypothesis H_hl_price_nonzero : Qeq_bool hl_price 0 = false.
Hypothesis H_limit :
  limit_price hl_price (open_side hl_funding)
    (get_or (tp_tick_size tp) 0.001) (get_or (tp_price_precision tp) 3%Z)
  = Ok limit.
Hypothesis H_pre_bp :
  get_positions backpack_api (world m) = (Ok pre_bp, w1).
Hypothesis H_pre_hl : get_positions hyperliquid_api w1 = (Ok pre_hl, w2).
Hypothesis H_order_bp :
  place_order backpack_api bp_order w2 = (bp_result, w3).
Hypothesis H_order_hl :
  place_order hyperliquid_api hl_order w3 = (hl_result, w4).
Hypothesis H_post_bp : get_positions backpack_api w4 = (Ok post_bp, w5).
Hypothesis H_post_hl :
  get_positions hyperliquid_api w5 = (Ok post_hl, w6).

(** The whole run, once it reaches the verification. *)
Lemma open_position_run :
  the_run
  = if bp_changed && hl_changed then
      (Ok (Some true), mkMachine recorded w6 (calls m ++ dispatch))
    else if bp_changed then
      (Ok (Some false),
       mkMachine recorded
         (snd (close_position backpack_api bp_symbol w6))
         (calls m ++ dispatch ++ [(Backpack, ReqClosePosition bp_symbol)]))
    else if hl_changed then
      (Ok (Some false),
       mkMachine recorded
         (snd (place_order hyperliquid_api hl_unwind w6))
         (calls m ++ dispatch ++ [(Hyperliquid, ReqPlaceOrder hl_unwind)]))
    else
      (Ok (Some false), mkMachine recorded w6 (calls m ++ dispatch)).
Proof.
  unfold _open_position, try_except, bind, get_engine, lift_exc,
    modify_engine, call_place_order, call_positions, call, attempt, api,
    ret, need, number.
  cbn [eng world calls].
  rewrite H_data, H_bp_price, H_hl_price, H_pair, H_min_volume.
  cbn beta iota.
  destruct (calculate_funding_diff bp_funding hl_funding)
    as [d funding_diff_sign] eqn:Hsign.
  cbn [eng world calls].
  unfold py_div at 1. rewrite H_hl_price_nonzero.
  cbn [eng world calls].
  rewrite H_pre_bp. cbn [eng world calls].
  rewrite H_pre_hl. cbn [eng world calls].
  rewrite H_limit. cbn beta iota.
  fold bp_order. fold hl_order.
  rewrite H_order_bp. cbn [eng world calls].
  rewrite H_order_hl. cbn [eng world calls].
  rewrite H_post_bp. cbn [eng world calls].
  rewrite H_post_hl. cbn [eng world calls].
  fold hl_unwind.
  unfold open_run_engine. rewrite Hsign. cbn [snd].
  unfold open_dispatch_calls.
  rewrite <- !app_assoc. cbn [app].
  destruct bp_changed, hl_changed;
    cbn [andb negb]; cbn beta iota; cbn [eng world calls].
  - reflexivity.
  - destruct (close_position backpack_api bp_symbol w6) as [[r|ex] w7];
      cbn [eng world calls snd];
      rewrite <- !app_assoc; reflexivity.
  - destruct (place_order hyperliquid_api hl_unwind w6) as [[r|ex] w7];
      cbn [eng world calls snd];
      rewrite <- !app_assoc; reflexivity.
  - reflexivity.
Qed.

Lemma open_run_engine_signs :
  funding_diff_signs recorded
  = dict_set (funding_diff_signs (eng m)) symbol
      (snd (calculate_funding_diff bp_funding hl_funding))
  /\ dict_get (files recorded) funding_signs_file
     = Some (Json.dumps
               (dict_set (funding_diff_signs (eng m)) symbol
                  (snd (calculate_funding_diff bp_funding hl_funding)))).
Proof.
  unfold open_run_engine, record_price_sign, record_funding_sign,
    _save_funding_diff_signs, set_price_diff_signs, set_files,
    set_funding_diff_signs.
  cbn [funding_diff_signs files price_diff_signs market_data].
  split; [reflexivity|apply save_ops_result].
Qed.

(** C1, as the code has it.  In every open execution in which exactly
    one leg's position change is verified, the executor unwinds the
    filled venue (on Backpack by [close_position] of the symbol, on
    Hyperliquid by a market order of the opposite side and the order's
    size) and returns [False].  The sign store is not what it was: the
    symbol's funding sign was put into the store and written to the
    sign file before the orders were placed (lines 1089-1096), and the
    failed open leaves it there. *)
Theorem open_partial_fill_unwinds :
  bp_changed <> hl_changed ->
  fst (_open_position get_backpack_symbol get_hyperliquid_symbol
         calculate_funding_diff cfg W backpack_api hyperliquid_api symbol
         funding_diff bp_funding hl_funding (Some size) m)
  = Ok (Some false)
  /\ calls (snd (_open_position get_backpack_symbol get_hyperliquid_symbol
                   calculate_funding_diff cfg W backpack_api
                   hyperliquid_api symbol funding_diff bp_funding
                   hl_funding (Some size) m))
     = (calls m ++ dispatch
          ++ [if bp_changed
              then (Backpack, ReqClosePosition bp_symbol)
              else (Hyperliquid, ReqPlaceOrder hl_unwind)])%list
  /\ funding_diff_signs
       (eng (snd (_open_position get_backpack_symbol get_hyperliquid_symbol
                    calculate_funding_diff cfg W backpack_api
                    hyperliquid_api symbol funding_diff bp_funding
                    hl_funding (Some size) m)))
     = dict_set (funding_diff_signs (eng m)) symbol
         (snd (calculate_funding_diff bp_funding hl_funding))
  /\ dict_get
       (files
          (eng (snd (_open_position get_backpack_symbol
                       get_hyperliquid_symbol calculate_funding_diff cfg W
                       backpack_api hyperliquid_api symbol funding_diff
                       bp_funding hl_funding (Some size) m))))
       funding_signs_file
     = Some (Json.dumps
               (dict_set (funding_diff_signs (eng m)) symbol
                  (snd (calculate_funding_diff bp_funding hl_funding)))).
Proof.
  intro Hone. rewrite open_position_run.
  destruct open_run_engine_signs as [Hsigns Hfile].
  destruct bp_changed, hl_changed; try congruence;
    cbn [andb fst snd eng calls]; repeat split; assumption.
Qed.

(** C3, as the code has it.  The two orders of an open are a Backpack
    order whose side is SELL when Backpack's funding is positive and BUY
    otherwise, and a Hyperliquid order whose side is SELL when the
    Hyperliquid funding passed to the open is positive and BUY
    otherwise.  The two sides are opposite exactly when one funding is
    positive and the other is not; two positive fundings give two SELL
    orders, two non-positive fundings two BUY orders. *)
Theorem open_sides_follow_own_funding :
  (exists rest,
     calls (snd (_open_position get_backpack_symbol get_hyperliquid_symbol
                   calculate_funding_diff cfg W backpack_api
                   hyperliquid_api symbol funding_diff bp_funding
                   hl_funding (Some size) m))
     = (calls m
          ++ [ (Backpack, ReqPositions); (Hyperliquid, ReqPositions);
               (Backpack,
                ReqPlaceOrder
                  (bp_open_order bp_symbol bp_funding order_size));
               (Hyperliquid,
                ReqPlaceOrder
                  (hl_open_order hl_symbol hl_funding order_size limit)) ]
          ++ rest)%list)
  /\ (o_side (bp_open_order bp_symbol bp_funding order_size) = "SELL"
      <-> 0 < bp_funding)
  /\ (o_side (bp_open_order bp_symbol bp_funding order_size) = "BUY"
      <-> bp_funding <= 0)
  /\ (o_side (hl_open_order hl_symbol hl_funding order_size limit) = "SELL"
      <-> 0 < hl_funding)
  /\ (o_side (hl_open_order hl_symbol hl_funding order_size limit) = "BUY"
      <-> hl_funding <= 0)
  /\ (o_side (bp_open_order bp_symbol bp_funding order_size)
        <> o_side (hl_open_order hl_symbol hl_funding order_size limit)
      <-> (0 < bp_funding /\ hl_funding <= 0)
          \/ (bp_funding <= 0 /\ 0 < hl_funding)).
Proof.
  split.
  - rewrite open_position_run. unfold open_dispatch_calls.
    destruct bp_changed, hl_changed; cbn [andb snd calls];
      eexists; cbn [app]; reflexivity.
  - cbn [o_side bp_open_order hl_open_order].
    repeat split;
      try (apply open_side_sell); try (apply open_side_buy).
    + intro Hne.
      destruct (open_side bp_funding =? "SELL")%string eqn:Eb,
        (open_side hl_funding =? "SELL")%string eqn:Eh.
      * apply String.eqb_eq in Eb, Eh. congruence.
      * left. apply String.eqb_eq in Eb. apply String.eqb_neq in Eh.
        split; [apply open_side_sell, Eb|].
        apply open_side_buy. unfold open_side in *.
        destruct (Qlt_bool 0 hl_funding); congruence.
      * right. apply String.eqb_eq in Eh. apply String.eqb_neq in Eb.
        split; [|apply open_side_sell, Eh].
        apply open_side_buy. unfold open_side in *.
        destruct (Qlt_bool 0 bp_funding); congruence.
      * apply String.eqb_neq in Eb, Eh. unfold open_side in *.
        destruct (Qlt_bool 0 bp_funding), (Qlt_bool 0 hl_funding);
          congruence.
    + intros [[Hb Hh]|[Hb Hh]].
      * apply open_side_sell in Hb. apply open_side_buy in Hh.
        rewrite Hb, Hh. discriminate.
      * apply open_side_buy in Hb. apply open_side_sell in Hh.
        rewrite Hb, Hh. discriminate.
Qed.

End OpenRun.

(** The theorem at an open of BTC on flat venues where Backpack fills the
    order and Hyperliquid rejects it. *)
Lemma open_partial_fill_unwinds_witness :
  let m := Sim.start (Sim.fresh_engine 0.0002 0.00000625)
             (Sim.flat true false) in
  let r := _open_position Helpers.get_backpack_symbol
             Helpers.get_hyperliquid_symbol Helpers.calculate_funding_diff
             Sim.config_top Sim.world Sim.backpack_api Sim.hyperliquid_api
             "BTC" 0.00015 0.0002 0.00005 (Some 0.01) m in
  fst r = Ok (Some false)
  /\ calls (snd r)
     = [ (Backpack, ReqPositions); (Hyperliquid, ReqPositions);
         (Backpack, ReqPlaceOrder
                      (mkOrder "BTC_USDC_PERP" "SELL" 0.01 None "MARKET"));
         (Hyperliquid, ReqPlaceOrder
                         (mkOrder "BTC" "SELL" 0.01 (Some 99.5) "LIMIT"));
         (Backpack, ReqPositions); (Hyperliquid, ReqPositions);
         (Backpack, ReqClosePosition "BTC_USDC_PERP") ]
  /\ funding_diff_signs (eng (snd r)) = [("BTC", (-1)%Z)]
  /\ dict_get (files (eng (snd r))) funding_signs_file
     = Some (Json.dumps [("BTC", (-1)%Z)]).
Proof.
  intros m r.
  pose (w := snd (place_order Sim.backpack_api
                    (mkOrder "BTC_USDC_PERP" "SELL" 0.01 None "MARKET")
                    (Sim.flat true false))).
  apply (open_partial_fill_unwinds Helpers.get_backpack_symbol
           Helpers.get_hyperliquid_symbol Helpers.calculate_funding_diff
           Sim.config_top Sim.world Sim.backpack_api Sim.hyperliquid_api
           "BTC" 0.00015 0.0002 0.00005 0.01 m
           (Sim.btc_snapshot 0.0002 0.00000625) 100 100 0.001 99.5
           Sim.btc_pair [] [] (Sim.bp_book w) []
           (Ok Sim.accepted) (Raise (VenueError "rejected"))
           (Sim.flat true false) (Sim.flat true false) w w w w).
  all: try reflexivity.
  vm_compute. discriminate.
Defined.

(** C1 as stated fails at the same open: before it the sign store is
    empty and the sign file does not exist; after the failed open the
    store holds an entry for BTC and the file has been written. *)
Lemma open_partial_fill_counterexample :
  let m := Sim.start (Sim.fresh_engine 0.0002 0.00000625)
             (Sim.flat true false) in
  let r := _open_position Helpers.get_backpack_symbol
             Helpers.get_hyperliquid_symbol Helpers.calculate_funding_diff
             Sim.config_top Sim.world Sim.backpack_api Sim.hyperliquid_api
             "BTC" 0.00015 0.0002 0.00005 (Some 0.01) m in
  funding_diff_signs (eng m) = []
  /\ dict_get (files (eng m)) funding_signs_file = None
  /\ fst r = Ok (Some false)
  /\ last (calls (snd r)) (Backpack, ReqPositions)
     = (Backpack, ReqClosePosition "BTC_USDC_PERP")
  /\ Sim.bp_book (world (snd r)) = []
  /\ Sim.hl_book (world (snd r)) = []
  /\ funding_diff_signs (eng (snd r)) <> funding_diff_signs (eng m)
  /\ dict_get (funding_diff_signs (eng (snd r))) "BTC" = Some (-1)%Z
  /\ dict_get (files (eng (snd r))) funding_signs_file
     = Some (Json.dumps [("BTC", (-1)%Z)]).
Proof.
  repeat split; try reflexivity. vm_compute. discriminate.
Qed.

(** The theorem at an open of BTC on flat venues that fill both orders,
    with a positive Backpack funding and a negative Hyperliquid
    funding. *)
Lemma open_sides_follow_own_funding_witness :
  let m := Sim.start (Sim.fresh_engine 0.0002 (-0.00000625))
             (Sim.flat true true) in
  let r := _open_position Helpers.get_backpack_symbol
             Helpers.get_hyperliquid_symbol Helpers.calculate_funding_diff
             Sim.config_top Sim.world Sim.backpack_api Sim.hyperliquid_api
             "BTC" 0.00025 0.0002 (-0.00005) (Some 0.01) m in
  (exists rest,
     calls (snd r)
     = [ (Backpack, ReqPositions); (Hyperliquid, ReqPositions);
         (Backpack, ReqPlaceOrder
                      (mkOrder "BTC_USDC_PERP" "SELL" 0.01 None "MARKET"));
         (Hyperliquid, ReqPlaceOrder
                         (mkOrder "BTC" "BUY" 0.01 (Some 100.5) "LIMIT")) ]
         ++ rest)%list
  /\ ("SELL" <> "BUY"
      <-> (0 < 0.0002 /\ -0.00005 <= 0) \/ (0.0002 <= 0 /\ 0 < -0.00005)).
Proof.
  intros m r.
  pose (w3 := snd (place_order Sim.backpack_api
                     (mkOrder "BTC_USDC_PERP" "SELL" 0.01 None "MARKET")
                     (Sim.flat true true))).
  pose (w4 := snd (place_order Sim.hyperliquid_api
                     (mkOrder "BTC" "BUY" 0.01 (Some 100.5) "LIMIT") w3)).
  destruct (open_sides_follow_own_funding Helpers.get_backpack_symbol
              Helpers.get_hyperliquid_symbol Helpers.calculate_funding_diff
              Sim.config_top Sim.world Sim.backpack_api Sim.hyperliquid_api
              "BTC" 0.00025 0.0002 (-0.00005) 0.01 m
              (Sim.btc_snapshot 0.0002 (-0.00000625)) 100 100 0.001 100.5
              Sim.btc_pair [] [] (Sim.bp_book w4) (Sim.hl_book w4)
              (Ok Sim.accepted) (Ok Sim.accepted)
              (Sim.flat true true) (Sim.flat true true) w3 w4 w4 w4
              eq_refl eq_refl eq_refl eq_refl eq_refl eq_refl eq_refl
              eq_refl eq_refl eq_refl eq_refl eq_refl eq_refl)
    as (Hcalls & _ & _ & _ & _ & Hsides).
  split; [exact Hcalls|exact Hsides].
Defined.

(** C3 as stated fails at the open of the first scenario: both fundings
    are positive, both orders are SELL orders, both are filled and the
    open reports success. *)
Lemma open_sides_counterexample :
  let m := Sim.start (Sim.fresh_engine 0.0002 0.00000625)
             (Sim.flat true true) in
  let r := _open_position Helpers.get_backpack_symbol
             Helpers.get_hyperliquid_symbol Helpers.calculate_funding_diff
             Sim.config_top Sim.world Sim.backpack_api Sim.hyperliquid_api
             "BTC" 0.00015 0.0002 0.00005 (Some 0.01) m in
  0 < 0.0002 /\ 0 < 0.00005
  /\ fst r = Ok (Some true)
  /\ order_sides (calls (snd r))
     = [(Backpack, "SELL"); (Hyperliquid, "SELL")]
  /\ option_map pos_side
       (find_position (Sim.bp_book (world (snd r))) "BTC_USDC_PERP")
     = Some (Some "SELL")
  /\ option_map pos_side (find_position (Sim.hl_book (world (snd r))) "BTC")
     = Some (Some "SELL").
Proof.
  repeat split; reflexivity.
Qed.

(** ** Normalised funding rates *)

(** C4 on the first scenario: Backpack's rate is 0.0002 and Hyperliquid's
    hourly rate 0.00000625, that is 0.00005 once multiplied by 8, so the
    normalised difference is 0.00015 and its sign +1.  The collector
    gives [calculate_funding_diff] the hourly rate (line 545) and the
    open gives it the rate already multiplied by 8 (lines 631 and 1090).
    If the helper normalises its argument, the candidate carries the
    normalised difference and the open stores the sign of
    0.0002 - 8 * 0.00005, which is -1.  If the helper takes the plain
    difference, the candidate's difference is 0.0002 - 0.00000625, made
    from the hourly rate. *)
Theorem funding_sign_normalisation_mismatch :
  let normalised := 0.0002 - 0.00000625 * 8 in
  let collect := fun helper =>
    _collect_arbitrage_opportunity Helpers.get_backpack_symbol helper
      Helpers.float_of_str Sim.config_top Sim.world Sim.backpack_api
      Sim.hyperliquid_api "BTC" [] [] [] [] Sim.scenario_machine in
  let open := fun helper candidate =>
    open_candidate_position Helpers.get_backpack_symbol
      Helpers.get_hyperliquid_symbol helper Sim.config_top Sim.world
      Sim.backpack_api Sim.hyperliquid_api candidate Sim.scanned_machine in
  normalised == 0.00015
  /\ sign_of normalised = 1%Z
  /\ collect Helpers.calculate_funding_diff
     = (Ok ([Sim.scenario_candidate normalised], []), Sim.scanned_machine)
  /\ dict_get
       (funding_diff_signs
          (eng (snd (open Helpers.calculate_funding_diff
                       (Sim.scenario_candidate normalised)))))
       "BTC"
     = Some (-1)%Z
  /\ collect Helpers.plain_funding_diff
     = (Ok ([Sim.scenario_candidate (0.0002 - 0.00000625)], []),
        Sim.scanned_machine)
  /\ ~ 0.0002 - 0.00000625 == normalised.
Proof.
  intros normalised collect open.
  split; [vm_compute; reflexivity|].
  split; [vm_compute; reflexivity|].
  split; [vm_compute; reflexivity|].
  split; [vm_compute; reflexivity|].
  split; [vm_compute; reflexivity|].
  vm_compute. discriminate.
Qed.

(** * Further properties *)

(** ** The slippage analyzer on numbers *)

Section SlippageEdges.

Variable float_of_str : string -> option Q.

Lemma walk_levels_nonpositive (amount_usd : Q) :
  amount_usd <= 0 ->
  forall book_side filled weighted levels_checked last_price w,
    filled <= 0 ->
    walk_levels book_side amount_usd filled weighted levels_checked
      last_price = Ok w ->
    amount_filled w <= 0.
Proof.
  intros Hamount book_side.
  induction book_side as [|[level_price level_size] rest IH];
    intros filled weighted levels_checked last_price w Hfilled; simpl.
  - intro H. injection H as <-. exact Hfilled.
  - destruct (Qle_bool amount_usd (filled + level_price * level_size)) eqn:E.
    + destruct (py_div (amount_usd - filled) level_price); simpl;
        [|discriminate].
      intro H. injection H as <-. exact Hamount.
    + apply Qle_bool_false in E.
      assert (Hnext : filled + level_price * level_size <= 0) by lra.
      match goal with
      | |- (if ?b then _ else _) = _ -> _ => destruct b
      end.
      * intro H. injection H as <-. exact Hnext.
      * apply IH. exact Hnext.
Qed.

Lemma slippage_of_fill_nonpositive side price w q :
  amount_filled w <= 0 ->
  slippage_of_fill side price w = Ok q -> q = 0.1.
Proof.
  intros Hfilled. unfold slippage_of_fill.
  apply Qlt_bool_false in Hfilled. rewrite Hfilled.
  intro H. injection H as <-. reflexivity.
Qed.

Lemma after_walk_nonpositive side amount_usd price w q :
  amount_usd <= 0 -> amount_filled w <= 0 ->
  after_walk side amount_usd price w = Ok q -> q = 0.1.
Proof.
  intros Hamount Hfilled. unfold after_walk.
  destruct (Qlt_bool (amount_filled w) amount_usd) eqn:E.
  - apply Qlt_bool_true in E. unfold py_div.
    destruct (Qeq_bool amount_usd 0) eqn:Ez; simpl; [discriminate|].
    apply Qeq_bool_neq in Ez.
    assert (Hneg : amount_usd < 0).
    { destruct (Qlt_le_dec amount_usd 0) as [Hlt|Hge]; [exact Hlt|].
      exfalso. apply Ez. apply Qle_antisym; assumption. }
    assert (Hratio : 80 <= amount_filled w / amount_usd * 100).
    { assert (H1 : 1 <= amount_filled w / amount_usd).
      { setoid_replace (amount_filled w / amount_usd)
          with ((- amount_filled w) / (- amount_usd)) by (field; exact Ez).
        apply Qle_shift_div_l; lra. }
      lra. }
    apply Qle_bool_iff in Hratio. rewrite Hratio.
    apply slippage_of_fill_nonpositive, Hfilled.
  - apply slippage_of_fill_nonpositive, Hfilled.
Qed.

(** X1.  For a notional amount that is zero or negative the analyzer
    returns the default 0.1, whatever the orderbook, the side and the
    price are. *)
Theorem analyze_orderbook_nonpositive_amount (orderbook : pyval)
    (side : string) (amount_usd price : Q) :
  amount_usd <= 0 ->
  _analyze_orderbook float_of_str orderbook side amount_usd price = 0.1.
Proof.
  intro Hamount. unfold _analyze_orderbook.
  destruct (analyze_body float_of_str orderbook side amount_usd price)
    as [q|e] eqn:E; [|reflexivity].
  revert E. unfold analyze_body.
  destruct (negb (py_truthy orderbook));
    [intro H; injection H as <-; reflexivity|].
  destruct (orderbook_side orderbook side) as [[v|]|]; simpl;
    try discriminate; [|intro H; injection H as <-; reflexivity].
  destruct (negb (py_truthy v)); [intro H; injection H as <-; reflexivity|].
  destruct v; try discriminate; [intro H; injection H as <-; reflexivity|].
  unfold analyze_levels.
  destruct (convert_levels float_of_str l) as [[|pl book_side]|]; simpl;
    try discriminate; [intro H; injection H as <-; reflexivity|].
  destruct (walk_levels _ amount_usd 0 0 0 0) as [w|] eqn:Ew; simpl;
    [|discriminate].
  apply after_walk_nonpositive; [exact Hamount|].
  apply (walk_levels_nonpositive amount_usd Hamount _ _ _ _ _ w
           (Qle_refl 0) Ew).
Qed.

End SlippageEdges.

(** The theorem at a deep book and the amount 0. *)
Lemma analyze_orderbook_nonpositive_amount_witness :
  _analyze_orderbook Helpers.float_of_str Sim.deep_book "asks" 0 100 = 0.1.
Proof.
  apply (analyze_orderbook_nonpositive_amount Helpers.float_of_str
           Sim.deep_book "asks" 0 100).
  apply Qle_refl.
Defined.

Section SlippageBooks.

Variable float_of_str : string -> option Q.

Lemma convert_numeric_levels (book : list (Q * Q)) :
  convert_levels float_of_str (map numeric_level book) = Ok book.
Proof.
  induction book as [|[p s] book IH]; simpl; [reflexivity|].
  rewrite IH. reflexivity.
Qed.







Lemma numeric_book_truthy (book : list (Q * Q)) :
  book <> [] -> py_truthy (PList (map numeric_level book)) = true.
Proof. destruct book; [congruence|reflexivity]. Qed.

Lemma dict_get_some_truthy (d : list (string * pyval)) (k : string)
    (v : pyval) :
  dict_get d k = Some v -> py_truthy (PDict d) = true.
Proof. destruct d; [discriminate|reflexivity]. Qed.


Lemma py_min_compat (a x y : Q) : x == y -> py_min a x == py_min a y.
Proof.
  intro Hxy. unfold py_min.
  destruct (Qlt_bool x a) eqn:Ex, (Qlt_bool y a) eqn:Ey;
    try apply Qlt_bool_true in Ex; try apply Qlt_bool_true in Ey;
    try apply Qlt_bool_false in Ex; try apply Qlt_bool_false in Ey;
    try exact Hxy; try reflexivity; exfalso; lra.
Qed.

Lemma py_max_compat (a x y : Q) : x == y -> py_max a x == py_max a y.
Proof.
  intro Hxy. unfold py_max.
  destruct (Qlt_bool a x) eqn:Ex, (Qlt_bool a y) eqn:Ey;
    try apply Qlt_bool_true in Ex; try apply Qlt_bool_true in Ey;
    try apply Qlt_bool_false in Ex; try apply Qlt_bool_false in Ey;
    try exact Hxy; try reflexivity; exfalso; lra.
Qed.

(** X3.  When the best level of the requested side (the first one after
    the sort) can absorb the whole positive amount, the estimate is the
    relative distance between that level's price and the price passed
    in, in percent, clamped to [0.01, 0.5]. *)
Theorem analyze_orderbook_best_level (d : list (string * pyval))
    (side : string) (book rest : list (Q * Q))
    (level_price level_size amount_usd price : Q) :
  dict_get d side = Some (PList (map numeric_level book)) ->
  sorted_by_price (String.eqb side "bids") book
    = (level_price, level_size) :: rest ->
  0 < amount_usd ->
  amount_usd <= level_price * level_size ->
  ~ price == 0 ->
  _analyze_orderbook float_of_str (PDict d) side amount_usd price
  == py_max 0.01 (py_min 0.5 (Qabs ((level_price - price) / price * 100))).
Proof.
  intros Hside Hsorted Hpos Hcover Hprice.
  unfold _analyze_orderbook, analyze_body.
  rewrite (dict_get_some_truthy _ _ _ Hside). cbn [negb orderbook_side].
  rewrite Hside. cbn [exc_bind].
  assert (Hbook : book <> []) by (intros ->; discriminate).
  rewrite (numeric_book_truthy book Hbook). cbn [negb].
  unfold analyze_levels. rewrite convert_numeric_levels. cbn [exc_bind].
  destruct book as [|pl book]; [congruence|].
  rewrite Hsorted. cbn [walk_levels].
  assert (E1 : Qle_bool amount_usd (0 + level_price * level_size) = true).
  { apply Qle_bool_iff. lra. }
  rewrite E1.
  assert (Hlevel : ~ level_price == 0).
  { intro Hz. rewrite Hz in Hcover. lra. }
  unfold py_div at 1.
  assert (E2 : Qeq_bool level_price 0 = false).
  { destruct (Qeq_bool level_price 0) eqn:E; [|reflexivity].
    apply Qeq_bool_eq in E. contradiction. }
  rewrite E2. cbn [exc_bind].
  unfold after_walk. cbn [amount_filled weighted_price last_level_price].
  assert (E3 : Qlt_bool amount_usd amount_usd = false).
  { apply Qlt_bool_false. apply Qle_refl. }
  rewrite E3. unfold slippage_of_fill.
  cbn [amount_filled weighted_price last_level_price].
  assert (E4 : Qlt_bool 0 amount_usd = true)
    by (apply Qlt_bool_true; exact Hpos).
  rewrite E4. unfold py_div at 1. rewrite E2. cbn [exc_bind].
  assert (Hunits : ~ amount_usd / level_price == 0).
  { intro Hz. apply (Qmult_inj_r _ _ level_price Hlevel) in Hz || idtac.
    assert (Ha : amount_usd == amount_usd / level_price * level_price)
      by (field; exact Hlevel).
    rewrite Hz in Ha. lra. }
  unfold py_div at 1.
  assert (E5 : Qeq_bool (amount_usd / level_price) 0 = false).
  { destruct (Qeq_bool (amount_usd / level_price) 0) eqn:E; [|reflexivity].
    apply Qeq_bool_eq in E. contradiction. }
  rewrite E5. cbn [exc_bind].
  assert (E6 : Qeq_bool price 0 = false).
  { destruct (Qeq_bool price 0) eqn:E; [|reflexivity].
    apply Qeq_bool_eq in E. contradiction. }
  set (average_price :=
         (0 + level_price * ((amount_usd - 0) / level_price))
           / (amount_usd / level_price)).
  assert (Havg : average_price == level_price).
  { unfold average_price. field. split; [exact Hlevel|lra]. }
  unfold py_div. rewrite E6.
  destruct (String.eqb side "bids"); cbn [exc_bind];
    apply py_max_compat, py_min_compat.
  - setoid_replace ((price - average_price) / price * 100)
      with (- ((level_price - price) / price * 100)).
    + apply Qabs_opp.
    + rewrite Havg. field. exact Hprice.
  - setoid_replace ((average_price - price) / price * 100)
      with ((level_price - price) / price * 100).
    + reflexivity.
    + rewrite Havg. reflexivity.
Qed.

Lemma convert_levels_raises (levels : list pyval) (level : pyval)
    (e : py_exn) :
  In level levels ->
  convert_level float_of_str level = Raise e ->
  exists e', convert_levels float_of_str levels = Raise e'.
Proof.
  intros Hin Hraise.
  induction levels as [|l levels IH]; [contradiction|].
  cbn [convert_levels].
  destruct Hin as [->|Hin].
  - rewrite Hraise. eexists. reflexivity.
  - destruct (convert_level float_of_str l) as [r|e0]; cbn [exc_bind].
    + destruct (IH Hin) as [e' He']. rewrite He'. eexists. reflexivity.
    + eexists. reflexivity.
Qed.

(** X4.  One level of a recognised shape whose price or size cannot be
    converted to a number spoils the whole side: the analyzer returns
    the default 0.1 and the other levels are not looked at. *)
Theorem analyze_orderbook_unconvertible_level (d : list (string * pyval))
    (side : string) (levels : list pyval) (level : pyval) (e : py_exn)
    (amount_usd price : Q) :
  dict_get d side = Some (PList levels) ->
  In level levels ->
  convert_level float_of_str level = Raise e ->
  _analyze_orderbook float_of_str (PDict d) side amount_usd price = 0.1.
Proof.
  intros Hside Hin Hraise.
  unfold _analyze_orderbook, analyze_body.
  rewrite (dict_get_some_truthy _ _ _ Hside). cbn [negb orderbook_side].
  rewrite Hside. cbn [exc_bind].
  destruct (negb (py_truthy (PList levels))); [reflexivity|].
  unfold analyze_levels.
  destruct (convert_levels_raises levels level e Hin Hraise) as [e' He'].
  rewrite He'. reflexivity.
Qed.

End SlippageBooks.


(** The theorem at two asks of ten units each, the better one at 100, an
    amount of 50 and a mid price of 99.9. *)
Lemma analyze_orderbook_best_level_witness :
  _analyze_orderbook Helpers.float_of_str
    (PDict [("asks", PList (map numeric_level [(101, 10); (100, 10)]))])
    "asks" 50 99.9
  == py_max 0.01 (py_min 0.5 (Qabs ((100 - 99.9) / 99.9 * 100))).
Proof.
  apply (analyze_orderbook_best_level Helpers.float_of_str
           [("asks", PList (map numeric_level [(101, 10); (100, 10)]))]
           "asks" [(101, 10); (100, 10)] [(101, 10)] 100 10 50 99.9).
  - reflexivity.
  - reflexivity.
  - reflexivity.
  - vm_compute. discriminate.
  - vm_compute. discriminate.
Defined.

(** The theorem at a side with a good level and a level whose price is
    the text "abc". *)
Lemma analyze_orderbook_unconvertible_level_witness :
  _analyze_orderbook Helpers.float_of_str
    (PDict [("asks",
             PList [PList [PNum 100; PNum 1];
                    PDict [("px", PStr "abc"); ("sz", PNum 1)]])])
    "asks" 50 99.9
  = 0.1.
Proof.
  apply (analyze_orderbook_unconvertible_level Helpers.float_of_str
           [("asks",
             PList [PList [PNum 100; PNum 1];
                    PDict [("px", PStr "abc"); ("sz", PNum 1)]])]
           "asks"
           [PList [PNum 100; PNum 1];
            PDict [("px", PStr "abc"); ("sz", PNum 1)]]
           (PDict [("px", PStr "abc"); ("sz", PNum 1)]) ValueError 50 99.9).
  - reflexivity.
  - right. left. reflexivity.
  - reflexivity.
Defined.

Section SlippageDepth.

Variable float_of_str : string -> option Q.

Lemma level_before_total (reverse : bool) (x y : Q * Q) :
  level_before reverse x y = false -> level_before reverse y x = true.
Proof.
  unfold level_before. destruct reverse; intro H;
    apply Qle_bool_false in H; apply Qle_bool_iff; lra.
Qed.

Lemma insert_level_sorted (reverse : bool) (x : Q * Q) (l : list (Q * Q)) :
  price_sorted reverse l = true ->
  price_sorted reverse (insert_level reverse x l) = true.
Proof.
  induction l as [|y l IH]; intro Hl; [reflexivity|].
  cbn [insert_level]. fold (level_before reverse x y).
  destruct (level_before reverse x y) eqn:E.
  - cbn [price_sorted]. rewrite E. exact Hl.
  - apply level_before_total in E.
    destruct l as [|z l].
    + cbn [insert_level price_sorted]. rewrite E. reflexivity.
    + cbn [price_sorted] in Hl. apply andb_true_iff in Hl as [Hyz Hl].
      specialize (IH Hl). cbn [insert_level] in *.
      fold (level_before reverse x z) in *.
      destruct (level_before reverse x z).
      * cbn [price_sorted] in *. rewrite E. exact IH.
      * cbn [price_sorted] in *. rewrite Hyz. exact IH.
Qed.

Lemma sorted_by_price_sorted (reverse : bool) (l : list (Q * Q)) :
  price_sorted reverse (sorted_by_price reverse l) = true.
Proof.
  induction l as [|x l IH]; [reflexivity|].
  apply insert_level_sorted, IH.
Qed.

Lemma price_sorted_tail (reverse : bool) (x : Q * Q) (l : list (Q * Q)) :
  price_sorted reverse (x :: l) = true -> price_sorted reverse l = true.
Proof.
  destruct l as [|y l]; [reflexivity|].
  cbn [price_sorted]. intro H. apply andb_true_iff in H as [_ H]. exact H.
Qed.

Lemma sorted_by_price_of_sorted (reverse : bool) (l : list (Q * Q)) :
  price_sorted reverse l = true -> sorted_by_price reverse l = l.
Proof.
  induction l as [|x l IH]; intro Hl; [reflexivity|].
  cbn [sorted_by_price fold_right]. fold (sorted_by_price reverse l).
  rewrite (IH (price_sorted_tail _ _ _ Hl)).
  destruct l as [|y l]; [reflexivity|].
  cbn [price_sorted] in Hl. apply andb_true_iff in Hl as [Hxy _].
  cbn [insert_level]. fold (level_before reverse x y). rewrite Hxy.
  reflexivity.
Qed.

Lemma price_sorted_firstn (reverse : bool) (n : nat) :
  forall l, price_sorted reverse l = true ->
            price_sorted reverse (firstn n l) = true.
Proof.
  induction n as [|n IH]; intros l Hl; [reflexivity|].
  destruct l as [|x l]; [reflexivity|].
  cbn [firstn].
  specialize (IH l (price_sorted_tail _ _ _ Hl)).
  destruct l as [|y l]; [destruct n; reflexivity|].
  destruct n as [|n]; [reflexivity|].
  cbn [firstn price_sorted] in *.
  apply andb_true_iff in Hl as [Hxy _]. rewrite Hxy. exact IH.
Qed.

Lemma walk_levels_firstn (amount_usd : Q) (book_side : list (Q * Q)) :
  forall filled weighted levels_checked last_price,
    (levels_checked < 10)%nat ->
    walk_levels (firstn (10 - levels_checked) book_side) amount_usd filled
      weighted levels_checked last_price
    = walk_levels book_side amount_usd filled weighted levels_checked
        last_price.
Proof.
  induction book_side as [|[p s] rest IH];
    intros filled weighted levels_checked last_price Hlt.
  - rewrite firstn_nil. reflexivity.
  - destruct (10 - levels_checked)%nat as [|k] eqn:Ek; [lia|].
    cbn [firstn walk_levels].
    destruct (Qle_bool amount_usd (filled + p * s)); [reflexivity|].
    cbv zeta.
    destruct (10 <=? S levels_checked)%nat eqn:Eten; [reflexivity|].
    apply Nat.leb_gt in Eten.
    replace k with (10 - S levels_checked)%nat by lia.
    apply IH. lia.
Qed.

Lemma insert_level_nonempty (reverse : bool) (x : Q * Q) (l : list (Q * Q)) :
  insert_level reverse x l <> [].
Proof.
  destruct l as [|y l]; cbn [insert_level]; [discriminate|].
  destruct (if reverse then _ else _); discriminate.
Qed.

(** X5.  Only the ten best levels of a side count: a book side of
    numeric levels is given the same estimate as the side made of its
    first ten levels in sorted order. *)
Theorem analyze_orderbook_ten_levels (side : string) (book : list (Q * Q))
    (amount_usd price : Q) :
  _analyze_orderbook float_of_str
    (PDict [(side, PList (map numeric_level book))]) side amount_usd price
  = _analyze_orderbook float_of_str
      (PDict [(side,
               PList (map numeric_level
                        (firstn 10
                           (sorted_by_price (String.eqb side "bids")
                              book))))])
      side amount_usd price.
Proof.
  unfold _analyze_orderbook, analyze_body.
  cbn [py_truthy negb orderbook_side dict_get].
  rewrite String.eqb_refl. cbn [exc_bind].
  destruct book as [|pl book]; [reflexivity|].
  set (reverse := String.eqb side "bids").
  set (sorted := sorted_by_price reverse (pl :: book)).
  assert (Hsorted : sorted <> []) by apply insert_level_nonempty.
  assert (Hten : firstn 10 sorted <> []).
  { destruct sorted; [congruence|discriminate]. }
  rewrite (numeric_book_truthy (pl :: book)) by discriminate.
  rewrite (numeric_book_truthy _ Hten).
  cbn [negb]. unfold analyze_levels.
  rewrite !convert_numeric_levels. cbn [exc_bind].
  fold reverse. fold sorted.
  destruct (firstn 10 sorted) as [|pl' ten] eqn:Efirst; [congruence|].
  rewrite <- Efirst.
  rewrite (sorted_by_price_of_sorted reverse (firstn 10 sorted)).
  - fold sorted.
    rewrite <- (walk_levels_firstn amount_usd sorted 0 0 0%nat 0) by lia.
    reflexivity.
  - apply price_sorted_firstn, sorted_by_price_sorted.
Qed.

End SlippageDepth.

(** ** The sign file: round trip *)

Lemma chars_app (a b : string) :
  list_ascii_of_string (a ++ b)
  = (list_ascii_of_string a ++ list_ascii_of_string b)%list.
Proof.
  induction a as [|c a IH]; cbn [append list_ascii_of_string app];
    [reflexivity|].
  rewrite IH. reflexivity.
Qed.

Lemma string_length_app (a b : string) :
  String.length (a ++ b) = (String.length a + String.length b)%nat.
Proof.
  induction a as [|c a IH]; cbn [append String.length]; [reflexivity|].
  rewrite IH. reflexivity.
Qed.

Lemma parse_string_body_escape (k : string) :
  forall (rest : list ascii) (acc : string),
    Json.parse_string_body
      (list_ascii_of_string (Json.escape k) ++ Json.quote :: rest) acc
    = Some ((acc ++ k)%string, rest).
Proof.
  induction k as [|c k IH]; intros rest acc.
  - cbn [Json.escape list_ascii_of_string app Json.parse_string_body].
    rewrite Ascii.eqb_refl, string_append_empty. reflexivity.
  - cbn [Json.escape].
    destruct (Ascii.eqb c Json.quote) eqn:Eq.
    + apply Ascii.eqb_eq in Eq. subst c.
      cbn [list_ascii_of_string app Json.parse_string_body].
      change (Ascii.eqb Json.backslash Json.quote) with false.
      rewrite !Ascii.eqb_refl. cbn [orb].
      rewrite IH, string_append_assoc. reflexivity.
    + destruct (Ascii.eqb c Json.backslash) eqn:Eb.
      * apply Ascii.eqb_eq in Eb. subst c.
        cbn [list_ascii_of_string app Json.parse_string_body].
        change (Ascii.eqb Json.backslash Json.quote) with false.
        rewrite !Ascii.eqb_refl. rewrite orb_true_r.
        rewrite IH, string_append_assoc. reflexivity.
      * cbn [list_ascii_of_string app Json.parse_string_body].
        rewrite Eq, Eb, IH, string_append_assoc. reflexivity.
Qed.

(** Text that does not go on with a digit. *)
Lemma take_digits_uint (u : Decimal.uint) (rest : list ascii) :
  match rest with c :: _ => Json.is_digit c = false | [] => True end ->
  Json.take_digits
    (list_ascii_of_string (NilEmpty.string_of_uint u) ++ rest)
  = (NilEmpty.string_of_uint u, rest).
Proof.
  intro Hrest.
  induction u as [|u IH|u IH|u IH|u IH|u IH|u IH|u IH|u IH|u IH|u IH];
    cbn [NilEmpty.string_of_uint list_ascii_of_string app Json.take_digits];
    try (change (Json.is_digit _) with true; cbv iota; rewrite IH;
         reflexivity).
  destruct rest as [|c rest]; [reflexivity|].
  cbn [Json.take_digits]. rewrite Hrest. reflexivity.
Qed.

Lemma parse_int_uint (u : Decimal.uint) (rest : list ascii) :
  u <> Decimal.Nil ->
  match rest with c :: _ => Json.is_digit c = false | [] => True end ->
  Json.parse_int (list_ascii_of_string (NilEmpty.string_of_uint u) ++ rest)
  = Some (Z.of_int (Decimal.Pos u), rest).
Proof.
  intros Hu Hrest.
  assert (Hparse : NilZero.int_of_string (NilEmpty.string_of_uint u)
                   = Some (Decimal.Pos u)).
  { pose proof (NilZero.isi (Decimal.Pos u)) as H.
    cbn [NilZero.string_of_int] in H.
    replace (NilZero.string_of_uint u) with (NilEmpty.string_of_uint u) in H
      by (destruct u; [congruence|reflexivity..]).
    apply H; [|discriminate]. intro E. injection E as E. contradiction. }
  unfold Json.parse_int.
  pose proof (take_digits_uint u rest Hrest) as Htake.
  destruct u; [congruence| ..];
    cbn [NilEmpty.string_of_uint list_ascii_of_string app] in *;
    (match goal with
     | |- context [Ascii.eqb ?c "-"%char] =>
         change (Ascii.eqb c "-"%char) with false
     end);
    cbv iota; rewrite Htake; cbv iota beta; rewrite Hparse; reflexivity.
Qed.

Lemma parse_int_dumps (z : Z) (rest : list ascii) :
  match rest with c :: _ => Json.is_digit c = false | [] => True end ->
  Json.parse_int (list_ascii_of_string (Json.dumps_int z) ++ rest)
  = Some (z, rest).
Proof.
  intro Hrest. unfold Json.dumps_int.
  destruct z as [|p|p]; cbn [Z.to_int NilZero.string_of_int].
  - change (NilZero.string_of_uint Decimal.zero)
      with (NilEmpty.string_of_uint (Decimal.D0 Decimal.Nil)).
    rewrite parse_int_uint; [reflexivity|discriminate|exact Hrest].
  - replace (NilZero.string_of_uint (Pos.to_uint p))
      with (NilEmpty.string_of_uint (Pos.to_uint p)).
    + rewrite parse_int_uint;
        [|apply Unsigned.to_uint_nonnil|exact Hrest].
      f_equal. f_equal. apply (of_to (Z.pos p)).
    + pose proof (Unsigned.to_uint_nonnil p) as Hp.
      destruct (Pos.to_uint p); [congruence|reflexivity..].
  - replace (NilZero.string_of_uint (Pos.to_uint p))
      with (NilEmpty.string_of_uint (Pos.to_uint p)).
    + pose proof (parse_int_uint (Pos.to_uint p) rest
                    (Unsigned.to_uint_nonnil p) Hrest) as H.
      unfold Json.parse_int in *.
      cbn [list_ascii_of_string app].
      change (Ascii.eqb "-"%char "-"%char) with true. cbv iota.
      pose proof (take_digits_uint (Pos.to_uint p) rest Hrest) as Htake.
      rewrite Htake. cbv iota beta.
      pose proof (NilZero.isi (Decimal.Pos (Pos.to_uint p))) as Hisi.
      cbn [NilZero.string_of_int] in Hisi.
      replace (NilZero.string_of_uint (Pos.to_uint p))
        with (NilEmpty.string_of_uint (Pos.to_uint p)) in Hisi.
      * rewrite Hisi.
        -- f_equal. f_equal.
           pose proof (of_to (Z.pos p)) as Hof. cbn [Z.to_int] in Hof.
           rewrite Hof. reflexivity.
        -- intro E. injection E as E.
           exact (Unsigned.to_uint_nonnil p E).
        -- discriminate.
      * pose proof (Unsigned.to_uint_nonnil p) as Hp.
        destruct (Pos.to_uint p); [congruence|reflexivity..].
    + pose proof (Unsigned.to_uint_nonnil p) as Hp.
      destruct (Pos.to_uint p); [congruence|reflexivity..].
Qed.

Lemma members_text_true (k : string) (v : Z) (d : pydict Z) :
  members_text true ((k, v) :: d)
  = (Json.dumps_key k ++ ": " ++ Json.dumps_int v
       ++ members_text false d)%string.
Proof. reflexivity. Qed.

Lemma members_text_false (x : string * Z) (d : pydict Z) :
  members_text false (x :: d) = (", " ++ members_text true (x :: d))%string.
Proof. destruct x as [k v]. reflexivity. Qed.

Lemma dict_set_fresh {V : Type} (d : pydict V) (k : string) (v : V) :
  ~ In k (dict_keys d) -> dict_set d k v = (d ++ [(k, v)])%list.
Proof.
  induction d as [|[k' v'] d IH]; intro Hk; [reflexivity|].
  cbn [dict_set app].
  destruct (String.eqb k' k) eqn:E.
  - apply String.eqb_eq in E. exfalso. apply Hk. left. exact E.
  - rewrite IH; [reflexivity|]. intro Hin. apply Hk. right. exact Hin.
Qed.

Lemma chars_dumps_key (k : string) (rest : list ascii) :
  (list_ascii_of_string (Json.dumps_key k) ++ rest)%list
  = Json.quote
      :: (list_ascii_of_string (Json.escape k) ++ Json.quote :: rest)%list.
Proof.
  unfold Json.dumps_key. cbn [list_ascii_of_string app].
  rewrite chars_app. cbn [list_ascii_of_string].
  rewrite <- app_assoc. reflexivity.
Qed.

Lemma dumps_int_head (z : Z) (rest : list ascii) :
  Json.skip_ws (list_ascii_of_string (Json.dumps_int z) ++ rest)
  = (list_ascii_of_string (Json.dumps_int z) ++ rest)%list.
Proof.
  unfold Json.dumps_int.
  destruct z as [|p|p]; cbn [Z.to_int NilZero.string_of_int];
    [reflexivity| |reflexivity].
  pose proof (Unsigned.to_uint_nonnil p) as Hp.
  destruct (Pos.to_uint p); [congruence|reflexivity..].
Qed.

Lemma members_text_false_head (d : pydict Z) :
  match (list_ascii_of_string (members_text false d) ++ ["}"%char])%list with
  | c :: _ => Json.is_digit c = false
  | [] => True
  end.
Proof. destruct d as [|[k v] d]; reflexivity. Qed.

Lemma parse_members_space (fuel : nat) (cs : list ascii) (acc : pydict Z) :
  Json.parse_members fuel (" "%char :: cs) acc
  = Json.parse_members fuel cs acc.
Proof. destruct fuel; reflexivity. Qed.

Lemma parse_members_text (d : pydict Z) :
  forall (acc : pydict Z) (fuel : nat),
    d <> [] ->
    (length d <= fuel)%nat ->
    NoDup (dict_keys (acc ++ d)%list) ->
    Json.parse_members fuel
      (list_ascii_of_string (members_text true d) ++ ["}"%char]) acc
    = Some (acc ++ d)%list.
Proof.
  induction d as [|[k v] d IH]; intros acc fuel Hd Hfuel Hkeys;
    [congruence|].
  destruct fuel as [|fuel]; [cbn [length] in Hfuel; lia|].
  assert (Hfresh : ~ In k (dict_keys acc)).
  { unfold dict_keys in *. rewrite map_app in Hkeys. cbn [map fst] in Hkeys.
    apply NoDup_remove_2 in Hkeys. intro Hin. apply Hkeys.
    apply in_or_app. left. exact Hin. }
  rewrite members_text_true.
  rewrite !chars_app, <- !app_assoc, chars_dumps_key.
  cbn [Json.parse_members Json.skip_ws].
  change (Json.is_ws Json.quote) with false. cbv iota.
  cbn [Json.parse_string]. rewrite Ascii.eqb_refl.
  rewrite parse_string_body_escape. cbn [append].
  cbn [list_ascii_of_string app Json.skip_ws].
  change (Json.is_ws ":"%char) with false. cbv iota.
  change (Ascii.eqb ":"%char ":"%char) with true. cbv iota.
  cbn [Json.skip_ws].
  change (Json.is_ws " "%char) with true. cbv iota.
  rewrite dumps_int_head.
  rewrite (parse_int_dumps v _ (members_text_false_head d)).
  rewrite (dict_set_fresh acc k v Hfresh).
  destruct d as [|x d].
  - reflexivity.
  - rewrite members_text_false.
    cbn [append list_ascii_of_string app Json.skip_ws].
    change (Json.is_ws ","%char) with false. cbv iota.
    change (Ascii.eqb ","%char ","%char) with true. cbv iota.
    rewrite parse_members_space.
    rewrite IH.
    + rewrite <- app_assoc. reflexivity.
    + discriminate.
    + cbn [length] in *. lia.
    + rewrite <- app_assoc. exact Hkeys.
Qed.

Lemma members_text_length (first : bool) (d : pydict Z) :
  (length d <= String.length (members_text first d))%nat.
Proof.
  revert first. induction d as [|[k v] d IH]; intro first; [apply Nat.le_0_l|].
  specialize (IH false).
  destruct first.
  - rewrite members_text_true. unfold Json.dumps_key.
    cbn [append String.length length].
    rewrite !string_length_app. cbn [String.length].
    rewrite !string_length_app. lia.
  - rewrite members_text_false, members_text_true. unfold Json.dumps_key.
    cbn [append String.length length].
    rewrite !string_length_app. cbn [String.length].
    rewrite !string_length_app. lia.
Qed.

Lemma concat_chunks_app (l1 l2 : list string) :
  fold_right String.append EmptyString (l1 ++ l2)
  = (fold_right String.append EmptyString l1
       ++ fold_right String.append EmptyString l2)%string.
Proof.
  induction l1 as [|c l1 IH]; cbn [app fold_right append]; [reflexivity|].
  rewrite IH, string_append_assoc. reflexivity.
Qed.

Lemma dumps_nonempty (x : string * Z) (d : pydict Z) :
  Json.dumps (x :: d)
  = String "{"%char (members_text true (x :: d) ++ "}")%string.
Proof.
  unfold Json.dumps, Json.dump_chunks, members_text.
  rewrite !concat_chunks_app. reflexivity.
Qed.

Lemma loads_dumps (d : pydict Z) :
  NoDup (dict_keys d) -> Json.loads (Json.dumps d) = Some d.
Proof.
  intro Hkeys. destruct d as [|[k v] d]; [reflexivity|].
  unfold Json.loads. rewrite dumps_nonempty.
  cbn [list_ascii_of_string Json.skip_ws].
  change (Json.is_ws "{"%char) with false. cbv iota.
  change (Ascii.eqb "{"%char "{"%char) with true. cbv iota.
  rewrite chars_app. cbn [list_ascii_of_string].
  remember (list_ascii_of_string (members_text true ((k, v) :: d))
              ++ ["}"%char])%list as cs eqn:Ecs.
  assert (Hhead : exists tail, cs = Json.quote :: tail).
  { subst cs. rewrite members_text_true, chars_app, <- app_assoc,
      chars_dumps_key. eexists. reflexivity. }
  destruct Hhead as [tail Htail]. rewrite Htail.
  cbn [Json.skip_ws]. change (Json.is_ws Json.quote) with false. cbv iota.
  change (Ascii.eqb Json.quote "}"%char) with false. cbv iota.
  rewrite <- Htail, Ecs.
  apply (parse_members_text ((k, v) :: d) []).
  - discriminate.
  - cbn [String.length]. rewrite string_length_app.
    pose proof (members_text_length true ((k, v) :: d)). lia.
  - exact Hkeys.
Qed.

(** X6.  What [_save_funding_diff_signs] wrote,
    [_load_funding_diff_signs] reads back: after a persist, a load of
    the file system returns the sign store, entry by entry and in the
    same order. The keys of the store are distinct, as those of a dict
    are; the JSON text is the one of [Json], for symbols in printable
    ASCII. *)
Theorem save_load_round_trip (e : engine) :
  NoDup (dict_keys (funding_diff_signs e)) ->
  _load_funding_diff_signs (files (_save_funding_diff_signs e))
  = funding_diff_signs e.
Proof.
  intro Hkeys.
  unfold _load_funding_diff_signs, _save_funding_diff_signs, set_files.
  cbn [files]. rewrite save_ops_result, (loads_dumps _ Hkeys). reflexivity.
Qed.

(** The theorem at a store of two symbols. *)
Lemma save_load_round_trip_witness :
  _load_funding_diff_signs
    (files (_save_funding_diff_signs
              (mkEngine [("BTC", 1%Z); ("ETH", (-1)%Z)] None [] [])))
  = [("BTC", 1%Z); ("ETH", (-1)%Z)].
Proof.
  apply (save_load_round_trip
           (mkEngine [("BTC", 1%Z); ("ETH", (-1)%Z)] None [] [])).
  cbn [funding_diff_signs dict_keys map fst].
  repeat constructor; cbn [In]; intuition discriminate.
Defined.

(** X7.  A restart after a persist brings the funding signs back and
    nothing else: the new engine has the stored funding signs, it is in
    step with the file, and it has no price signs, whatever the old
    engine had recorded. *)
Theorem restart_keeps_funding_signs_only (e : engine)
    (md : pydict snapshot) :
  NoDup (dict_keys (funding_diff_signs e)) ->
  funding_diff_signs (restart md (files (_save_funding_diff_signs e)))
  = funding_diff_signs e
  /\ store_synced (restart md (files (_save_funding_diff_signs e)))
  /\ price_diff_signs (restart md (files (_save_funding_diff_signs e)))
     = None.
Proof.
  intro Hkeys. unfold restart, store_synced.
  cbn [funding_diff_signs files price_diff_signs].
  assert (Hload : _load_funding_diff_signs
                    (files (_save_funding_diff_signs e))
                  = funding_diff_signs e).
  { unfold _load_funding_diff_signs, _save_funding_diff_signs, set_files.
    cbn [files]. rewrite save_ops_result, (loads_dumps _ Hkeys).
    reflexivity. }
  rewrite Hload. repeat split.
  unfold _save_funding_diff_signs, set_files. cbn [files].
  apply save_ops_result.
Qed.

(** The theorem at an engine that had recorded price signs too. *)
Lemma restart_keeps_funding_signs_only_witness :
  funding_diff_signs
    (restart [] (files (_save_funding_diff_signs Sim.paired_engine)))
  = [("BTC", 1%Z)]
  /\ store_synced
       (restart [] (files (_save_funding_diff_signs Sim.paired_engine)))
  /\ price_diff_signs
       (restart [] (files (_save_funding_diff_signs Sim.paired_engine)))
     = None.
Proof.
  apply (restart_keeps_funding_signs_only Sim.paired_engine []).
  cbn [funding_diff_signs Sim.paired_engine dict_keys map fst].
  repeat constructor; cbn [In]; intuition discriminate.
Defined.

(** ** Paired execution: what an open leaves behind *)

Lemma dict_get_set_other {V : Type} (d : pydict V) (k k' : string) (v : V) :
  k' <> k -> dict_get (dict_set d k v) k' = dict_get d k'.
Proof.
  intro Hne. induction d as [|[k0 v0] d IH]; cbn [dict_set dict_get].
  - destruct (String.eqb k k') eqn:E; [|reflexivity].
    apply String.eqb_eq in E. congruence.
  - destruct (String.eqb k0 k) eqn:E; cbn [dict_get].
    + apply String.eqb_eq in E. subst k0.
      destruct (String.eqb k k') eqn:E'; [|reflexivity].
      apply String.eqb_eq in E'. congruence.
    + destruct (String.eqb k0 k'); [reflexivity|exact IH].
Qed.

Section OpenFrame.

Variable get_backpack_symbol get_hyperliquid_symbol : string -> string.
Variable calculate_funding_diff : Q -> Q -> Q * Z.
Variable cfg : config.
Variable W : Type.
Variable backpack_api hyperliquid_api : venue_api W.

Ltac open_step :=
  match goal with
  | |- context [match ?x with _ => _ end] =>
      match x with
      | context [match _ with _ => _ end] => fail 1
      | _ => destruct x eqn:?
      end
  end.

(** Whatever the venues answer, the engine an open leaves behind is the
    old one, or the old one with the funding sign recorded, or that with
    the price sign recorded too. *)
Lemma open_position_engine (symbol : string)
    (funding_diff bp_funding hl_funding : Q) (available_size : option Q)
    (m : machine W) :
  let e' := eng (snd (_open_position get_backpack_symbol
                        get_hyperliquid_symbol calculate_funding_diff cfg W
                        backpack_api hyperliquid_api symbol funding_diff
                        bp_funding hl_funding available_size m)) in
  let recorded :=
    record_funding_sign symbol
      (snd (calculate_funding_diff bp_funding hl_funding)) (eng m) in
  e' = eng m \/ e' = recorded
  \/ exists price_sign, e' = record_price_sign symbol price_sign recorded.
Proof.
  unfold _open_position, try_except, bind, get_engine, lift_exc,
    modify_engine, call_place_order, call_positions, call, attempt, api,
    ret, need, number, py_div.
  cbn [eng world calls].
  destruct (calculate_funding_diff bp_funding hl_funding) as [d s].
  cbn [snd].
  repeat (open_step; cbn [eng world calls fst snd]);
    first [ left; reflexivity
          | right; left; reflexivity
          | right; right; eexists; reflexivity ].
Qed.

End OpenFrame.

(** ** The evaluator: gates and edges *)

Section EvaluatorEdges.

Variable get_backpack_symbol : string -> string.
Variable cfg : config.

(** X8.  An open candidate is emitted only for a symbol that passed
    every gate (no position on either venue, slippage within the limit
    or the limit switched off, fewer held symbols than the global cap, a
    trading-pair entry with a positive cap) and only under one of the
    four known condition types. *)
Theorem open_emitted_only_through_gates (e : engine) (symbol : string)
    (bp_price hl_price bp_funding adjusted_hl_funding
     price_diff_percent funding_diff : Q)
    (bp_positions hl_positions : pydict position) :
  fst (fst (_check_open_conditions_without_execution
              get_backpack_symbol cfg e symbol bp_price hl_price
              bp_funding adjusted_hl_funding price_diff_percent
              funding_diff bp_positions hl_positions)) = true ->
  open_gates_pass get_backpack_symbol cfg e symbol bp_positions
    hl_positions = true
  /\ In (get_or (open_condition_type (config_open_conditions cfg))
           "funding_only")
        ["any"; "all"; "funding_only"; "price_only"].
Proof.
  unfold _check_open_conditions_without_execution, open_gates_pass.
  destruct (has_position _ _ _ _); [discriminate|].
  destruct (_ || _); [|discriminate].
  destruct (_ <=? _)%Z; [discriminate|].
  destruct (find_trading_pair cfg symbol) as [tp|]; [|discriminate].
  destruct (Qle_bool _ 0); [discriminate|].
  cbn [negb andb].
  set (ct := get_or (open_condition_type (config_open_conditions cfg))
               "funding_only").
  destruct (String.eqb ct "any") eqn:E1;
    [apply String.eqb_eq in E1; rewrite E1; intros _; split;
     [reflexivity|cbn [In]; tauto]|].
  destruct (String.eqb ct "all") eqn:E2;
    [apply String.eqb_eq in E2; rewrite E2; intros _; split;
     [reflexivity|cbn [In]; tauto]|].
  destruct (String.eqb ct "funding_only") eqn:E3;
    [apply String.eqb_eq in E3; rewrite E3; intros _; split;
     [reflexivity|cbn [In]; tauto]|].
  destruct (String.eqb ct "price_only") eqn:E4;
    [apply String.eqb_eq in E4; rewrite E4; intros _; split;
     [reflexivity|cbn [In]; tauto]|].
  discriminate.
Qed.

(** X9.  A symbol whose entry holds no slippage figure is treated as
    having a total slippage of 0.5: unless high slippage is ignored, it
    is never opened under a limit below 0.5, the default limit 0.15
    included. *)
Theorem open_blocked_without_slippage_figure (e : engine) (symbol : string)
    (bp_price hl_price bp_funding adjusted_hl_funding
     price_diff_percent funding_diff : Q)
    (bp_positions hl_positions : pydict position) :
  match dict_get (get_all_data e) symbol with
  | Some data => sn_total_slippage data = None
  | None => True
  end ->
  get_or (open_ignore_high_slippage (config_open_conditions cfg)) false
    = false ->
  get_or (open_max_slippage_percent (config_open_conditions cfg)) 0.15
    < 0.5 ->
  fst (fst (_check_open_conditions_without_execution
              get_backpack_symbol cfg e symbol bp_price hl_price
              bp_funding adjusted_hl_funding price_diff_percent
              funding_diff bp_positions hl_positions)) = false.
Proof.
  intros Hdata Hignore Hlimit.
  unfold _check_open_conditions_without_execution.
  destruct (has_position _ _ _ _); [reflexivity|].
  rewrite Hignore. cbn [orb].
  assert (Hstored : stored_total_slippage e symbol = 0.5).
  { unfold stored_total_slippage.
    destruct (dict_get (get_all_data e) symbol) as [data|]; [|reflexivity].
    rewrite Hdata. reflexivity. }
  rewrite Hstored.
  apply Qle_bool_false in Hlimit. rewrite Hlimit. reflexivity.
Qed.

End EvaluatorEdges.

Section CloseCheck.

Variable get_backpack_symbol : string -> string.
Variable cfg : config.

Lemma check_close_engine (e : engine) (symbol : string)
    (bp_position hl_position : position)
    (bp_price hl_price bp_funding adjusted_hl_funding
     price_diff_percent funding_diff : Q) (funding_diff_sign : Z) :
  let e' :=
    snd (_check_close_conditions_without_execution get_backpack_symbol cfg
           e symbol bp_position hl_position bp_price hl_price bp_funding
           adjusted_hl_funding price_diff_percent funding_diff
           funding_diff_sign) in
  funding_diff_signs e' = funding_diff_signs e
  /\ files e' = files e
  /\ market_data e' = market_data e
  /\ (forall other : string,
        other <> symbol ->
        dict_get (get_or (price_diff_signs e') []) other
        = dict_get (get_or (price_diff_signs e) []) other)
  /\ (forall s : Z,
        dict_get (get_or (price_diff_signs e) []) symbol = Some s ->
        dict_get (get_or (price_diff_signs e') []) symbol = Some s).
Proof.
  unfold _check_close_conditions_without_execution.
  cbv zeta.
  destruct (dict_get (get_or (price_diff_signs e) []) symbol)
    as [s0|] eqn:Eprice.
  - destruct (negb _);
      repeat match goal with
             | |- context [match ?c with (_, _) => _ end] => destruct c
             end;
      cbn [snd set_price_diff_signs funding_diff_signs files market_data
             price_diff_signs get_or];
      repeat split; auto; intros; congruence.
  - destruct (dict_mem (funding_diff_signs e) symbol);
      destruct (negb _);
      repeat match goal with
             | |- context [match ?c with (_, _) => _ end] => destruct c
             end;
      cbn [snd set_price_diff_signs funding_diff_signs files market_data
             price_diff_signs get_or];
      repeat split; auto; try discriminate;
      intros other Hother; apply dict_get_set_other; exact Hother.
Qed.

(** X10.  The close evaluation changes nothing of the engine but the
    price signs: the funding signs, the files and the market data are
    what they were, the price signs of other symbols are what they were,
    and a price sign already recorded for the symbol is kept. *)
Theorem close_check_frame (e : engine) (symbol : string)
    (bp_position hl_position : position)
    (bp_price hl_price bp_funding adjusted_hl_funding
     price_diff_percent funding_diff : Q) (funding_diff_sign : Z) :
  let e' :=
    snd (_check_close_conditions_without_execution get_backpack_symbol cfg
           e symbol bp_position hl_position bp_price hl_price bp_funding
           adjusted_hl_funding price_diff_percent funding_diff
           funding_diff_sign) in
  funding_diff_signs e' = funding_diff_signs e
  /\ files e' = files e
  /\ market_data e' = market_data e
  /\ (forall other : string,
        other <> symbol ->
        dict_get (get_or (price_diff_signs e') []) other
        = dict_get (get_or (price_diff_signs e) []) other)
  /\ (forall s : Z,
        dict_get (get_or (price_diff_signs e) []) symbol = Some s ->
        dict_get (get_or (price_diff_signs e') []) symbol = Some s).
Proof.
  exact (check_close_engine e symbol bp_position hl_position bp_price
           hl_price bp_funding adjusted_hl_funding price_diff_percent
           funding_diff funding_diff_sign).
Qed.

Lemma check_close_first_observation (e : engine) (symbol : string)
    (bp_position hl_position : position)
    (bp_price hl_price bp_funding adjusted_hl_funding
     price_diff_percent funding_diff : Q) (funding_diff_sign : Z) :
  dict_mem (funding_diff_signs e) symbol = true ->
  dict_get (get_or (price_diff_signs e) []) symbol = None ->
  let r :=
    _check_close_conditions_without_execution get_backpack_symbol cfg
      e symbol bp_position hl_position bp_price hl_price bp_funding
      adjusted_hl_funding price_diff_percent funding_diff
      funding_diff_sign in
  dict_get (get_or (price_diff_signs (snd r)) []) symbol
    = Some (sign_of price_diff_percent)
  /\ (close_price_diff_sign_change (config_close_conditions cfg)
        = Some true ->
      close_condition_type (config_close_conditions cfg)
        = Some "price_only" ->
      forall should_close reason position,
        fst r = Ok (should_close, reason, position) ->
        should_close = false).
Proof.
  intros Hfunding Hprice r. subst r.
  unfold _check_close_conditions_without_execution.
  cbv zeta. rewrite Hprice, Hfunding. cbv beta iota.
  rewrite Z.eqb_refl. cbn [negb andb].
  split.
  - destruct (negb _);
      repeat match goal with
             | |- context [match ?c with (_, _) => _ end] => destruct c
             end;
      cbn [snd set_price_diff_signs price_diff_signs get_or];
      apply dict_get_set_same.
  - intros Hchange Htype. rewrite Hchange, Htype. cbn [get_or].
    change (String.eqb "price_only" "any") with false.
    change (String.eqb "price_only" "all") with false.
    change (String.eqb "price_only" "funding_only") with false.
    change (String.eqb "price_only" "price_only") with true.
    cbv iota.
    destruct (negb _); cbn [fst].
    + intros should_close reason position H. injection H as <- _ _.
      reflexivity.
    + intros should_close reason position.
      destruct (need "side" (pos_side bp_position)); cbn [exc_bind];
        [|discriminate].
      destruct (need "side" (pos_side hl_position)); cbn [exc_bind];
        [|discriminate].
      destruct (need "size" (pos_size bp_position)); cbn [exc_bind];
        [|discriminate].
      destruct (need "size" (pos_size hl_position)); cbn [exc_bind];
        [|discriminate].
      intro H. injection H as <- _ _. reflexivity.
Qed.

(** X11.  A held pair whose funding sign is stored but whose price sign
    is not (a position found after a restart) gets the current price
    sign recorded at its first evaluation, which therefore sees no
    reversal: where a price reversal is required
    ([price_diff_sign_change]) and the condition type is [price_only],
    that evaluation does not close. *)
Theorem close_check_first_observation (e : engine) (symbol : string)
    (bp_position hl_position : position)
    (bp_price hl_price bp_funding adjusted_hl_funding
     price_diff_percent funding_diff : Q) (funding_diff_sign : Z) :
  dict_mem (funding_diff_signs e) symbol = true ->
  dict_get (get_or (price_diff_signs e) []) symbol = None ->
  let r :=
    _check_close_conditions_without_execution get_backpack_symbol cfg
      e symbol bp_position hl_position bp_price hl_price bp_funding
      adjusted_hl_funding price_diff_percent funding_diff
      funding_diff_sign in
  dict_get (get_or (price_diff_signs (snd r)) []) symbol
    = Some (sign_of price_diff_percent)
  /\ (close_price_diff_sign_change (config_close_conditions cfg)
        = Some true ->
      close_condition_type (config_close_conditions cfg)
        = Some "price_only" ->
      does_not_close (fst r)).
Proof.
  intros Hfunding Hprice r.
  destruct (check_close_first_observation e symbol bp_position hl_position
              bp_price hl_price bp_funding adjusted_hl_funding
              price_diff_percent funding_diff funding_diff_sign Hfunding
              Hprice) as [Hsign Hclose].
  split; [exact Hsign|].
  intros Hchange Htype. unfold does_not_close.
  destruct (fst r) as [[[should_close reason] position]|ex] eqn:E;
    [|exact I].
  exact (Hclose Hchange Htype should_close reason position E).
Qed.

Lemma check_close_without_funding_sign (e : engine) (symbol : string)
    (bp_position hl_position : position)
    (bp_price hl_price bp_funding adjusted_hl_funding
     price_diff_percent funding_diff : Q) (funding_diff_sign : Z)
    (should_close : bool) (reason : close_reason)
    (position : option pair_position) :
  dict_get (funding_diff_signs e) symbol = None ->
  In (get_or (close_condition_type (config_close_conditions cfg)) "any")
     ["funding_only"; "all"] ->
  fst (_check_close_conditions_without_execution get_backpack_symbol cfg
         e symbol bp_position hl_position bp_price hl_price bp_funding
         adjusted_hl_funding price_diff_percent funding_diff
         funding_diff_sign)
  = Ok (should_close, reason, position) ->
  should_close = false.
Proof.
  intros Hsign Htype.
  unfold _check_close_conditions_without_execution.
  cbv zeta. rewrite Hsign. cbn [andb].
  match goal with
  | |- context [match ?c with (_, _) => _ end] => destruct c as [signs entry]
  end.
  destruct (negb _); cbn [fst].
  - intro H. injection H as <- _ _. reflexivity.
  - destruct Htype as [Ht|[Ht|[]]]; rewrite <- Ht;
      [ change (String.eqb "funding_only" "any") with false;
        change (String.eqb "funding_only" "all") with false;
        change (String.eqb "funding_only" "funding_only") with true
      | change (String.eqb "all" "any") with false;
        change (String.eqb "all" "all") with true ];
      cbv iota;
      (destruct (need "side" (pos_side bp_position)); cbn [exc_bind];
        [|discriminate]);
      (destruct (need "side" (pos_side hl_position)); cbn [exc_bind];
        [|discriminate]);
      (destruct (need "size" (pos_size bp_position)); cbn [exc_bind];
        [|discriminate]);
      (destruct (need "size" (pos_size hl_position)); cbn [exc_bind];
        [|discriminate]);
      intro H; injection H as <- _ _; reflexivity.
Qed.

(** X12.  Without a stored funding sign for the symbol no funding
    reversal is ever seen: under the condition types [funding_only] and
    [all] such a position is never closed. *)
Theorem close_needs_stored_funding_sign (e : engine) (symbol : string)
    (bp_position hl_position : position)
    (bp_price hl_price bp_funding adjusted_hl_funding
     price_diff_percent funding_diff : Q) (funding_diff_sign : Z) :
  dict_get (funding_diff_signs e) symbol = None ->
  In (get_or (close_condition_type (config_close_conditions cfg)) "any")
     ["funding_only"; "all"] ->
  does_not_close
    (fst (_check_close_conditions_without_execution get_backpack_symbol
            cfg e symbol bp_position hl_position bp_price hl_price
            bp_funding adjusted_hl_funding price_diff_percent funding_diff
            funding_diff_sign)).
Proof.
  intros Hsign Htype. unfold does_not_close.
  destruct (fst (_check_close_conditions_without_execution
                   get_backpack_symbol cfg e symbol bp_position
                   hl_position bp_price hl_price bp_funding
                   adjusted_hl_funding price_diff_percent funding_diff
                   funding_diff_sign))
    as [[[should_close reason] position]|ex] eqn:E; [|exact I].
  exact (check_close_without_funding_sign e symbol bp_position hl_position
           bp_price hl_price bp_funding adjusted_hl_funding
           price_diff_percent funding_diff funding_diff_sign should_close
           reason position Hsign Htype E).
Qed.

End CloseCheck.

(** ** The collector *)

Section Collector.

Variable get_backpack_symbol : string -> string.
Variable calculate_funding_diff : Q -> Q -> Q * Z.
Variable float_of_str : string -> option Q.
Variable cfg : config.
Variable W : Type.
Variable backpack_api hyperliquid_api : venue_api W.

Ltac collect_step :=
  match goal with
  | |- context [match ?x with _ => _ end] =>
      match x with
      | context [match _ with _ => _ end] => fail 1
      | _ => destruct x eqn:?
      end
  end.

Lemma check_close_frame_signs (e : engine) symbol bp_position hl_position
    bp_price hl_price bp_funding adjusted_hl_funding price_diff_percent
    funding_diff funding_diff_sign r e' :
  _check_close_conditions_without_execution get_backpack_symbol cfg e
    symbol bp_position hl_position bp_price hl_price bp_funding
    adjusted_hl_funding price_diff_percent funding_diff funding_diff_sign
  = (r, e') ->
  funding_diff_signs e' = funding_diff_signs e /\ files e' = files e
  /\ market_data e' = market_data e.
Proof.
  intro H.
  pose proof (check_close_engine get_backpack_symbol cfg e symbol
                bp_position hl_position bp_price hl_price bp_funding
                adjusted_hl_funding price_diff_percent funding_diff
                funding_diff_sign) as Hframe.
  cbv zeta in Hframe. rewrite H in Hframe. cbn [snd] in Hframe.
  destruct Hframe as (H1 & H2 & H3 & _). repeat split; assumption.
Qed.

(** Whatever the venues answer, one call of the collector ends normally,
    asks the venues for nothing but orderbooks, leaves the sign store and
    its file alone, and adds at most one candidate: an open candidate for
    the symbol when neither venue holds it, or a close candidate for the
    symbol when both do. *)
Lemma collect_outcome (symbol : string)
    (open_candidates : list open_candidate)
    (close_candidates : list close_candidate)
    (bp_positions hl_positions : pydict position) (m : machine W) :
  let r := _collect_arbitrage_opportunity get_backpack_symbol
             calculate_funding_diff float_of_str cfg W backpack_api
             hyperliquid_api symbol open_candidates close_candidates
             bp_positions hl_positions m in
  (exists new,
     calls (snd r) = (calls m ++ new)%list
     /\ existsb is_order_request new = false)
  /\ funding_diff_signs (eng (snd r)) = funding_diff_signs (eng m)
  /\ files (eng (snd r)) = files (eng m)
  /\ (fst r = Ok (open_candidates, close_candidates)
      \/ (exists c,
            fst r = Ok ((open_candidates ++ [c])%list, close_candidates)
            /\ cand_symbol c = symbol
            /\ has_position get_backpack_symbol symbol bp_positions
                 hl_positions = false)
      \/ (exists c,
            fst r = Ok (open_candidates, (close_candidates ++ [c])%list)
            /\ ccand_symbol c = symbol
            /\ dict_mem bp_positions (get_backpack_symbol symbol) = true
            /\ dict_mem hl_positions symbol = true)).
Proof.
  unfold _collect_arbitrage_opportunity, update_slippage, try_except, bind,
    get_engine, lift_exc, modify_engine, call_orderbook, call, api, ret,
    need, number, py_div.
  cbn [eng world calls].
  repeat (collect_step; cbn [eng world calls fst snd]).
  all: repeat match goal with
         | H : _check_close_conditions_without_execution _ _ _ _ _ _ _ _ _
                 _ _ _ _ = (_, _) |- _ =>
             apply check_close_frame_signs in H; destruct H as (? & ? & ?);
             cbn [funding_diff_signs files set_market_data] in *
         end.
  all: (split;
        [first [ exists []; split;
                 [symmetry; apply app_nil_r|reflexivity]
               | eexists; split;
                 [rewrite <- ?app_assoc; reflexivity|reflexivity] ]|]).
  all: cbn [funding_diff_signs files set_market_data].
  all: (split; [congruence|split; [congruence|]]).
  all: try (left; reflexivity).
  all: try (right; left; eexists; split; [reflexivity|];
            split; [reflexivity|];
            match goal with
            | H : negb (has_position _ _ _ _) = true |- _ =>
                apply negb_true_iff in H; exact H
            end).
  all: try (right; right; eexists; split; [reflexivity|];
            split; [reflexivity|];
            unfold dict_mem;
            repeat match goal with
                   | H : dict_get _ _ = Some _ |- _ => rewrite H; clear H
                   end;
            split; reflexivity).
Qed.

(** X13.  One call of the collector adds at most one candidate, and
    never one to each list: whatever the venues answer, it ends
    normally, asks the venues for nothing but orderbooks, leaves the
    sign store and its file alone, and either adds nothing, or adds an
    open candidate for the symbol (neither venue holds it), or adds a
    close candidate for the symbol (both venues hold it). *)
Theorem collect_adds_at_most_one_candidate (symbol : string)
    (open_candidates : list open_candidate)
    (close_candidates : list close_candidate)
    (bp_positions hl_positions : pydict position) (m : machine W) :
  let r := _collect_arbitrage_opportunity get_backpack_symbol
             calculate_funding_diff float_of_str cfg W backpack_api
             hyperliquid_api symbol open_candidates close_candidates
             bp_positions hl_positions m in
  (exists new,
     calls (snd r) = (calls m ++ new)%list
     /\ existsb is_order_request new = false)
  /\ funding_diff_signs (eng (snd r)) = funding_diff_signs (eng m)
  /\ files (eng (snd r)) = files (eng m)
  /\ (fst r = Ok (open_candidates, close_candidates)
      \/ (exists c,
            fst r = Ok ((open_candidates ++ [c])%list, close_candidates)
            /\ cand_symbol c = symbol
            /\ has_position get_backpack_symbol symbol bp_positions
                 hl_positions = false)
      \/ (exists c,
            fst r = Ok (open_candidates, (close_candidates ++ [c])%list)
            /\ ccand_symbol c = symbol
            /\ dict_mem bp_positions (get_backpack_symbol symbol) = true
            /\ dict_mem hl_positions symbol = true)).
Proof. exact (collect_outcome symbol open_candidates close_candidates
                bp_positions hl_positions m). Qed.

(** X14.  A symbol held on one venue only is left alone: the collector
    emits neither an open nor a close candidate for it, whatever the
    market data and the venues say. *)
Theorem collect_skips_single_leg (symbol : string)
    (open_candidates : list open_candidate)
    (close_candidates : list close_candidate)
    (bp_positions hl_positions : pydict position) (m : machine W) :
  dict_mem bp_positions (get_backpack_symbol symbol)
    <> dict_mem hl_positions symbol ->
  fst (_collect_arbitrage_opportunity get_backpack_symbol
         calculate_funding_diff float_of_str cfg W backpack_api
         hyperliquid_api symbol open_candidates close_candidates
         bp_positions hl_positions m)
  = Ok (open_candidates, close_candidates).
Proof.
  intro Hone.
  destruct (collect_outcome symbol open_candidates close_candidates
              bp_positions hl_positions m)
    as (_ & _ & _ & [H|[(c & _ & _ & H)|(c & _ & _ & Hbp & Hhl)]]).
  - exact H.
  - exfalso. unfold has_position in H.
    apply orb_false_iff in H as [Hbp Hhl]. congruence.
  - exfalso. congruence.
Qed.

End Collector.

Section OpenEffects.

Variable get_backpack_symbol get_hyperliquid_symbol : string -> string.
Variable calculate_funding_diff : Q -> Q -> Q * Z.
Variable cfg : config.
Variable W : Type.
Variable backpack_api hyperliquid_api : venue_api W.

Ltac effect_step :=
  match goal with
  | |- context [match ?x with _ => _ end] =>
      match x with
      | context [match _ with _ => _ end] => fail 1
      | _ => destruct x eqn:?
      end
  end.

(** X15.  An open changes no other symbol's signs: whatever the venues
    answer and however the open ends, the funding sign and the price
    sign of every other symbol are what they were, and so is the market
    data. *)
Theorem open_touches_only_its_symbol (symbol : string)
    (funding_diff bp_funding hl_funding : Q) (available_size : option Q)
    (m : machine W) :
  let e' := eng (snd (_open_position get_backpack_symbol
                        get_hyperliquid_symbol calculate_funding_diff cfg W
                        backpack_api hyperliquid_api symbol funding_diff
                        bp_funding hl_funding available_size m)) in
  market_data e' = market_data (eng m)
  /\ forall other : string,
       other <> symbol ->
       dict_get (funding_diff_signs e') other
       = dict_get (funding_diff_signs (eng m)) other
       /\ dict_get (get_or (price_diff_signs e') []) other
          = dict_get (get_or (price_diff_signs (eng m)) []) other.
Proof.
  intro e'.
  destruct (open_position_engine get_backpack_symbol get_hyperliquid_symbol
              calculate_funding_diff cfg W backpack_api hyperliquid_api
              symbol funding_diff bp_funding hl_funding available_size m)
    as [H|[H|[price_sign H]]]; fold e' in H; rewrite H.
  - split; [reflexivity|]. intros; split; reflexivity.
  - split; [reflexivity|]. intros other Hother.
    unfold record_funding_sign, _save_funding_diff_signs, set_files,
      set_funding_diff_signs.
    cbn [funding_diff_signs price_diff_signs].
    split; [apply dict_get_set_other, Hother|reflexivity].
  - split; [reflexivity|]. intros other Hother.
    unfold record_price_sign, record_funding_sign, _save_funding_diff_signs,
      set_files, set_funding_diff_signs, set_price_diff_signs.
    cbn [funding_diff_signs price_diff_signs get_or].
    split; apply dict_get_set_other, Hother.
Qed.

Lemma open_position_synced (symbol : string)
    (funding_diff bp_funding hl_funding : Q) (available_size : option Q)
    (m : machine W) :
  store_synced (eng m) ->
  store_synced (eng (snd (_open_position get_backpack_symbol
                            get_hyperliquid_symbol calculate_funding_diff
                            cfg W backpack_api hyperliquid_api symbol
                            funding_diff bp_funding hl_funding
                            available_size m))).
Proof.
  intro Hsynced.
  destruct (open_position_engine get_backpack_symbol get_hyperliquid_symbol
              calculate_funding_diff cfg W backpack_api hyperliquid_api
              symbol funding_diff bp_funding hl_funding available_size m)
    as [H|[H|[price_sign H]]]; rewrite H.
  - exact Hsynced.
  - unfold store_synced, record_funding_sign, _save_funding_diff_signs,
      set_files, set_funding_diff_signs.
    cbn [funding_diff_signs files]. apply save_ops_result.
  - unfold store_synced, record_price_sign, record_funding_sign,
      _save_funding_diff_signs, set_files, set_funding_diff_signs,
      set_price_diff_signs.
    cbn [funding_diff_signs files]. apply save_ops_result.
Qed.

(** X16.  An open keeps the sign file in step with the sign store: if
    the file holds the JSON text of the store before the open, it does
    so after it, however the open ends. *)
Theorem open_keeps_store_synced (symbol : string)
    (funding_diff bp_funding hl_funding : Q) (available_size : option Q)
    (m : machine W) :
  store_synced (eng m) ->
  store_synced (eng (snd (_open_position get_backpack_symbol
                            get_hyperliquid_symbol calculate_funding_diff
                            cfg W backpack_api hyperliquid_api symbol
                            funding_diff bp_funding hl_funding
                            available_size m))).
Proof.
  exact (open_position_synced symbol funding_diff bp_funding hl_funding
           available_size m).
Qed.

Lemma open_position_calls (symbol : string)
    (funding_diff bp_funding hl_funding : Q) (available_size : option Q)
    (m : machine W) :
  exists new,
    calls (snd (_open_position get_backpack_symbol get_hyperliquid_symbol
                  calculate_funding_diff cfg W backpack_api hyperliquid_api
                  symbol funding_diff bp_funding hl_funding available_size
                  m))
    = (calls m ++ new)%list
    /\ forallb (open_request_allowed (get_backpack_symbol symbol)
                  (get_hyperliquid_symbol symbol)) new = true
    /\ (length (filter is_order_request new) <= 3)%nat.
Proof.
  unfold _open_position, try_except, bind, get_engine, lift_exc,
    modify_engine, call_place_order, call_positions, call, attempt, api,
    ret, need, number, py_div.
  cbn [eng world calls].
  repeat (effect_step; cbn [eng world calls fst snd]).
  all: first
         [ exists []; split; [symmetry; apply app_nil_r|];
           split; [reflexivity|cbn; lia]
         | eexists; split; [rewrite <- ?app_assoc; reflexivity|];
           split;
           [cbn [forallb open_request_allowed o_symbol o_type app];
            rewrite ?String.eqb_refl; reflexivity
           |cbn; lia] ].
Qed.

(** X17.  An open never places an order for another symbol: whatever the
    venues answer, the calls it makes are position queries, a market
    order on Backpack and an order on Hyperliquid for the symbol's own
    venue names, and Backpack's [close_position] for the symbol; at most
    three of them can change a position. *)
Theorem open_orders_only_its_symbol (symbol : string)
    (funding_diff bp_funding hl_funding : Q) (available_size : option Q)
    (m : machine W) :
  exists new,
    calls (snd (_open_position get_backpack_symbol get_hyperliquid_symbol
                  calculate_funding_diff cfg W backpack_api hyperliquid_api
                  symbol funding_diff bp_funding hl_funding available_size
                  m))
    = (calls m ++ new)%list
    /\ forallb (open_request_allowed (get_backpack_symbol symbol)
                  (get_hyperliquid_symbol symbol)) new = true
    /\ (length (filter is_order_request new) <= 3)%nat.
Proof.
  exact (open_position_calls symbol funding_diff bp_funding hl_funding
           available_size m).
Qed.

(** X18.  Without a trading-pair entry for the symbol an open does
    nothing: it makes no venue call, changes no state and does not
    report success. *)
Theorem open_without_trading_pair (symbol : string)
    (funding_diff bp_funding hl_funding : Q) (available_size : option Q)
    (m : machine W) :
  find_trading_pair cfg symbol = None ->
  snd (_open_position get_backpack_symbol get_hyperliquid_symbol
         calculate_funding_diff cfg W backpack_api hyperliquid_api symbol
         funding_diff bp_funding hl_funding available_size m) = m
  /\ fst (_open_position get_backpack_symbol get_hyperliquid_symbol
            calculate_funding_diff cfg W backpack_api hyperliquid_api
            symbol funding_diff bp_funding hl_funding available_size m)
     <> Ok (Some true).
Proof.
  intro Hpair.
  unfold _open_position, try_except, bind, get_engine, lift_exc, ret.
  cbn [eng world calls]. rewrite Hpair.
  destruct (get_data (eng m) symbol) as [data|]; cbn [fst snd];
    [|split; [reflexivity|discriminate]].
  destruct (sn_bp_price data), (sn_hl_price data); cbn [fst snd];
    split; (reflexivity || discriminate).
Qed.

End OpenEffects.

(** X19.  The order size after lines 1077-1087 never exceeds the cap
    when there is one, is at least the minimum volume whenever the
    minimum does not exceed the cap, and is the requested size when that
    lies between the two. *)
Theorem clamp_size_bounds (size min_volume cap : Q) :
  clamp_size size min_volume (Some cap) <= cap
  /\ (min_volume <= cap ->
      min_volume <= clamp_size size min_volume (Some cap))
  /\ (min_volume <= size -> size <= cap ->
      clamp_size size min_volume (Some cap) = size)
  /\ min_volume <= clamp_size size min_volume None.
Proof.
  unfold clamp_size.
  destruct (Qlt_bool size min_volume) eqn:E1;
    [apply Qlt_bool_true in E1|apply Qlt_bool_false in E1].
  - destruct (Qlt_bool cap min_volume) eqn:E2;
      [apply Qlt_bool_true in E2|apply Qlt_bool_false in E2];
      repeat split; intros; try lra; try apply Qle_refl.
  - destruct (Qlt_bool cap size) eqn:E2;
      [apply Qlt_bool_true in E2|apply Qlt_bool_false in E2];
      repeat split; intros; try lra; try apply Qle_refl; try reflexivity.
Qed.

(** ** The verdict of an open *)

Section OpenVerdict.

Variable get_backpack_symbol get_hyperliquid_symbol : string -> string.
Variable calculate_funding_diff : Q -> Q -> Q * Z.
Variable cfg : config.
Variable W : Type.
Variable backpack_api hyperliquid_api : venue_api W.

Variable symbol : string.
Variable funding_diff bp_funding hl_funding size : Q.
Variable m : machine W.

Variable data : snapshot.
Variable bp_price hl_price min_volume : Q.
Variable tp : trading_pair.

Hypothesis H_data : get_data (eng m) symbol = Some data.
Hypothesis H_bp_price : sn_bp_price data = Some bp_price.
Hypothesis H_hl_price : sn_hl_price data = Some hl_price.
Hypothesis H_pair : find_trading_pair cfg symbol = Some tp.
Hypothesis H_min_volume : tp_min_volume tp = Some min_volume.
Hypothesis H_hl_price_nonzero : Qeq_bool hl_price 0 = false.

Section Verified.

Variable limit : Q.
Variable pre_bp pre_hl post_bp post_hl : pydict position.
Variable bp_result hl_result : exc pyval.
Variable w1 w2 w3 w4 w5 w6 : W.

Local Abbreviation order_size :=
  (clamp_size size min_volume (tp_max_position_size tp)).

Hypothesis H_limit :
  limit_price hl_price (open_side hl_funding)
    (get_or (tp_tick_size tp) 0.001) (get_or (tp_price_precision tp) 3%Z)
  = Ok limit.
Hypothesis H_pre_bp :
  get_positions backpack_api (world m) = (Ok pre_bp, w1).
Hypothesis H_pre_hl : get_positions hyperliquid_api w1 = (Ok pre_hl, w2).
Hypothesis H_order_bp :
  place_order backpack_api
    (bp_open_order (get_backpack_symbol symbol) bp_funding order_size) w2
  = (bp_result, w3).
Hypothesis H_order_hl :
  place_order hyperliquid_api
    (hl_open_order (get_hyperliquid_symbol symbol) hl_funding order_size
       limit) w3
  = (hl_result, w4).
Hypothesis H_post_bp : get_positions backpack_api w4 = (Ok post_bp, w5).
Hypothesis H_post_hl :
  get_positions hyperliquid_api w5 = (Ok post_hl, w6).

(** X20.  The verdict of an open is read from the positions alone: once
    the second position query has answered, the open reports success
    exactly when both legs are seen to have changed by the order size,
    whatever the two [place_order] calls returned or raised; and when
    the two legs agree (both changed, or neither) nothing is unwound and
    no further call is made. *)
Theorem open_verdict_from_positions :
  let bp_changed :=
    open_leg_changed pos_quantity
      (find_position pre_bp (get_backpack_symbol symbol))
      (find_position post_bp (get_backpack_symbol symbol)) order_size in
  let hl_changed :=
    open_leg_changed pos_size
      (find_position pre_hl (get_hyperliquid_symbol symbol))
      (find_position post_hl (get_hyperliquid_symbol symbol)) order_size in
  let r := _open_position get_backpack_symbol get_hyperliquid_symbol
             calculate_funding_diff cfg W backpack_api hyperliquid_api
             symbol funding_diff bp_funding hl_funding (Some size) m in
  fst r = Ok (Some (bp_changed && hl_changed))
  /\ (bp_changed = hl_changed ->
      calls (snd r)
      = (calls m
           ++ open_dispatch_calls
                (bp_open_order (get_backpack_symbol symbol) bp_funding
                   order_size)
                (hl_open_order (get_hyperliquid_symbol symbol) hl_funding
                   order_size limit))%list
      /\ world (snd r) = w6).
Proof.
  intros bp_changed hl_changed r. subst r.
  rewrite (open_position_run get_backpack_symbol get_hyperliquid_symbol
             calculate_funding_diff cfg W backpack_api hyperliquid_api
             symbol funding_diff bp_funding hl_funding size m data bp_price
             hl_price min_volume limit tp pre_bp pre_hl post_bp post_hl
             bp_result hl_result w1 w2 w3 w4 w5 w6 H_data H_bp_price
             H_hl_price H_pair H_min_volume H_hl_price_nonzero H_limit
             H_pre_bp H_pre_hl H_order_bp H_order_hl H_post_bp H_post_hl).
  fold bp_changed hl_changed.
  destruct bp_changed, hl_changed; cbn [andb fst snd calls world];
    (split; [reflexivity|]); intro H; try discriminate H;
    split; reflexivity.
Qed.

End Verified.

(** X21.  A trading pair whose tick size is 0 is never opened: the open
    has recorded both signs by then, asks the venues for their
    positions, fails at the limit price (a division by the tick size),
    places no order and reports failure. *)
Theorem open_zero_tick_size_fails :
  Qeq_bool (get_or (tp_tick_size tp) 0.001) 0 = true ->
  let r := _open_position get_backpack_symbol get_hyperliquid_symbol
             calculate_funding_diff cfg W backpack_api hyperliquid_api
             symbol funding_diff bp_funding hl_funding (Some size) m in
  fst r = Ok (Some false)
  /\ eng (snd r)
     = open_run_engine calculate_funding_diff symbol bp_funding hl_funding
         bp_price hl_price (eng m)
  /\ exists new,
       calls (snd r) = (calls m ++ new)%list
       /\ existsb is_order_request new = false.
Proof.
  intros Htick r. subst r.
  unfold _open_position, try_except, bind, get_engine, lift_exc,
    modify_engine, call_positions, call, api, ret, need, number,
    limit_price, open_run_engine, py_div.
  cbn [eng world calls].
  rewrite H_data, H_bp_price, H_hl_price, H_pair, H_min_volume.
  cbn beta iota.
  destruct (calculate_funding_diff bp_funding hl_funding)
    as [d funding_diff_sign].
  cbn [eng world calls snd].
  rewrite H_hl_price_nonzero, Htick.
  cbn [eng world calls exc_bind].
  destruct (get_positions backpack_api (world m)) as [[pre_bp|ex] w1];
    cbn [eng world calls fst snd].
  2:{ split; [reflexivity|]. split; [reflexivity|].
      eexists. split; reflexivity. }
  destruct (get_positions hyperliquid_api w1) as [[pre_hl|ex] w2];
    cbn [eng world calls fst snd].
  2:{ split; [reflexivity|]. split; [reflexivity|].
      eexists. split; [rewrite <- app_assoc|]; reflexivity. }
  split; [reflexivity|]. split; [reflexivity|].
  eexists. split; [rewrite <- app_assoc|]; reflexivity.
Qed.

End OpenVerdict.

Section CloseEffects.

Variable W : Type.
Variable backpack_api hyperliquid_api : venue_api W.

(** X22.  A close never trades: whatever the price and position queries
    answer, [_close_position] reports failure, makes no call that can
    change a position and leaves the engine state, the sign store
    included, as it was. *)
Theorem close_position_places_no_order (symbol : string)
    (position : pair_position) (m : machine W) :
  let r := _close_position W backpack_api hyperliquid_api symbol position
             m in
  fst r = Ok false
  /\ eng (snd r) = eng m
  /\ exists new,
       calls (snd r) = (calls m ++ new)%list
       /\ existsb is_order_request new = false.
Proof.
  exact (close_position_never_orders W backpack_api hyperliquid_api symbol
           position m).
Qed.

End CloseEffects.

(** ** One pass of the main loop *)

Section SchedulerPass.

Variable get_backpack_symbol get_hyperliquid_symbol : string -> string.
Variable calculate_funding_diff : Q -> Q -> Q * Z.
Variable float_of_str : string -> option Q.
Variable update_market_data : pydict snapshot -> exc unit.
Variable cfg : config.
Variable W : Type.
Variable backpack_api hyperliquid_api : venue_api W.

Local Abbreviation collect_symbols' :=
  (collect_symbols get_backpack_symbol calculate_funding_diff float_of_str
     cfg W backpack_api hyperliquid_api).
Local Abbreviation open_batch' :=
  (open_batch get_backpack_symbol get_hyperliquid_symbol
     calculate_funding_diff cfg W backpack_api hyperliquid_api).
Local Abbreviation close_batch' :=
  (close_batch W backpack_api hyperliquid_api).

Lemma existsb_order_app (xs ys : list (venue * request)) :
  existsb is_order_request xs = false ->
  existsb is_order_request ys = false ->
  existsb is_order_request (xs ++ ys) = false.
Proof. intros Hx Hy. rewrite existsb_app, Hx, Hy. reflexivity. Qed.

Lemma collect_symbols_outcome (symbols : list string)
    (bp_positions hl_positions : pydict position) :
  forall (open_candidates : list open_candidate)
         (close_candidates : list close_candidate) (m : machine W),
  exists open_candidates' close_candidates' new,
    collect_symbols' symbols open_candidates close_candidates bp_positions
      hl_positions m
    = (Ok (open_candidates', close_candidates'),
       snd (collect_symbols' symbols open_candidates close_candidates
              bp_positions hl_positions m))
    /\ calls (snd (collect_symbols' symbols open_candidates
                     close_candidates bp_positions hl_positions m))
       = (calls m ++ new)%list
    /\ existsb is_order_request new = false
    /\ funding_diff_signs
         (eng (snd (collect_symbols' symbols open_candidates
                      close_candidates bp_positions hl_positions m)))
       = funding_diff_signs (eng m)
    /\ files (eng (snd (collect_symbols' symbols open_candidates
                          close_candidates bp_positions hl_positions m)))
       = files (eng m)
    /\ (forall c, In c open_candidates' ->
          In c open_candidates
          \/ (In (cand_symbol c) symbols
              /\ has_position get_backpack_symbol (cand_symbol c)
                   bp_positions hl_positions = false))
    /\ (forall c, In c close_candidates' ->
          In c close_candidates
          \/ (In (ccand_symbol c) symbols
              /\ has_position get_backpack_symbol (ccand_symbol c)
                   bp_positions hl_positions = true)).
Proof.
  induction symbols as [|symbol rest IH]; intros oc cc m.
  - exists oc, cc, []. cbn [collect_symbols ret snd].
    repeat split; auto. symmetry; apply app_nil_r.
  - cbn [collect_symbols]. unfold bind at 1 2 3 4 5.
    pose proof (collect_outcome get_backpack_symbol calculate_funding_diff
                  float_of_str cfg W backpack_api hyperliquid_api symbol
                  oc cc bp_positions hl_positions m) as Hone.
    cbv zeta in Hone.
    destruct (_collect_arbitrage_opportunity get_backpack_symbol
                calculate_funding_diff float_of_str cfg W backpack_api
                hyperliquid_api symbol oc cc bp_positions hl_positions m)
      as [r m1].
    cbn [fst snd] in Hone.
    destruct Hone as ((new1 & Hcalls1 & Hnone1) & Hsigns1 & Hfiles1 & Hout).
    assert (Hr : exists oc1 cc1,
               r = Ok (oc1, cc1)
               /\ (forall c, In c oc1 ->
                     In c oc
                     \/ (cand_symbol c = symbol
                         /\ has_position get_backpack_symbol symbol
                              bp_positions hl_positions = false))
               /\ (forall c, In c cc1 ->
                     In c cc
                     \/ (ccand_symbol c = symbol
                         /\ has_position get_backpack_symbol symbol
                              bp_positions hl_positions = true))).
    { destruct Hout as [H|[(c & H & Hs & Hp)|(c & H & Hs & Hbp & Hhl)]].
      - exists oc, cc. repeat split; auto.
      - exists (oc ++ [c])%list, cc. split; [exact H|]. split; auto.
        intros c' Hin. apply in_app_or in Hin as [Hin|[<-|[]]]; auto.
      - exists oc, (cc ++ [c])%list. split; [exact H|]. split; auto.
        intros c' Hin. apply in_app_or in Hin as [Hin|[<-|[]]]; auto.
        right. split; [exact Hs|]. unfold has_position.
        rewrite Hbp. reflexivity. }
    destruct Hr as (oc1 & cc1 & -> & Hoc1 & Hcc1).
    cbn [fst snd].
    destruct (IH oc1 cc1 m1)
      as (oc' & cc' & new2 & Hrun & Hcalls2 & Hnone2 & Hsigns2 & Hfiles2
          & Hoc' & Hcc').
    exists oc', cc', (new1 ++ new2)%list.
    split; [exact Hrun|].
    split; [rewrite Hcalls2, Hcalls1, app_assoc; reflexivity|].
    split; [apply existsb_order_app; assumption|].
    split; [congruence|]. split; [congruence|].
    split.
    + intros c Hin. destruct (Hoc' c Hin) as [H|[H1 H2]].
      * destruct (Hoc1 c H) as [H'|[H1 H2]]; [left; exact H'|].
        right. split; [left; symmetry; exact H1|rewrite H1; exact H2].
      * right. split; [right; exact H1|exact H2].
    + intros c Hin. destruct (Hcc' c Hin) as [H|[H1 H2]].
      * destruct (Hcc1 c H) as [H'|[H1 H2]]; [left; exact H'|].
        right. split; [left; symmetry; exact H1|rewrite H1; exact H2].
      * right. split; [right; exact H1|exact H2].
Qed.

Lemma open_batch_outcome (candidates : list open_candidate) :
  forall m : machine W,
  fst (open_batch' candidates m) = Ok tt
  /\ (store_synced (eng m) ->
      store_synced (eng (snd (open_batch' candidates m))))
  /\ exists new,
       calls (snd (open_batch' candidates m)) = (calls m ++ new)%list
       /\ Forall (fun c =>
                    exists candidate,
                      In candidate candidates
                      /\ open_request_allowed
                           (get_backpack_symbol (cand_symbol candidate))
                           (get_hyperliquid_symbol (cand_symbol candidate))
                           c = true) new.
Proof.
  induction candidates as [|candidate rest IH]; intro m.
  - cbn [open_batch ret fst snd]. split; [reflexivity|]. split; [auto|].
    exists []. split; [symmetry; apply app_nil_r|constructor].
  - pose proof (open_position_calls get_backpack_symbol
                  get_hyperliquid_symbol calculate_funding_diff cfg W
                  backpack_api hyperliquid_api (cand_symbol candidate)
                  (cand_funding_diff candidate) (cand_bp_funding candidate)
                  (cand_hl_funding candidate)
                  (cand_available_size candidate) m) as Hcalls.
    pose proof (open_position_synced get_backpack_symbol
                  get_hyperliquid_symbol calculate_funding_diff cfg W
                  backpack_api hyperliquid_api (cand_symbol candidate)
                  (cand_funding_diff candidate) (cand_bp_funding candidate)
                  (cand_hl_funding candidate)
                  (cand_available_size candidate) m) as Hsynced.
    destruct (_open_position get_backpack_symbol get_hyperliquid_symbol
                calculate_funding_diff cfg W backpack_api hyperliquid_api
                (cand_symbol candidate) (cand_funding_diff candidate)
                (cand_bp_funding candidate) (cand_hl_funding candidate)
                (cand_available_size candidate) m) as [r m1] eqn:Hrun.
    cbn [fst snd] in Hcalls, Hsynced.
    destruct Hcalls as (new1 & Hcalls1 & Hallowed & _).
    assert (Hstep : open_batch' (candidate :: rest) m
                    = open_batch' rest m1).
    { cbn [open_batch]. unfold bind, try_except, ret. rewrite Hrun.
      destruct r; reflexivity. }
    rewrite Hstep.
    destruct (IH m1) as (Hok & Hkeep & new2 & Hcalls2 & Hall2).
    split; [exact Hok|]. split; [auto|].
    exists (new1 ++ new2)%list.
    split; [rewrite Hcalls2, Hcalls1, app_assoc; reflexivity|].
    apply Forall_app. split.
    + apply Forall_forall. intros c Hin. exists candidate.
      split; [left; reflexivity|].
      rewrite forallb_forall in Hallowed. apply Hallowed, Hin.
    + apply Forall_forall. intros c Hin.
      rewrite Forall_forall in Hall2.
      destruct (Hall2 c Hin) as (cand & Hcand & Hc).
      exists cand. split; [right; exact Hcand|exact Hc].
Qed.

Lemma close_batch_outcome (candidates : list close_candidate) :
  forall m : machine W,
  fst (close_batch' candidates m) = Ok tt
  /\ eng (snd (close_batch' candidates m)) = eng m
  /\ exists new,
       calls (snd (close_batch' candidates m)) = (calls m ++ new)%list
       /\ existsb is_order_request new = false.
Proof.
  induction candidates as [|candidate rest IH]; intro m.
  - cbn [close_batch ret fst snd]. repeat split.
    exists []. split; [symmetry; apply app_nil_r|reflexivity].
  - assert (Hone : exists r m1 new1,
               match ccand_position candidate with
               | Some position =>
                   _close_position W backpack_api hyperliquid_api
                     (ccand_symbol candidate) position
               | None => ret W false
               end m = (r, m1)
               /\ eng m1 = eng m
               /\ calls m1 = (calls m ++ new1)%list
               /\ existsb is_order_request new1 = false).
    { destruct (ccand_position candidate) as [position|].
      - pose proof (close_position_never_orders W backpack_api
                      hyperliquid_api (ccand_symbol candidate) position m)
          as H.
        cbv zeta in H.
        destruct (_close_position W backpack_api hyperliquid_api
                    (ccand_symbol candidate) position m) as [r m1].
        cbn [fst snd] in H. destruct H as (_ & He & new1 & Hc & Hn).
        exists r, m1, new1. repeat split; assumption.
      - exists (Ok false), m, []. unfold ret.
        repeat split. symmetry; apply app_nil_r. }
    destruct Hone as (r & m1 & new1 & Hrun & Heng1 & Hcalls1 & Hnone1).
    assert (Hstep : close_batch' (candidate :: rest) m
                    = close_batch' rest m1).
    { cbn [close_batch]. unfold bind, try_except. rewrite Hrun.
      destruct r; reflexivity. }
    rewrite Hstep.
    destruct (IH m1) as (Hok & Heng2 & new2 & Hcalls2 & Hnone2).
    split; [exact Hok|]. split; [congruence|].
    exists (new1 ++ new2)%list.
    split; [rewrite Hcalls2, Hcalls1, app_assoc; reflexivity|].
    apply existsb_order_app; assumption.
Qed.

Lemma scan_pass_outcome (symbols : option (list string)) (m : machine W) :
  let r := scan_pass get_backpack_symbol get_hyperliquid_symbol
             calculate_funding_diff float_of_str update_market_data cfg W
             backpack_api hyperliquid_api symbols m in
  fst r = Ok tt
  /\ (store_synced (eng m) -> store_synced (eng (snd r)))
  /\ exists new,
       calls (snd r) = (calls m ++ new)%list
       /\ match get_positions backpack_api (world m) with
          | (Ok bp_positions, w1) =>
              match get_positions hyperliquid_api w1 with
              | (Ok hl_positions, _) =>
                  forall c,
                    In c new -> is_order_request c = true ->
                    order_for_flat_symbol get_backpack_symbol
                      get_hyperliquid_symbol (get_or symbols [])
                      bp_positions hl_positions c
              | (Raise _, _) => existsb is_order_request new = false
              end
          | (Raise _, _) => existsb is_order_request new = false
          end.
Proof.
  cbv zeta.
  unfold scan_pass, try_except, get_engine, call_positions, call, api,
    lift_exc, bind.
  cbn [eng world calls fst snd].
  destruct (get_positions backpack_api (world m)) as [[bp_positions|ex] w1];
    cbn [eng world calls fst snd].
  2:{ unfold ret. cbn [fst snd eng calls].
      split; [reflexivity|]. split; [auto|].
      eexists. split; reflexivity. }
  destruct (get_positions hyperliquid_api w1) as [[hl_positions|ex] w2];
    cbn [eng world calls fst snd].
  2:{ unfold ret. cbn [fst snd eng calls].
      split; [reflexivity|]. split; [auto|].
      eexists. split; [rewrite <- app_assoc|]; reflexivity. }
  destruct (update_market_data (get_all_data (eng m))) as [[]|ex].
  2:{ unfold ret. cbn [fst snd eng calls].
      split; [reflexivity|]. split; [auto|].
      eexists. split; [rewrite <- app_assoc; reflexivity|].
      intros c [<-|[<-|[]]]; discriminate. }
  destruct symbols as [symbols|]; cbn [need get_or].
  2:{ unfold ret. cbn [fst snd eng calls].
      split; [reflexivity|]. split; [auto|].
      eexists. split; [rewrite <- app_assoc; reflexivity|].
      intros c [<-|[<-|[]]]; discriminate. }
  set (m0 := mkMachine (eng m) w2
               ((calls m ++ [(Backpack, ReqPositions)])
                ++ [(Hyperliquid, ReqPositions)])%list).
  destruct (collect_symbols_outcome symbols bp_positions hl_positions [] []
              m0)
    as (oc & cc & new1 & Hrun & Hcalls1 & Hnone1 & Hsigns1 & Hfiles1
        & Hoc & Hcc).
  rewrite Hrun.
  set (m1 := snd (collect_symbols' symbols [] [] bp_positions hl_positions
                    m0)) in *.
  cbn [fst snd].
  destruct (open_batch_outcome oc m1) as (Hok2 & Hkeep2 & new2 & Hcalls2
                                          & Hall2).
  destruct (open_batch' oc m1) as [r2 m2].
  cbn [fst snd] in Hok2, Hkeep2, Hcalls2. subst r2. cbv beta iota.
  destruct (close_batch_outcome cc m2) as (Hok3 & Heng3 & new3 & Hcalls3
                                           & Hnone3).
  destruct (close_batch' cc m2) as [r3 m3].
  cbn [fst snd] in Hok3, Heng3, Hcalls3. subst r3. cbv beta iota.
  cbn [fst snd].
  split; [reflexivity|]. split.
  - intro Hsynced. unfold store_synced in *.
    rewrite Heng3. apply Hkeep2.
    rewrite Hsigns1, Hfiles1. exact Hsynced.
  - exists ([(Backpack, ReqPositions); (Hyperliquid, ReqPositions)]
            ++ new1 ++ new2 ++ new3)%list.
    split.
    + rewrite Hcalls3, Hcalls2, Hcalls1. unfold m0. cbn [calls].
      rewrite <- !app_assoc. reflexivity.
    + intros c Hin Horder.
      cbn [app] in Hin.
      destruct Hin as [<-|[<-|Hin]]; [discriminate|discriminate|].
      apply in_app_or in Hin as [Hin|Hin].
      { exfalso.
        assert (H : existsb is_order_request new1 = true).
        { apply existsb_exists. exists c. split; assumption. }
        congruence. }
      apply in_app_or in Hin as [Hin|Hin].
      2:{ exfalso.
          assert (H : existsb is_order_request new3 = true).
          { apply existsb_exists. exists c. split; assumption. }
          congruence. }
      rewrite Forall_forall in Hall2.
      destruct (Hall2 c Hin) as (candidate & Hcand & Hallowed).
      destruct (Hoc candidate Hcand) as [[]|[Hsym Hflat]].
      exists (cand_symbol candidate).
      repeat split; assumption.
Qed.

(** X23.  Every order of a pass goes to a symbol that was flat when the
    pass began: whatever the venues and the display do, the pass ends
    normally, and each call that can change a position is one an open
    makes for a configured symbol that neither venue held in the
    positions fetched at the start of the pass; the pass places no order
    when one of these two queries fails. *)
Theorem scan_pass_orders_flat_symbols (symbols : option (list string))
    (m : machine W) :
  let r := scan_pass get_backpack_symbol get_hyperliquid_symbol
             calculate_funding_diff float_of_str update_market_data cfg W
             backpack_api hyperliquid_api symbols m in
  fst r = Ok tt
  /\ exists new,
       calls (snd r) = (calls m ++ new)%list
       /\ match get_positions backpack_api (world m) with
          | (Ok bp_positions, w1) =>
              match get_positions hyperliquid_api w1 with
              | (Ok hl_positions, _) =>
                  forall c,
                    In c new -> is_order_request c = true ->
                    order_for_flat_symbol get_backpack_symbol
                      get_hyperliquid_symbol (get_or symbols [])
                      bp_positions hl_positions c
              | (Raise _, _) => existsb is_order_request new = false
              end
          | (Raise _, _) => existsb is_order_request new = false
          end.
Proof.
  destruct (scan_pass_outcome symbols m) as (Hok & _ & Hcalls).
  split; [exact Hok|exact Hcalls].
Qed.

(** X24.  A pass keeps the sign file in step with the sign store: if the
    file holds the JSON text of the store when the pass begins, it does
    so when the pass ends, whatever was collected, opened or closed. *)
Theorem scan_pass_keeps_store_synced (symbols : option (list string))
    (m : machine W) :
  store_synced (eng m) ->
  store_synced
    (eng (snd (scan_pass get_backpack_symbol get_hyperliquid_symbol
                 calculate_funding_diff float_of_str update_market_data
                 cfg W backpack_api hyperliquid_api symbols m))).
Proof.
  destruct (scan_pass_outcome symbols m) as (_ & Hsynced & _).
  exact Hsynced.
Qed.

End SchedulerPass.

(** ** The further properties on the scenarios *)

(** The theorem at a flat BTC whose funding difference passes the
    [funding_only] condition. *)
Lemma open_emitted_only_through_gates_witness :
  open_gates_pass Helpers.get_backpack_symbol Sim.config_top
    (Sim.fresh_engine 0.0002 0.00000625) "BTC" [] [] = true
  /\ In (get_or (open_condition_type (config_open_conditions Sim.config_top))
           "funding_only")
        ["any"; "all"; "funding_only"; "price_only"].
Proof.
  apply (open_emitted_only_through_gates Helpers.get_backpack_symbol
           Sim.config_top (Sim.fresh_engine 0.0002 0.00000625) "BTC"
           100 100 0.0002 0.00005 0 0.00015 [] []).
  vm_compute. reflexivity.
Defined.

(** The theorem at a BTC entry without slippage figures and the default
    limit. *)
Lemma open_blocked_without_slippage_figure_witness :
  fst (fst (_check_open_conditions_without_execution
              Helpers.get_backpack_symbol Cases.config_default_slippage
              (Sim.fresh_engine 0.0002 0.00000625) "BTC" 100 100 0.0002
              0.00005 0 0.00015 [] [])) = false.
Proof.
  apply (open_blocked_without_slippage_figure Helpers.get_backpack_symbol
           Cases.config_default_slippage
           (Sim.fresh_engine 0.0002 0.00000625) "BTC" 100 100 0.0002
           0.00005 0 0.00015 [] []).
  - vm_compute. reflexivity.
  - reflexivity.
  - vm_compute. reflexivity.
Defined.

(** The theorem at the first evaluation of the BTC pair after a restart,
    for the price sign of ETH. *)
Lemma close_check_frame_witness :
  let e := Cases.restarted_engine in
  let e' :=
    snd (_check_close_conditions_without_execution
           Helpers.get_backpack_symbol
           (Cases.config_closing Cases.price_reversal_conditions) e "BTC"
           (Sim.held "BTC_USDC_PERP" "SELL" 0.01) (Sim.held "BTC" "BUY" 0.01)
           101 100 0.0001 0.00008 1 0.00002 1%Z) in
  funding_diff_signs e' = funding_diff_signs e
  /\ files e' = files e
  /\ dict_get (get_or (price_diff_signs e') []) "ETH"
     = dict_get (get_or (price_diff_signs e) []) "ETH".
Proof.
  intros e e'.
  destruct (close_check_frame Helpers.get_backpack_symbol
              (Cases.config_closing Cases.price_reversal_conditions) e
              "BTC" (Sim.held "BTC_USDC_PERP" "SELL" 0.01)
              (Sim.held "BTC" "BUY" 0.01) 101 100 0.0001 0.00008 1 0.00002
              1%Z) as (H1 & H2 & _ & H4 & _).
  split; [exact H1|]. split; [exact H2|].
  apply H4. discriminate.
Defined.

(** The theorem at the first evaluation of the BTC pair after a restart,
    where a price reversal is required. *)
Lemma close_check_first_observation_witness :
  let r :=
    _check_close_conditions_without_execution Helpers.get_backpack_symbol
      (Cases.config_closing Cases.price_reversal_conditions)
      Cases.restarted_engine "BTC"
      (Sim.held "BTC_USDC_PERP" "SELL" 0.01) (Sim.held "BTC" "BUY" 0.01)
      101 100 0.0001 0.00008 1 0.00002 1%Z in
  dict_get (get_or (price_diff_signs (snd r)) []) "BTC"
    = Some (sign_of 1)
  /\ does_not_close (fst r).
Proof.
  intro r.
  destruct (close_check_first_observation Helpers.get_backpack_symbol
              (Cases.config_closing Cases.price_reversal_conditions)
              Cases.restarted_engine "BTC"
              (Sim.held "BTC_USDC_PERP" "SELL" 0.01)
              (Sim.held "BTC" "BUY" 0.01) 101 100 0.0001 0.00008 1 0.00002
              1%Z) as [Hsign Hclose].
  - vm_compute. reflexivity.
  - vm_compute. reflexivity.
  - split; [exact Hsign|]. apply Hclose; reflexivity.
Defined.

(** The theorem at a BTC pair held by an engine with an empty sign
    store, where a funding reversal is required. *)
Lemma close_needs_stored_funding_sign_witness :
  does_not_close
    (fst (_check_close_conditions_without_execution
            Helpers.get_backpack_symbol
            (Cases.config_closing Cases.funding_reversal_conditions)
            (Sim.fresh_engine 0.0002 0.00000625) "BTC"
            (Sim.held "BTC_USDC_PERP" "SELL" 0.01)
            (Sim.held "BTC" "BUY" 0.01) 101 100 0.0002 0.00005 1 0.00015
            1%Z)).
Proof.
  apply (close_needs_stored_funding_sign Helpers.get_backpack_symbol
           (Cases.config_closing Cases.funding_reversal_conditions)
           (Sim.fresh_engine 0.0002 0.00000625) "BTC"
           (Sim.held "BTC_USDC_PERP" "SELL" 0.01)
           (Sim.held "BTC" "BUY" 0.01) 101 100 0.0002 0.00005 1 0.00015
           1%Z).
  - reflexivity.
  - left. reflexivity.
Defined.

(** The theorem at a BTC held on Backpack only. *)
Lemma collect_skips_single_leg_witness :
  fst (_collect_arbitrage_opportunity Helpers.get_backpack_symbol
         Helpers.calculate_funding_diff Helpers.float_of_str
         Sim.config_top Sim.world Sim.backpack_api Sim.hyperliquid_api
         "BTC" [] [] (Sim.bp_book Sim.one_leg_world)
         (Sim.hl_book Sim.one_leg_world)
         (Sim.start (Sim.fresh_engine 0.0002 0.00000625)
            Sim.one_leg_world))
  = Ok ([], []).
Proof.
  apply (collect_skips_single_leg Helpers.get_backpack_symbol
           Helpers.calculate_funding_diff Helpers.float_of_str
           Sim.config_top Sim.world Sim.backpack_api Sim.hyperliquid_api
           "BTC" [] [] (Sim.bp_book Sim.one_leg_world)
           (Sim.hl_book Sim.one_leg_world)
           (Sim.start (Sim.fresh_engine 0.0002 0.00000625)
              Sim.one_leg_world)).
  vm_compute. discriminate.
Defined.

(** The theorem at an open of BTC by an engine that has the signs of an
    ETH pair on record. *)
Lemma open_touches_only_its_symbol_witness :
  let m := Sim.start Cases.eth_signs_engine (Sim.flat true true) in
  let e' :=
    eng (snd (_open_position Helpers.get_backpack_symbol
                Helpers.get_hyperliquid_symbol
                Helpers.calculate_funding_diff Sim.config_top Sim.world
                Sim.backpack_api Sim.hyperliquid_api "BTC" 0.00015 0.0002
                0.00005 (Some 0.01) m)) in
  dict_get (funding_diff_signs e') "ETH"
    = dict_get (funding_diff_signs (eng m)) "ETH"
  /\ dict_get (get_or (price_diff_signs e') []) "ETH"
     = dict_get (get_or (price_diff_signs (eng m)) []) "ETH".
Proof.
  intros m e'.
  apply (open_touches_only_its_symbol Helpers.get_backpack_symbol
           Helpers.get_hyperliquid_symbol Helpers.calculate_funding_diff
           Sim.config_top Sim.world Sim.backpack_api Sim.hyperliquid_api
           "BTC" 0.00015 0.0002 0.00005 (Some 0.01) m).
  discriminate.
Defined.

(** The theorem at an open of BTC by an engine whose file holds its
    store. *)
Lemma open_keeps_store_synced_witness :
  store_synced
    (eng (snd (_open_position Helpers.get_backpack_symbol
                 Helpers.get_hyperliquid_symbol
                 Helpers.calculate_funding_diff Sim.config_top Sim.world
                 Sim.backpack_api Sim.hyperliquid_api "BTC" 0.00015 0.0002
                 0.00005 (Some 0.01)
                 (Sim.start Sim.paired_engine (Sim.flat true true))))).
Proof.
  apply (open_keeps_store_synced Helpers.get_backpack_symbol
           Helpers.get_hyperliquid_symbol Helpers.calculate_funding_diff
           Sim.config_top Sim.world Sim.backpack_api Sim.hyperliquid_api
           "BTC" 0.00015 0.0002 0.00005 (Some 0.01)
           (Sim.start Sim.paired_engine (Sim.flat true true))).
  unfold store_synced. vm_compute. reflexivity.
Defined.

(** The theorem at a configuration that has [trading_pairs] under
    [strategy] only. *)
Lemma open_without_trading_pair_witness :
  let m := Sim.start (Sim.fresh_engine 0.0002 0.00000625)
             (Sim.flat true true) in
  let r := _open_position Helpers.get_backpack_symbol
             Helpers.get_hyperliquid_symbol Helpers.calculate_funding_diff
             Sim.config_strategy Sim.world Sim.backpack_api
             Sim.hyperliquid_api "BTC" 0.00015 0.0002 0.00005 (Some 0.01)
             m in
  snd r = m /\ fst r <> Ok (Some true).
Proof.
  intros m r.
  apply (open_without_trading_pair Helpers.get_backpack_symbol
           Helpers.get_hyperliquid_symbol Helpers.calculate_funding_diff
           Sim.config_strategy Sim.world Sim.backpack_api
           Sim.hyperliquid_api "BTC" 0.00015 0.0002 0.00005 (Some 0.01) m).
  reflexivity.
Defined.

(** The theorem at the minimum 0.001 and the cap 0.01, for a size above
    the cap and a size between the two. *)
Lemma clamp_size_bounds_witness :
  clamp_size 0.5 0.001 (Some 0.01) <= 0.01
  /\ 0.001 <= clamp_size 0.5 0.001 (Some 0.01)
  /\ clamp_size 0.005 0.001 (Some 0.01) = 0.005.
Proof.
  destruct (clamp_size_bounds 0.5 0.001 0.01) as (H1 & H2 & _ & _).
  destruct (clamp_size_bounds 0.005 0.001 0.01) as (_ & _ & H3 & _).
  split; [exact H1|]. split.
  - apply H2. vm_compute. discriminate.
  - apply H3; vm_compute; discriminate.
Defined.

(** The theorem at a pass over BTC with both legs held. *)
Lemma scan_pass_keeps_store_synced_witness :
  store_synced
    (eng (snd (scan_pass Helpers.get_backpack_symbol
                 Helpers.get_hyperliquid_symbol
                 Helpers.calculate_funding_diff Helpers.float_of_str
                 Cases.quiet_display Sim.config_top Sim.world
                 Sim.backpack_api Sim.hyperliquid_api (Some ["BTC"])
                 (Sim.start Sim.paired_engine Sim.paired_world)))).
Proof.
  apply (scan_pass_keeps_store_synced Helpers.get_backpack_symbol
           Helpers.get_hyperliquid_symbol Helpers.calculate_funding_diff
           Helpers.float_of_str Cases.quiet_display Sim.config_top
           Sim.world Sim.backpack_api Sim.hyperliquid_api (Some ["BTC"])
           (Sim.start Sim.paired_engine Sim.paired_world)).
  unfold store_synced. vm_compute. reflexivity.
Defined.

(** The theorem at a pass over a flat BTC that is opened, for the
    Backpack order of that open. *)
Lemma scan_pass_orders_flat_symbols_witness :
  order_for_flat_symbol Helpers.get_backpack_symbol
    Helpers.get_hyperliquid_symbol ["BTC"] [] []
    (Backpack,
     ReqPlaceOrder (mkOrder "BTC_USDC_PERP" "SELL" 0.01 None "MARKET")).
Proof.
  destruct (scan_pass_orders_flat_symbols Helpers.get_backpack_symbol
              Helpers.get_hyperliquid_symbol
              Helpers.calculate_funding_diff Helpers.float_of_str
              Cases.quiet_display Sim.config_top Sim.world
              Sim.backpack_api Sim.hyperliquid_api (Some ["BTC"])
              Sim.scenario_machine) as (_ & new & Hcalls & Horders).
  vm_compute in Hcalls. subst new.
  cbv beta iota zeta
    delta [get_positions Sim.backpack_api Sim.hyperliquid_api
           Sim.scenario_machine Sim.start Sim.flat Sim.bp_book Sim.hl_book
           world get_or] in Horders.
  apply Horders.
  - cbn [In]. do 6 right. left. reflexivity.
  - reflexivity.
Defined.

(** The theorem at an open of BTC on flat venues that fill both
    orders. *)
Lemma open_verdict_from_positions_witness :
  let m := Sim.start (Sim.fresh_engine 0.0002 0.00000625)
             (Sim.flat true true) in
  let r := _open_position Helpers.get_backpack_symbol
             Helpers.get_hyperliquid_symbol Helpers.calculate_funding_diff
             Sim.config_top Sim.world Sim.backpack_api Sim.hyperliquid_api
             "BTC" 0.00015 0.0002 0.00005 (Some 0.01) m in
  fst r = Ok (Some true)
  /\ calls (snd r)
     = [ (Backpack, ReqPositions); (Hyperliquid, ReqPositions);
         (Backpack, ReqPlaceOrder
                      (mkOrder "BTC_USDC_PERP" "SELL" 0.01 None "MARKET"));
         (Hyperliquid, ReqPlaceOrder
                         (mkOrder "BTC" "SELL" 0.01 (Some 99.5) "LIMIT"));
         (Backpack, ReqPositions); (Hyperliquid, ReqPositions) ].
Proof.
  intros m r.
  pose (w := snd (place_order Sim.backpack_api
                    (mkOrder "BTC_USDC_PERP" "SELL" 0.01 None "MARKET")
                    (Sim.flat true true))).
  pose (w' := snd (place_order Sim.hyperliquid_api
                     (mkOrder "BTC" "SELL" 0.01 (Some 99.5) "LIMIT") w)).
  destruct (open_verdict_from_positions Helpers.get_backpack_symbol
              Helpers.get_hyperliquid_symbol
              Helpers.calculate_funding_diff Sim.config_top Sim.world
              Sim.backpack_api Sim.hyperliquid_api "BTC" 0.00015 0.0002
              0.00005 0.01 m (Sim.btc_snapshot 0.0002 0.00000625) 100 100
              0.001 Sim.btc_pair eq_refl eq_refl eq_refl eq_refl eq_refl
              eq_refl 99.5 [] [] (Sim.bp_book w')
              (Sim.hl_book w') (Ok Sim.accepted) (Ok Sim.accepted)
              (Sim.flat true true) (Sim.flat true true) w w' w' w')
    as [Hverdict Hcalls]; try reflexivity.
  split; [exact Hverdict|].
  apply Hcalls. reflexivity.
Defined.

(** The theorem at a BTC entry whose tick size is 0. *)
Lemma open_zero_tick_size_fails_witness :
  let m := Sim.start (Sim.fresh_engine 0.0002 0.00000625)
             (Sim.flat true true) in
  let r := _open_position Helpers.get_backpack_symbol
             Helpers.get_hyperliquid_symbol Helpers.calculate_funding_diff
             Cases.config_zero_tick Sim.world Sim.backpack_api
             Sim.hyperliquid_api "BTC" 0.00015 0.0002 0.00005 (Some 0.01)
             m in
  fst r = Ok (Some false)
  /\ eng (snd r)
     = open_run_engine Helpers.calculate_funding_diff "BTC" 0.0002 0.00005
         100 100 (eng m)
  /\ exists new,
       calls (snd r) = (calls m ++ new)%list
       /\ existsb is_order_request new = false.
Proof.
  intros m r.
  apply (open_zero_tick_size_fails Helpers.get_backpack_symbol
           Helpers.get_hyperliquid_symbol Helpers.calculate_funding_diff
           Cases.config_zero_tick Sim.world Sim.backpack_api
           Sim.hyperliquid_api "BTC" 0.00015 0.0002 0.00005 0.01 m
           (Sim.btc_snapshot 0.0002 0.00000625) 100 100 0.001
           Cases.zero_tick_pair); reflexivity.
Defined.
